(** * qPCR ΔΔCt engine: a shallow embedding of [core/compute.py]

    The engine [compute_ddct] reads one sheet of per-well measurements,
    classifies the wells with two regular expressions, removes outlier wells
    per (Sample, Gene) partition, computes ΔCt, the per-gene control baseline,
    ΔΔCt and the fold change, and writes a workbook.

    Numbers are the binary64 floats of the kernel ([PrimFloat]), with the
    IEEE operations the Python code runs; text is [string] (bytes, ordered
    as Python orders code points); the table is a list of rows that carry the
    pandas index label they were read with.  What the code takes from its
    runtime (the regular-expression engine, the text form of a number, the
    parsing of numeric-like text, the power function) is a parameter of the
    model, the record [Runtime]. *)

From Stdlib Require Import List String Ascii ZArith Bool Floats.
From Stdlib Require Import Sorting.Permutation Sorting.Sorted OrderedTypeEx.
From Stdlib Require Import Setoid Morphisms.
From Stdlib Require Import NArith Lia DecimalString DecimalN.
Import ListNotations.

Set Warnings "-inexact-float".

(* ================================================================= *)
(** ** Text *)

Module Str.

(** [str.lower()] on the ASCII letters.  (Python also lowers letters
    outside ASCII; none of them becomes an ASCII letter of "mad", "iqr" or
    "zscore", the only texts a lowered text is compared with.) *)
Definition lower_char (c : ascii) : ascii :=
  let n := nat_of_ascii c in
  if andb (65 <=? n) (n <=? 90) then ascii_of_nat (n + 32) else c.

Fixpoint lower (s : string) : string :=
  match s with
  | EmptyString => EmptyString
  | String c t => String (lower_char c) (lower t)
  end.

(** [s.rfind(c)] as a cut: the text before the last [c] and the text after
    it, [None] when [c] does not occur in [s]. *)
Fixpoint rcut (c : ascii) (s : string) : option (string * string) :=
  match s with
  | EmptyString => None
  | String a t =>
      match rcut c t with
      | Some (h, tl) => Some (String a h, tl)
      | None => if Ascii.eqb a c then Some (EmptyString, t) else None
      end
  end.

(** [c in s] *)
Fixpoint contains (c : ascii) (s : string) : bool :=
  match s with
  | EmptyString => false
  | String a t => Ascii.eqb a c || contains c t
  end.

(** [s.rstrip(c)] *)
Fixpoint rstrip (c : ascii) (s : string) : string :=
  match s with
  | EmptyString => EmptyString
  | String a t =>
      match rstrip c t with
      | EmptyString => if Ascii.eqb a c then EmptyString else String a EmptyString
      | t' => String a t'
      end
  end.

(** [s == c * len(s)] *)
Fixpoint all_char (c : ascii) (s : string) : bool :=
  match s with
  | EmptyString => true
  | String a t => Ascii.eqb a c && all_char c t
  end.

Fixpoint ends_with (c : ascii) (s : string) : bool :=
  match s with
  | EmptyString => false
  | String a EmptyString => Ascii.eqb a c
  | String _ t => ends_with c t
  end.

Definition starts_with (c : ascii) (s : string) : bool :=
  match s with
  | EmptyString => false
  | String a _ => Ascii.eqb a c
  end.

Definition is_empty (s : string) : bool :=
  match s with EmptyString => true | _ => false end.

(** [p in s] *)
Fixpoint occurs (p s : string) : bool :=
  String.prefix p s ||
  match s with
  | EmptyString => false
  | String _ t => occurs p t
  end.

(** [ext[1:] if ext.startswith(".") else ext] *)
Definition drop_dot (ext : string) : string :=
  match ext with
  | String "."%char t => t
  | _ => ext
  end.

End Str.

(* ================================================================= *)
(** ** Keys: the equality and the order that [sorted], [unique],
    [groupby] and [sort_values] use *)

Class Key (K : Type) : Type := {
  key_eqb : K -> K -> bool;
  key_leb : K -> K -> bool
}.

#[export] Instance string_Key : Key string :=
  {| key_eqb := String.eqb; key_leb := String.leb |}.

(** Tuples compare lexicographically. *)
#[export] Instance pair_Key {A B} `{Key A} `{Key B} : Key (A * B) :=
  {| key_eqb := fun x y => key_eqb (fst x) (fst y) && key_eqb (snd x) (snd y);
     key_leb := fun x y =>
       if key_eqb (fst x) (fst y) then key_leb (snd x) (snd y)
       else key_leb (fst x) (fst y) |}.

(** The laws of a key: its equality is equality, its order is total. *)
Class KeyLaws (K : Type) `{Key K} : Prop := {
  key_eqb_eq : forall x y : K, key_eqb x y = true <-> x = y;
  key_leb_total : forall x y : K, key_leb x y = true \/ key_leb y x = true;
  key_leb_antisym : forall x y : K, key_leb x y = true -> key_leb y x = true -> x = y;
  key_leb_trans : forall x y z : K,
      key_leb x y = true -> key_leb y z = true -> key_leb x z = true
}.
Arguments KeyLaws K {_}.

Section Sorting.
Context {K : Type} `{Key K} {A : Type}.
Variable key : A -> K.

(** Stable insertion: [x] goes before the first element whose key is not
    below its own. *)
Fixpoint insert_by (x : A) (l : list A) : list A :=
  match l with
  | [] => [x]
  | y :: t => if key_leb (key x) (key y) then x :: l else y :: insert_by x t
  end.

(** [sort_values(..., kind="mergesort")] and [sorted]: a stable sort. *)
Definition sort_by (l : list A) : list A := fold_right insert_by [] l.

(** The rows of one group, in table order. *)
Definition group_of (k : K) (l : list A) : list A :=
  filter (fun a => key_eqb (key a) k) l.
End Sorting.

Section Unique.
Context {K : Type} `{Key K}.

(** [Series.unique()] / [set(...)]: each value once. *)
Fixpoint unique (l : list K) : list K :=
  match l with
  | [] => []
  | x :: t => x :: filter (fun y => negb (key_eqb x y)) (unique t)
  end.

Definition sorted (l : list K) : list K := sort_by (fun k => k) l.

(** The group keys of a [groupby], in the order pandas yields them. *)
Definition group_keys {A} (key : A -> K) (l : list A) : list K :=
  sorted (unique (map key l)).

Fixpoint lookup {V} (k : K) (tbl : list (K * V)) : option V :=
  match tbl with
  | [] => None
  | (k', v) :: t => if key_eqb k' k then Some v else lookup k t
  end.

Definition mem (k : K) (l : list K) : bool := existsb (key_eqb k) l.
End Unique.

Section Order.
Context {K : Type} `{Key K}.

(** Below, and strictly below, in the order of the keys. *)
Definition kle (x y : K) : Prop := key_leb x y = true.
Definition klt (x y : K) : Prop := key_leb x y = true /\ x <> y.
End Order.

(* ================================================================= *)
(** ** Series statistics over binary64 *)

Module Stats.
Open Scope float_scope.

Definition of_nat (n : nat) : float := PrimFloat.of_uint63 (Uint63.of_Z (Z.of_nat n)).

(** [values.sum()], numpy's pairwise summation.  Fewer than eight elements
    are added from left to right.  Up to 128 elements are added in eight
    interleaved accumulators, which are then added in pairs, and the
    elements past the last full row of eight are added after.  A longer
    array is cut in two at a multiple of eight and the two sums are added. *)
Definition add_all (acc : float) (l : list float) : float :=
  fold_left PrimFloat.add l acc.

(** [blocks] rows of eight elements added to the eight accumulators [r]. *)
Fixpoint accumulate (r : list float) (blocks : nat) (l : list float) : list float :=
  match blocks with
  | O => r
  | S b =>
      accumulate (map (fun p => fst p + snd p) (combine r (firstn 8 l))) b (skipn 8 l)
  end.

Definition sum_block (l : list float) : float :=
  let n := List.length l in
  let r := accumulate (firstn 8 l) (n / 8 - 1)%nat (skipn 8 l) in
  let res := ((nth 0 r 0 + nth 1 r 0) + (nth 2 r 0 + nth 3 r 0)) +
             ((nth 4 r 0 + nth 5 r 0) + (nth 6 r 0 + nth 7 r 0)) in
  add_all res (skipn (n - n mod 8)%nat l).

(** Every call halves the array, so [fuel] calls are more than an array of
    [fuel] elements needs. *)
Fixpoint pairwise_sum (fuel : nat) (l : list float) : float :=
  let n := List.length l in
  if (n <? 8)%nat then
    match l with
    | [] => 0
    | x :: t => add_all x t
    end
  else if (n <=? 128)%nat then sum_block l
  else
    match fuel with
    | O => 0
    | S fuel =>
        let n2 := (n / 2 - (n / 2) mod 8)%nat in
        pairwise_sum fuel (firstn n2 l) + pairwise_sum fuel (skipn n2 l)
    end.

Definition fsum (l : list float) : float := pairwise_sum (List.length l) l.

(** The values of a series that are not NaN: the statistics of pandas skip
    the others. *)
Definition notna (l : list float) : list float :=
  filter (fun x => negb (is_nan x)) l.

(** [Series.mean()], pandas' [nanmean]: the sum of the values, a NaN
    counting as 0, over the number of values that are not NaN; NaN for a
    series without any. *)
Definition mean (l : list float) : float :=
  fsum (map (fun x => if is_nan x then 0 else x) l) / of_nat (List.length (notna l)).

(** The mean of [groupby(...).mean()], pandas' [group_mean]: the values
    that are NaN are skipped; the others are added in row order with Kahan's
    compensation, which is reset when it is NaN (after an infinity); the sum
    is divided by the number of values added, and the mean of no value is
    NaN. *)
Record Kahan : Type := {
  nobs : nat;
  sumx : float;
  compensation : float
}.

Definition kahan_add (st : Kahan) (val : float) : Kahan :=
  if is_nan val then st
  else
    let y := val - compensation st in
    let t := sumx st + y in
    let c := t - sumx st - y in
    {| nobs := S (nobs st); sumx := t;
       compensation := if is_nan c then 0 else c |}.

Definition group_mean (l : list float) : float :=
  let st := fold_left kahan_add l {| nobs := 0; sumx := 0; compensation := 0 |} in
  if Nat.eqb (nobs st) 0 then nan else sumx st / of_nat (nobs st).

Fixpoint insert_float (x : float) (l : list float) : list float :=
  match l with
  | [] => [x]
  | y :: t => if x <=? y then x :: l else y :: insert_float x t
  end.

Definition sort_float (l : list float) : list float := fold_right insert_float [] l.

(** [Series.median()]: the middle value, the half sum of the two middle
    values when the length is even. *)
Definition median (l : list float) : float :=
  let s := sort_float (notna l) in
  let n := List.length s in
  if Nat.eqb n 0 then nan
  else if Nat.even n then (nth (n / 2 - 1)%nat s nan + nth (n / 2)%nat s nan) / 2
  else nth (n / 2)%nat s nan.

(** numpy's linear interpolation. *)
Definition _lerp (a b t : float) : float :=
  let diff_b_a := b - a in
  if 0.5 <=? t then b - diff_b_a * (1 - t) else a + diff_b_a * t.

(** [Series.quantile(k/4)] with the default linear interpolation.  The
    virtual index [(n-1) * k/4], its floor and the fraction left are exact in
    binary64, so they are computed on integers. *)
Definition quantile (k : nat) (l : list float) : float :=
  let s := sort_float (notna l) in
  let n := List.length s in
  if Nat.eqb n 0 then nan
  else
    let pos := ((n - 1) * k)%nat in
    let previous := (pos / 4)%nat in
    let next := Nat.min (previous + 1) (n - 1) in
    let gamma := of_nat (pos mod 4)%nat / 4 in
    _lerp (nth previous s nan) (nth next s nan) gamma.

(** [Series.std(ddof=0)], pandas' [nanvar]: the two-pass population
    standard deviation of the values that are not NaN. *)
Definition std0 (l : list float) : float :=
  let avg := mean l in
  let sqr := map (fun x => if is_nan x then 0 else (avg - x) * (avg - x)) l in
  PrimFloat.sqrt (fsum sqr / of_nat (List.length (notna l))).

Definition all_false (s : list float) : list bool := map (fun _ => false) s.

(** The inner function [_flag_outliers] of [compute_ddct]: one flag per
    value of the series. *)
Definition _flag_outliers (s : list float) (method : string) (thresh : float)
  : list bool :=
  if String.eqb method "mad" then
    let med := median s in
    let mad := 1.4826 * median (map (fun x => abs (x - med)) s) in
    if (mad =? 0) || is_nan mad then all_false s
    else map (fun x => thresh <? abs (x - med) / mad) s
  else if String.eqb method "iqr" then
    let q1 := quantile 1 s in
    let q3 := quantile 3 s in
    let iqr := q3 - q1 in
    if (iqr =? 0) || is_nan iqr then all_false s
    else
      let lo := q1 - thresh * iqr in
      let hi := q3 + thresh * iqr in
      map (fun x => (x <? lo) || (hi <? x)) s
  else if String.eqb method "zscore" then
    let mu := mean s in
    let sd := std0 s in
    if (sd =? 0) || is_nan sd then all_false s
    else map (fun x => thresh <? abs (x - mu) / sd) s
  else all_false s.

End Stats.

(* ================================================================= *)
(** ** [os.path] (POSIX flavour) *)

Module OsPath.

Definition sep : ascii := "/"%char.
Definition extsep : ascii := "."%char.

(** [os.path.split]: everything up to the last slash, and what follows it;
    trailing slashes are stripped from a head that is not all slashes. *)
Definition split (p : string) : string * string :=
  match Str.rcut sep p with
  | None => (EmptyString, p)
  | Some (h, tail) =>
      let head := (h ++ String sep EmptyString)%string in
      (if negb (Str.all_char sep head) then Str.rstrip sep head else head, tail)
  end.

(** [os.path.splitext]: the extension starts at the last dot of the last
    path component, leading dots of the component apart. *)
Definition splitext (p : string) : string * string :=
  let '(dir, name) :=
    match Str.rcut sep p with
    | Some (h, t) => ((h ++ String sep EmptyString)%string, t)
    | None => (EmptyString, p)
    end in
  match Str.rcut extsep name with
  | Some (before, after) =>
      if Str.all_char extsep before then (p, EmptyString)
      else ((dir ++ before)%string, String extsep after)
  | None => (p, EmptyString)
  end.

(** [os.path.join(a, b)] *)
Definition join (a b : string) : string :=
  if Str.starts_with sep b then b
  else if Str.is_empty a || Str.ends_with sep a then (a ++ b)%string
  else (a ++ String sep b)%string.

(** A directory as [split] yields it: a run of slashes, or a path that does
    not end with a slash. *)
Definition dir_normal (d : string) : Prop :=
  d <> EmptyString /\
  (Str.all_char sep d = true \/ Str.ends_with sep d = false).

End OsPath.

(* ================================================================= *)
(** ** The table read from the sheet *)

Inductive cell : Type :=
| CNum (x : float)      (* a numeric cell; an empty cell is NaN *)
| CStr (s : string).    (* a text cell *)

Definition RawRow : Type := list (string * cell).

(** The table [read_excel] returns.  A header label is text or a number,
    as the header cell is (a blank header cell is read as the text
    [Unnamed: n], two equal ones are told apart by a numbered suffix); the
    engine looks rows up under text labels only. *)
Record DataFrame : Type := {
  columns : list cell;
  rows : list RawRow
}.

(** The value of a row in a column: NaN where the row has none. *)
Definition get (col : string) (r : RawRow) : cell :=
  match lookup col r with
  | Some c => c
  | None => CNum nan
  end.

(** Cells of the well column order as numbers, then as text. *)
#[export] Instance cell_Key : Key cell :=
  {| key_eqb := fun a b =>
       match a, b with
       | CNum x, CNum y => (x =? y)%float
       | CStr s, CStr t => String.eqb s t
       | _, _ => false
       end;
     key_leb := fun a b =>
       match a, b with
       | CNum x, CNum y => (x <=? y)%float
       | CStr s, CStr t => String.leb s t
       | CNum _, CStr _ => true
       | CStr _, CNum _ => false
       end |}.

(** The arguments of [compute_ddct]; the sheet [sheet_name] of [excel_path]
    is the [DataFrame] the engine is run on. *)
Record Config : Type := {
  excel_path : string;
  control_group_regex : string;
  ref_gene_regex : string;
  output_path : option string;
  control_search_col : string;
  ref_search_col : string;
  sample_name_col : string;
  cq_col : string;
  well_col : string;
  exclude_ref_in_sample_sheet : bool;
  assume_case_insensitive_regex : bool;
  outlier_method : string;
  outlier_threshold : float;
  outlier_min_reps : Z;
  record_outliers : bool;
  enable_outlier_filter : bool
}.

(** What the engine takes from Python and its libraries. *)
Record Runtime : Type := {
  (** [str(x)] of a numeric cell, as [astype(str)] writes it *)
  py_str : float -> string;
  (** [pd.to_numeric(errors="coerce")] on a text cell: NaN when the text is
      not numeric-like *)
  to_numeric_text : string -> float;
  (** [re.compile(pattern, flags)], the flag being [re.IGNORECASE], as the
      predicate [bool(compiled.search(x))]; [None] when the pattern does not
      compile *)
  re_compile : string -> bool -> option (string -> bool);
  (** [x ** y] on floats *)
  py_pow : float -> float -> float
}.

(** The five failures of the engine (each a [ValueError] with its own
    message in the code), and those that come from Python and its
    libraries. *)
Inductive Error : Type :=
| SchemaError (missing : list string) (present : list cell)
| NoControlMatchError
| MissingReferenceError (samples : list string)
| MissingControlBaselineError (col : string) (genes : list string)
| EmptyResultError
| SortTypeError                       (* [TypeError]: [sorted] on text and numbers *)
| PatternError (pattern : string)     (* [re.error] *)
| ReindexError                        (* [ValueError] of [reindex] on a frame *)
| ExtensionError (ext : string)       (* [ValueError] of [pd.ExcelWriter] *)
| KeyError (col : string).            (* [sort_values] on an absent column *)

(** A well of the working table, with its index label and its two marks. *)
Record Row : Type := {
  ix : nat;
  Group : string;
  _SampleLabel : string;
  Gene : string;            (* the value in [ref_search_col] *)
  Well : cell;
  Cq : float;
  ref_mask : bool;
  control_mask : bool
}.

(** A well with the reference mean of its sample merged in. *)
Record RowD : Type := {
  row : Row;
  ref_mean_cq : float
}.

(** A well with the control baseline of its gene merged in. *)
Record RowDD : Type := {
  rowd : RowD;
  control_mean_ΔCt : float
}.

Record WellOut : Type := {
  w_Gene : string; w_Group : string; w_Sample : string; w_Well : cell;
  w_Cq : float; w_ΔCt : float; w_ΔΔCt : float; w_Fold_Change : float
}.

Record SampleOut : Type := {
  s_Gene : string; s_Group : string; s_Sample : string;
  s_Cq : float; s_ΔCt : float; s_ΔΔCt : float; s_Fold_Change : float
}.

Record OutlierOut : Type := {
  o_Group : string; o_Sample : string; o_Gene : string; o_Well : cell;
  o_Cq : float
}.

Inductive SheetData : Type :=
| WellSheet (t : list WellOut)
| SampleSheet (t : list SampleOut)
| OutlierSheet (t : list OutlierOut).

(** A workbook: named sheets.  The file system: the artifacts written, the
    latest first. *)
Definition Workbook : Type := list (string * SheetData).
Definition FileSystem : Type := list (string * Workbook).

(* ================================================================= *)
(** ** The monad of the engine: failure, and the artifacts written *)

Definition M (A : Type) : Type := FileSystem -> (Error + A) * FileSystem.

Definition ret {A} (a : A) : M A := fun fs => (inr a, fs).

Definition bind {A B} (c : M A) (k : A -> M B) : M B :=
  fun fs =>
    match c fs with
    | (inl e, fs') => (inl e, fs')
    | (inr a, fs') => k a fs'
    end.

Definition raise {A} (e : Error) : M A := fun fs => (inl e, fs).

(** [raise e] when [b] holds. *)
Definition raise_if (b : bool) (e : Error) : M unit :=
  if b then raise e else ret tt.

(** Closing an [ExcelWriter]: the workbook is saved at [path].  The file
    system of the model takes a workbook at every path.  A path that the
    operating system does not let the writer open (a directory that does not
    exist, a file that may not be written) is outside the model: there the
    writer raises an [OSError] when it is made, before any sheet is
    written. *)
Definition save (path : string) (wb : Workbook) : M unit :=
  fun fs => (inr tt, (path, wb) :: fs).

Notation "x <- c ;; k" := (bind c (fun x => k))
  (at level 61, c at next level, right associativity).
Notation "c ;;; k" := (bind c (fun _ => k))
  (at level 61, right associativity).

(** What [groupby(...).apply(...)] returns for functions that give a
    series of flags per group: a series, or a frame of one row. *)
Inductive Applied : Type :=
| SeriesOf (flags : list (nat * bool))
| FrameOf (key : string * string) (flags : list (nat * bool)).

Definition nonempty {A} (l : list A) : bool :=
  match l with [] => false | _ => true end.

(** [groupby(key)[val].mean()]: one mean per key, the keys in order. *)
Definition groupby_mean {K} `{Key K} {A} (key : A -> K) (val : A -> float)
    (l : list A) : list (K * float) :=
  map (fun k => (k, Stats.group_mean (map val (group_of key k l))))
    (group_keys key l).

(** A left [merge] on a key: the value of the key, NaN when it has none. *)
Definition merged {K} `{Key K} (tbl : list (K * float)) (k : K) : float :=
  match lookup k tbl with
  | Some v => v
  | None => nan
  end.

(* ================================================================= *)
(** ** The engine *)

Section Engine.
Variable rt : Runtime.
Variable cfg : Config.

(** *** Loading: column check, numeric coercion, dropped rows *)

Definition required_cols : list string :=
  [control_search_col cfg; ref_search_col cfg; sample_name_col cfg;
   cq_col cfg; well_col cfg].

(** [required_cols - set(df.columns)] *)
Definition missing (df : DataFrame) : list string :=
  filter (fun c => negb (mem (CStr c) (columns df))) required_cols.

(** [pd.to_numeric(..., errors="coerce")] on one cell *)
Definition to_numeric (c : cell) : float :=
  match c with
  | CNum x => x
  | CStr s => to_numeric_text rt s
  end.

(** [astype(str)] on one cell *)
Definition astype_str (c : cell) : string :=
  match c with
  | CNum x => py_str rt x
  | CStr s => s
  end.

(** The rows under their index labels, the quantification value coerced,
    the rows without one dropped. *)
Definition load (df : DataFrame) : list (nat * RawRow * float) :=
  filter (fun t => negb (is_nan (snd t)))
    (map (fun ir => (fst ir, snd ir, to_numeric (get (cq_col cfg) (snd ir))))
       (combine (seq 0 (List.length (rows df))) (rows df))).

(** *** Classification *)

Definition compile (pattern : string) : M (string -> bool) :=
  match re_compile rt pattern (assume_case_insensitive_regex cfg) with
  | Some search => ret search
  | None => raise (PatternError pattern)
  end.

Definition _split_group_sample (label : string) : string * string :=
  if Str.contains "-" label then
    match Str.rcut "-" label with
    | Some (head, _) => (head, label)
    | None => (label, label)
    end
  else (label, label).

Definition text_cols : list string :=
  [control_search_col cfg; ref_search_col cfg; sample_name_col cfg].

(** The well column as the table holds it once the quantification column
    is numeric and the three text columns are text.  (The model keeps the
    quantification column numeric: a configuration that also names it as a
    text column makes pandas compute on text, which is not modelled.) *)
Definition well_cell (r : RawRow) (cq : float) : cell :=
  if mem (well_col cfg) text_cols then CStr (astype_str (get (well_col cfg) r))
  else if String.eqb (well_col cfg) (cq_col cfg) then CNum cq
  else get (well_col cfg) r.

Definition classify (control_re ref_re : string -> bool)
    (t : nat * RawRow * float) : Row :=
  let r := snd (fst t) in
  let parsed := _split_group_sample (astype_str (get (sample_name_col cfg) r)) in
  let gene := astype_str (get (ref_search_col cfg) r) in
  {| ix := fst (fst t);
     Group := fst parsed;
     _SampleLabel := snd parsed;
     Gene := gene;
     Well := well_cell r (snd t);
     Cq := snd t;
     ref_mask := ref_re gene;
     control_mask := control_re (astype_str (get (control_search_col cfg) r)) |}.

(** The table once the rows are classified. *)
Definition classified (control_re ref_re : string -> bool) (df : DataFrame)
  : list Row :=
  map (classify control_re ref_re) (load df).

(** *** Outlier filter *)

Definition grp_key (r : Row) : string * string := (_SampleLabel r, Gene r).

(** The flags of one group, under the index labels of its rows. *)
Definition _group_flag (g : list Row) : list (nat * bool) :=
  if (Z.of_nat (List.length g) <? outlier_min_reps cfg)%Z
  then map (fun r => (ix r, false)) g
  else combine (map ix g)
         (Stats._flag_outliers (map Cq g) (Str.lower (outlier_method cfg))
            (outlier_threshold cfg)).

(** [df.groupby(grp_keys).apply(_group_flag)].  The flags of several
    groups are concatenated, one group after the other in the order of
    their keys, into a series under the row labels.  The flags of one single
    group are stacked into a frame of one row, which is labelled by the key
    of the group and has the row labels as its columns. *)
Definition outlier_mask (df : list Row) : Applied :=
  match group_keys grp_key df with
  | [k] => FrameOf k (_group_flag (group_of grp_key k df))
  | ks => SeriesOf (flat_map (fun k => _group_flag (group_of grp_key k df)) ks)
  end.

(** [outlier_mask.reindex(df.index)]: the series under the row labels.  On
    the frame, whose rows are labelled by pairs, the row labels make
    [reindex] raise a [ValueError]. *)
Definition reindex (m : Applied) : option (list (nat * bool)) :=
  match m with
  | SeriesOf flags => Some flags
  | FrameOf _ _ => None
  end.

(** [outlier_mask.reindex(df.index).fillna(False)] at one row; no row is
    marked when [reindex] has raised. *)
Definition _Outlier (df : list Row) (r : Row) : bool :=
  match reindex (outlier_mask df) with
  | Some flags =>
      match find (fun e => Nat.eqb (fst e) (ix r)) flags with
      | Some e => snd e
      | None => false
      end
  | None => false
  end.

(** The filter stage fails: the filter is on and [reindex] raises. *)
Definition filter_fails (df : list Row) : bool :=
  enable_outlier_filter cfg &&
  match reindex (outlier_mask df) with
  | Some _ => false
  | None => true
  end.

Definition outliers_of (df : list Row) : list Row := filter (_Outlier df) df.
Definition drop_outliers (df : list Row) : list Row :=
  filter (fun r => negb (_Outlier df r)) df.

(** The working table the ΔCt stage starts from. *)
Definition working (df : list Row) : list Row :=
  if enable_outlier_filter cfg then drop_outliers df else df.

(** *** ΔCt *)

Definition ref_per_sample (df : list Row) : list (string * float) :=
  groupby_mean _SampleLabel Cq (filter ref_mask df).

Definition merge_ref (df : list Row) : list RowD :=
  map (fun r => {| row := r;
                   ref_mean_cq := merged (ref_per_sample df) (_SampleLabel r) |}) df.

Definition missing_samples (df : list RowD) : list string :=
  sorted (unique (map (fun r => _SampleLabel (row r))
                    (filter (fun r => is_nan (ref_mean_cq r)) df))).

Definition ΔCt (r : RowD) : float := (Cq (row r) - ref_mean_cq r)%float.

(** *** Control baseline, ΔΔCt, fold change *)

Definition control_per_sample (df : list RowD) : list (string * string * float) :=
  groupby_mean (fun r => grp_key (row r)) ΔCt
    (filter (fun r => control_mask (row r)) df).

Definition control_baseline (df : list RowD) : list (string * float) :=
  groupby_mean (fun e => snd (fst e)) snd (control_per_sample df).

Definition merge_control (df : list RowD) : list RowDD :=
  map (fun r => {| rowd := r;
                   control_mean_ΔCt := merged (control_baseline df) (Gene (row r)) |}) df.

Definition missing_genes (df : list RowDD) : list string :=
  sorted (unique (map (fun r => Gene (row (rowd r)))
                    (filter (fun r => is_nan (control_mean_ΔCt r)) df))).

Definition ΔΔCt (r : RowDD) : float := (ΔCt (rowd r) - control_mean_ΔCt r)%float.

Definition Fold_Change (r : RowDD) : float := py_pow rt 2%float (- ΔΔCt r)%float.

(** *** The result tables *)

Definition well_of (r : RowDD) : WellOut :=
  let w := row (rowd r) in
  {| w_Gene := Gene w; w_Group := Group w; w_Sample := _SampleLabel w;
     w_Well := Well w; w_Cq := Cq w; w_ΔCt := ΔCt (rowd r);
     w_ΔΔCt := ΔΔCt r; w_Fold_Change := Fold_Change r |}.

Definition well_df (df : list RowDD) : list WellOut :=
  sort_by (fun w => (w_Gene w, w_Group w, w_Sample w)) (map well_of df).

Definition sample_key (r : RowDD) : string * string * string :=
  let w := row (rowd r) in (Group w, _SampleLabel w, Gene w).

Definition sample_of (source : list RowDD) (k : string * string * string)
  : SampleOut :=
  let g := group_of sample_key k source in
  {| s_Gene := snd k; s_Group := fst (fst k); s_Sample := snd (fst k);
     s_Cq := Stats.group_mean (map (fun r => Cq (row (rowd r))) g);
     s_ΔCt := Stats.group_mean (map (fun r => ΔCt (rowd r)) g);
     s_ΔΔCt := Stats.group_mean (map ΔΔCt g);
     s_Fold_Change := Stats.group_mean (map Fold_Change g) |}.

Definition sample_df (source : list RowDD) : list SampleOut :=
  sort_by (fun s => (s_Gene s, s_Group s, s_Sample s))
    (map (sample_of source) (group_keys sample_key source)).

Definition outlier_of (r : Row) : OutlierOut :=
  {| o_Group := Group r; o_Sample := _SampleLabel r; o_Gene := Gene r;
     o_Well := Well r; o_Cq := Cq r |}.

Definition outliers_sheet (o : list Row) : list OutlierOut :=
  sort_by (fun r => (o_Gene r, o_Group r, o_Sample r, o_Well r)) (map outlier_of o).

(** *** Export *)

(** ["<stem>_ddct.xlsx"] next to the input *)
Definition default_output_path (excel_path : string) : string :=
  let '(base, stem) := OsPath.split excel_path in
  let '(root, _) := OsPath.splitext stem in
  OsPath.join (if Str.is_empty base then "." else base)
    (root ++ "_ddct.xlsx")%string.

(** [ExcelWriter.check_extension]: the extension of the path, its leading
    dot apart, has to occur in [".xlsx"], the one extension the xlsxwriter
    engine supports. *)
Definition check_extension (ext : string) : bool :=
  Str.occurs (Str.drop_dot ext) ".xlsx".

(** [pd.ExcelWriter(path, engine="xlsxwriter")]: a path whose extension is
    not accepted is refused with a [ValueError], before any file is made. *)
Definition ExcelWriter (path : string) : M unit :=
  let ext := snd (OsPath.splitext path) in
  raise_if (negb (check_extension ext)) (ExtensionError (Str.drop_dot ext)).

(** The [with pd.ExcelWriter(...)] block: the workbook is saved when the
    block is left, also when sorting the outliers by ["Well"] fails
    because the well column has another name. *)
Definition export (out : string) (well : list WellOut) (sample : list SampleOut)
    (outliers_df : option (list Row)) : M unit :=
  let two := [("well"%string, WellSheet well); ("sample"%string, SampleSheet sample)] in
  ExcelWriter out ;;;
  match outliers_df with
  | Some o =>
      if record_outliers cfg && nonempty o then
        if String.eqb (well_col cfg) "Well" then
          save out (two ++ [("outliers"%string, OutlierSheet (outliers_sheet o))])
        else save out two ;;; raise (KeyError "Well")
      else save out two
  | None => save out two
  end.

(** *** [compute_ddct], on the table read from the sheet *)

(** The rows the sample sheet averages. *)
Definition sample_source (df4 : list RowDD) : list RowDD :=
  if exclude_ref_in_sample_sheet cfg
  then filter (fun r => negb (ref_mask (row (rowd r)))) df4 else df4.

(** The path of the workbook. *)
Definition out_path : string :=
  match output_path cfg with
  | Some p => p
  | None => default_output_path (excel_path cfg)
  end.

(** The removed wells; not defined when the filter is off. *)
Definition outliers_df (df1 : list Row) : option (list Row) :=
  if enable_outlier_filter cfg then Some (outliers_of df1) else None.

(** The failure of the column check.  Its message holds [sorted(missing)]
    and [sorted(df.columns)], and [sorted] raises a [TypeError] on a header
    that has text labels and numbers. *)
Definition mixed_labels (l : list cell) : bool :=
  existsb (fun c => match c with CStr _ => true | CNum _ => false end) l &&
  existsb (fun c => match c with CNum _ => true | CStr _ => false end) l.

Definition schema_failure (df : DataFrame) : Error :=
  if mixed_labels (columns df) then SortTypeError
  else SchemaError (sorted (unique (missing df))) (sorted (columns df)).

Definition compute_ddct (df : DataFrame)
  : M (list WellOut * list SampleOut * string) :=
  raise_if (nonempty (missing df)) (schema_failure df) ;;;
  control_re <- compile (control_group_regex cfg) ;;
  ref_re <- compile (ref_gene_regex cfg) ;;
  let df1 := classified control_re ref_re df in
  raise_if (negb (existsb control_mask df1)) NoControlMatchError ;;;
  raise_if (filter_fails df1) ReindexError ;;;
  let df3 := merge_ref (working df1) in
  raise_if (existsb (fun r => is_nan (ref_mean_cq r)) df3)
    (MissingReferenceError (missing_samples df3)) ;;;
  let df4 := merge_control df3 in
  raise_if (existsb (fun r => is_nan (control_mean_ΔCt r)) df4)
    (MissingControlBaselineError (ref_search_col cfg) (missing_genes df4)) ;;;
  let well := well_df df4 in
  raise_if (negb (nonempty (sample_source df4))) EmptyResultError ;;;
  let sample := sample_df (sample_source df4) in
  export out_path well sample (outliers_df df1) ;;;
  ret (well, sample, out_path).

(** The same run once both patterns are compiled, as a plain function of
    the file system. *)
Definition run_from (control_re ref_re : string -> bool) (df : DataFrame)
    (fs : FileSystem)
  : (Error + list WellOut * list SampleOut * string) * FileSystem :=
  let df1 := classified control_re ref_re df in
  if negb (existsb control_mask df1) then (inl NoControlMatchError, fs) else
  if filter_fails df1 then (inl ReindexError, fs) else
  let df3 := merge_ref (working df1) in
  if existsb (fun r => is_nan (ref_mean_cq r)) df3
  then (inl (MissingReferenceError (missing_samples df3)), fs) else
  let df4 := merge_control df3 in
  if existsb (fun r => is_nan (control_mean_ΔCt r)) df4
  then (inl (MissingControlBaselineError (ref_search_col cfg) (missing_genes df4)), fs)
  else
  if negb (nonempty (sample_source df4)) then (inl EmptyResultError, fs) else
  match export out_path (well_df df4) (sample_df (sample_source df4))
          (outliers_df df1) fs with
  | (inl e, fs') => (inl e, fs')
  | (inr _, fs') =>
      (inr (well_df df4, sample_df (sample_source df4), out_path), fs')
  end.


(** The table of the ΔCt stage of a run: the working table with the
    reference means merged in (empty when a pattern does not compile). *)
Definition dct_table (df : DataFrame) : list RowD :=
  match re_compile rt (control_group_regex cfg) (assume_case_insensitive_regex cfg),
        re_compile rt (ref_gene_regex cfg) (assume_case_insensitive_regex cfg) with
  | Some control_re, Some ref_re =>
      merge_ref (working (classified control_re ref_re df))
  | _, _ => []
  end.

(** The working table of a run, rows without a quantification value
    dropped and outliers removed; none when the run fails before it has
    one. *)
Definition working_table (df : DataFrame) : option (list Row) :=
  if nonempty (missing df) then None
  else
    match re_compile rt (control_group_regex cfg) (assume_case_insensitive_regex cfg),
          re_compile rt (ref_gene_regex cfg) (assume_case_insensitive_regex cfg) with
    | Some control_re, Some ref_re =>
        let df1 := classified control_re ref_re df in
        if existsb control_mask df1 && negb (filter_fails df1)
        then Some (working df1) else None
    | _, _ => None
    end.

(** The reference-gene rows of Sample [s]. *)
Definition reference_rows (wt : list Row) (s : string) : list Row :=
  filter (fun r => ref_mask r && String.eqb (_SampleLabel r) s) wt.

(** Sample [s] has no defined reference mean: it has no reference-gene
    row, or the mean of its reference-gene rows is NaN. *)
Definition undefined_reference (wt : list Row) (s : string) : bool :=
  negb (nonempty (reference_rows wt s)) ||
  is_nan (Stats.group_mean (map Cq (reference_rows wt s))).

(** *** The control baseline in the words of the specification *)

Definition is_control_of (g : string) (r : RowD) : bool :=
  control_mask (row r) && String.eqb (Gene (row r)) g.

(** The control Samples that have wells of gene [g], in label order. *)
Definition control_samples (df : list RowD) (g : string) : list string :=
  sorted (unique (map (fun r => _SampleLabel (row r)) (filter (is_control_of g) df))).

(** Stage (a): the mean ΔCt of the control wells of one (Sample, Gene). *)
Definition control_mean_of (df : list RowD) (g s : string) : float :=
  Stats.group_mean (map ΔCt
    (filter (fun r => is_control_of g r && String.eqb (_SampleLabel (row r)) s) df)).

(** Stage (b): the mean of those per-sample means. *)
Definition mean_of_means (df : list RowD) (g : string) : float :=
  Stats.group_mean (map (control_mean_of df g) (control_samples df g)).

(** The pooled mean over all control wells of a gene, which the baseline
    is not. *)
Definition pooled_mean (df : list RowD) (g : string) : float :=
  Stats.group_mean (map ΔCt (filter (is_control_of g) df)).

End Engine.

(** The five failures of the engine's own. *)
Definition terminal (e : Error) : bool :=
  match e with
  | SchemaError _ _ | NoControlMatchError | MissingReferenceError _
  | MissingControlBaselineError _ _ | EmptyResultError => true
  | SortTypeError | PatternError _ | ReindexError | ExtensionError _
  | KeyError _ => false
  end.

(** A run has passed all validations when it returns, or fails only in
    the export. *)
Definition validated {A} (r : Error + A) : bool :=
  match r with
  | inr _ => true
  | inl (KeyError _) => true
  | inl (ExtensionError _) => true
  | inl _ => false
  end.

(** The configuration with the master switch of the outlier filter off. *)
Definition filter_disabled (cfg : Config) : Config :=
  {| excel_path := excel_path cfg;
     control_group_regex := control_group_regex cfg;
     ref_gene_regex := ref_gene_regex cfg;
     output_path := output_path cfg;
     control_search_col := control_search_col cfg;
     ref_search_col := ref_search_col cfg;
     sample_name_col := sample_name_col cfg;
     cq_col := cq_col cfg;
     well_col := well_col cfg;
     exclude_ref_in_sample_sheet := exclude_ref_in_sample_sheet cfg;
     assume_case_insensitive_regex := assume_case_insensitive_regex cfg;
     outlier_method := outlier_method cfg;
     outlier_threshold := outlier_threshold cfg;
     outlier_min_reps := outlier_min_reps cfg;
     record_outliers := record_outliers cfg;
     enable_outlier_filter := false |}.


(* ================================================================= *)
(** ** The tables of a run, and what the workbook holds *)

Section Outcome.
Variable rt : Runtime.
Variable cfg : Config.

(** The classified table of a run (empty when a pattern does not compile). *)
Definition run_classified (df : DataFrame) : list Row :=
  match re_compile rt (control_group_regex cfg) (assume_case_insensitive_regex cfg),
        re_compile rt (ref_gene_regex cfg) (assume_case_insensitive_regex cfg) with
  | Some control_re, Some ref_re => classified rt cfg control_re ref_re df
  | _, _ => []
  end.

(** The table of the ΔΔCt stage of a run: the control baselines merged in. *)
Definition ddct_table (df : DataFrame) : list RowDD :=
  merge_control (dct_table rt cfg df).

(** The rows of the sheet that have a quantification value. *)
Definition numeric_rows (df : DataFrame) : list RawRow :=
  filter (fun raw => negb (is_nan (to_numeric rt (get (cq_col cfg) raw)))) (rows df).

(** Gene [g] has no defined baseline: no control well, or a mean of
    per-sample means that is NaN. *)
Definition undefined_baseline (t : list RowD) (g : string) : bool :=
  negb (nonempty (filter (is_control_of g) t)) || is_nan (mean_of_means t g).

(** The sheets of the workbook of a run that removed the wells [removed]. *)
Definition sheets_of (well : list WellOut) (sample : list SampleOut)
    (removed : list Row) : Workbook :=
  [("well"%string, WellSheet well); ("sample"%string, SampleSheet sample)] ++
  (if enable_outlier_filter cfg && record_outliers cfg && nonempty removed
   then [("outliers"%string, OutlierSheet (outliers_sheet removed))]
   else []).
End Outcome.

(** The sort keys of the two result sheets. *)
Definition well_key (w : WellOut) : string * string * string :=
  (w_Gene w, w_Group w, w_Sample w).
Definition sample_out_key (s : SampleOut) : string * string * string :=
  (s_Gene s, s_Group s, s_Sample s).

(** The reference mark of a row goes with its gene. *)
Definition ref_by_gene (l : list RowDD) : Prop :=
  forall r r', In r l -> In r' l ->
    Gene (row (rowd r)) = Gene (row (rowd r')) ->
    ref_mask (row (rowd r)) = ref_mask (row (rowd r')).

(* ================================================================= *)
(** ** The window: [gui/main_window.py] *)

Module Gui.

(** The white space [str.strip()] removes.  A text is the sequence of the
    bytes of its UTF-8 form.  The white space characters of one byte are
    the ASCII ones, U+0009 to U+000D and U+001C to U+0020. *)
Definition is_space (c : ascii) : bool :=
  let n := nat_of_ascii c in
  ((9 <=? n) && (n <=? 13)) || ((28 <=? n) && (n <=? 32)).

(** The white space characters of two bytes: U+0085 and U+00A0. *)
Definition space2 (a b : ascii) : bool :=
  let x := nat_of_ascii a in
  let y := nat_of_ascii b in
  (x =? 194) && ((y =? 133) || (y =? 160)).

(** The white space characters of three bytes: U+1680, U+2000 to U+200A,
    U+2028, U+2029, U+202F, U+205F and U+3000. *)
Definition space3 (a b c : ascii) : bool :=
  let x := nat_of_ascii a in
  let y := nat_of_ascii b in
  let z := nat_of_ascii c in
  ((x =? 225) && (y =? 154) && (z =? 128)) ||
  ((x =? 226) && (y =? 128) &&
   (((128 <=? z) && (z <=? 138)) || (z =? 168) || (z =? 169) || (z =? 175))) ||
  ((x =? 226) && (y =? 129) && (z =? 159)) ||
  ((x =? 227) && (y =? 128) && (z =? 128)).

(** The text after the white space character the text starts with. *)
Definition skip_space (s : string) : option string :=
  match s with
  | EmptyString => None
  | String a t =>
      if is_space a then Some t else
      match t with
      | EmptyString => None
      | String b t2 =>
          if space2 a b then Some t2 else
          match t2 with
          | EmptyString => None
          | String c t3 => if space3 a b c then Some t3 else None
          end
      end
  end.

(** [s.lstrip()] *)
Fixpoint lstrip (s : string) : string :=
  match s with
  | EmptyString => EmptyString
  | String a t =>
      if is_space a then lstrip t else
      match t with
      | EmptyString => s
      | String b t2 =>
          if space2 a b then lstrip t2 else
          match t2 with
          | EmptyString => s
          | String c t3 => if space3 a b c then lstrip t3 else s
          end
      end
  end.

(** [s.isspace() or not s]: white space characters only. *)
Definition blank (s : string) : bool := Str.is_empty (lstrip s).

(** [s.rstrip()]: the text up to its last run of white space. *)
Fixpoint rstrip (s : string) : string :=
  match s with
  | EmptyString => EmptyString
  | String a t => if blank s then EmptyString else String a (rstrip t)
  end.

(** [s.strip()] *)
Definition strip (s : string) : string := rstrip (lstrip s).

Definition is_digit (c : ascii) : bool :=
  let n := nat_of_ascii c in (48 <=? n) && (n <=? 57).

Fixpoint all_digits (s : string) : bool :=
  match s with
  | EmptyString => true
  | String c t => is_digit c && all_digits t
  end.

(** [s.isdigit()], on ASCII text: at least one character, all digits. *)
Definition isdigit (s : string) : bool :=
  negb (Str.is_empty s) && all_digits s.

(** The value of a run of decimal digits, from the value [acc] of the
    digits read so far. *)
Fixpoint digits_value (acc : N) (s : string) : N :=
  match s with
  | EmptyString => acc
  | String c t => digits_value (acc * 10 + (N_of_ascii c - 48)) t
  end.

(** [int(text)] on a run of digits: CPython refuses, with a [ValueError],
    to convert more than 4300 digits. *)
Definition py_int (s : string) : option N :=
  if String.length s <=? 4300 then Some (digits_value 0 s) else None.

(** What [sheet_name] is given to [read_excel]: an index or a name. *)
Inductive sheet_name : Type :=
| SheetIndex (n : N)
| SheetName (s : string).

Definition _parse_sheet_name (text : string) : sheet_name :=
  let text := strip text in
  if String.eqb text "" || String.eqb text "0" then SheetIndex 0
  else if isdigit text then
    match py_int text with
    | Some n => SheetIndex n
    | None => SheetName text
    end
  else SheetName text.

(** [s.endswith(suffix)] *)
Fixpoint endswith (suffix s : string) : bool :=
  String.eqb suffix s ||
  match s with
  | EmptyString => false
  | String _ t => endswith suffix t
  end.

(** The path [_pick_output] writes in the output field for the path the
    save dialog returns: the extension is made [.xlsx]. *)
Definition ensure_xlsx (path : string) : string :=
  if negb (endswith ".xlsx" (Str.lower path)) then (path ++ ".xlsx")%string
  else path.

(** The text of the output field after [_pick_output], when the dialog
    returned [picked] (empty when it was cancelled). *)
Definition _pick_output (picked current : string) : string :=
  if negb (Str.is_empty picked) then ensure_xlsx picked else current.

(** The fields of the window that [_run_compute] reads. *)
Record Form : Type := {
  le_input : string;
  le_output : string;
  le_ctrl_regex : string;
  le_ref_regex : string;
  le_control_search_col : string;
  le_ref_search_col : string;
  le_sample_name_col : string;
  le_cq_col : string;
  le_well_col : string;
  le_sheet : string;
  cb_exclude_ref : bool;
  cb_case_ins : bool;
  cb_enable_outliers : bool;
  cmb_outlier_method : string;
  sb_outlier_thresh : float;
  sb_outlier_min_reps : Z;
  cb_record_outliers : bool
}.

(** [text.strip() or default] *)
Definition or_default (text default : string) : string :=
  if Str.is_empty (strip text) then default else strip text.

(** The arguments [_run_compute] gathers for [compute_ddct]. *)
Definition gather (f : Form) : Config :=
  {| excel_path := strip (le_input f);
     control_group_regex := strip (le_ctrl_regex f);
     ref_gene_regex := strip (le_ref_regex f);
     output_path :=
       if Str.is_empty (strip (le_output f)) then None
       else Some (strip (le_output f));
     control_search_col := or_default (le_control_search_col f) "Sample";
     ref_search_col := or_default (le_ref_search_col f) "Target";
     sample_name_col := or_default (le_sample_name_col f) "Sample";
     cq_col := or_default (le_cq_col f) "Cq";
     well_col := or_default (le_well_col f) "Well";
     exclude_ref_in_sample_sheet := cb_exclude_ref f;
     assume_case_insensitive_regex := cb_case_ins f;
     outlier_method := cmb_outlier_method f;
     outlier_threshold := sb_outlier_thresh f;
     outlier_min_reps := sb_outlier_min_reps f;
     record_outliers := cb_record_outliers f;
     enable_outlier_filter := cb_enable_outliers f |}.

Definition set_output (f : Form) (out : string) : Form :=
  {| le_input := le_input f;
     le_output := out;
     le_ctrl_regex := le_ctrl_regex f;
     le_ref_regex := le_ref_regex f;
     le_control_search_col := le_control_search_col f;
     le_ref_search_col := le_ref_search_col f;
     le_sample_name_col := le_sample_name_col f;
     le_cq_col := le_cq_col f;
     le_well_col := le_well_col f;
     le_sheet := le_sheet f;
     cb_exclude_ref := cb_exclude_ref f;
     cb_case_ins := cb_case_ins f;
     cb_enable_outliers := cb_enable_outliers f;
     cmb_outlier_method := cmb_outlier_method f;
     sb_outlier_thresh := sb_outlier_thresh f;
     sb_outlier_min_reps := sb_outlier_min_reps f;
     cb_record_outliers := cb_record_outliers f |}.

(** How a click on Run ends. *)
Inductive Outcome : Type :=
| PathWarning               (* no input path, or not a file: nothing is run *)
| RunFailed (e : Error)     (* the message box of the failure *)
| Done (out : string).      (* the log line of the saved workbook *)

(** [_run_compute]: the window after the click, how the click ended, and
    the file system.  [isfile] is [os.path.isfile]; [read_excel] gives the
    sheet of a path (a file that cannot be read is not modelled). *)
Definition _run_compute (rt : Runtime) (isfile : string -> bool)
    (read_excel : string -> sheet_name -> DataFrame) (f : Form) (fs : FileSystem)
  : Form * Outcome * FileSystem :=
  let excel_path := strip (le_input f) in
  if Str.is_empty excel_path || negb (isfile excel_path) then (f, PathWarning, fs)
  else
    match compute_ddct rt (gather f)
            (read_excel excel_path (_parse_sheet_name (le_sheet f))) fs with
    | (inl e, fs') => (f, RunFailed e, fs')
    | (inr (_, _, out_path), fs') => (set_output f out_path, Done out_path, fs')
    end.

(** The window with another input path. *)
Definition set_input (f : Form) (path : string) : Form :=
  {| le_input := path;
     le_output := le_output f;
     le_ctrl_regex := le_ctrl_regex f;
     le_ref_regex := le_ref_regex f;
     le_control_search_col := le_control_search_col f;
     le_ref_search_col := le_ref_search_col f;
     le_sample_name_col := le_sample_name_col f;
     le_cq_col := le_cq_col f;
     le_well_col := le_well_col f;
     le_sheet := le_sheet f;
     cb_exclude_ref := cb_exclude_ref f;
     cb_case_ins := cb_case_ins f;
     cb_enable_outliers := cb_enable_outliers f;
     cmb_outlier_method := cmb_outlier_method f;
     sb_outlier_thresh := sb_outlier_thresh f;
     sb_outlier_min_reps := sb_outlier_min_reps f;
     cb_record_outliers := cb_record_outliers f |}.


(** Texts to state the behaviour of the window with: runs of ASCII white
    space, runs of zeros, the decimal numeral of a number, text that does
    not start with white space, text of ASCII characters. *)
Fixpoint all_space (s : string) : bool :=
  match s with
  | EmptyString => true
  | String c t => is_space c && all_space t
  end.

Fixpoint zeros (k : nat) : string :=
  match k with
  | O => EmptyString
  | S k => String "0" (zeros k)
  end.

Definition numeral (n : N) : string := NilEmpty.string_of_uint (N.to_uint n).

Definition clean_head (s : string) : Prop := skip_space s = None.

Definition is_ascii (c : ascii) : bool := Nat.ltb (nat_of_ascii c) 128.

Fixpoint ascii_text (s : string) : bool :=
  match s with
  | EmptyString => true
  | String c t => is_ascii c && ascii_text t
  end.

(** A byte that is an ASCII character and no white space: no byte of a
    white space character. *)
Definition solid (c : ascii) : bool := is_ascii c && negb (is_space c).

End Gui.

(* ================================================================= *)
(** ** A runtime to run the engine on examples *)

Module Demo.

Definition metachar (c : ascii) : bool :=
  existsb (Ascii.eqb c)
    ["."; "^"; "$"; "*"; "+"; "?"; "{"; "}"; "["; "]"; "\"; "|"; "("; ")"]%char.

Fixpoint plain (p : string) : bool :=
  match p with
  | EmptyString => true
  | String c t => negb (metachar c) && plain t
  end.

(** [re.compile(p).search]: for a pattern that is plain text, possibly
    after a leading [^]; other patterns are not handled. *)
Definition fold_case (ignorecase : bool) (s : string) : string :=
  if ignorecase then Str.lower s else s.

Definition starts (ignorecase : bool) (p x : string) : bool :=
  String.prefix (fold_case ignorecase p) (fold_case ignorecase x).

Definition has (ignorecase : bool) (p x : string) : bool :=
  Str.occurs (fold_case ignorecase p) (fold_case ignorecase x).

Definition search (pattern : string) (ignorecase : bool) : option (string -> bool) :=
  match pattern with
  | String "^" p => if plain p then Some (starts ignorecase p) else None
  | p => if plain p then Some (has ignorecase p) else None
  end.

(** [pd.to_numeric] on text: the spellings of the infinities; any other
    text of the examples is not numeric. *)
Definition numeric_text (s : string) : float :=
  if String.eqb s "inf" then infinity
  else if String.eqb s "-inf" then neg_infinity
  else nan.

(** [2.0 ** y] for the multiples of 1/2, where halving, doubling and the
    square root are exact or correctly rounded; NaN elsewhere. *)
Fixpoint pow2 (fuel : nat) (y : float) : float :=
  match fuel with
  | O => nan
  | S n =>
      if (y =? 0)%float then 1%float
      else if (y =? 0.5)%float then PrimFloat.sqrt 2
      else if (y <? 0)%float then (pow2 n (y + 1) / 2)%float
      else if (1 <=? y)%float then (2 * pow2 n (y - 1))%float
      else nan
  end.

Definition runtime : Runtime :=
  {| py_str := fun _ => "nan"%string;
     to_numeric_text := numeric_text;
     re_compile := search;
     py_pow := fun x y => if (x =? 2)%float then pow2 64 y else nan |}.

(** The default arguments of [compute_ddct], the outlier method and its
    threshold apart. *)
Definition config_with (path control ref method : string) (thresh : float) : Config :=
  {| excel_path := path;
     control_group_regex := control;
     ref_gene_regex := ref;
     output_path := None;
     control_search_col := "Target";
     ref_search_col := "Sample";
     sample_name_col := "Target";
     cq_col := "Cq";
     well_col := "Well";
     exclude_ref_in_sample_sheet := false;
     assume_case_insensitive_regex := true;
     outlier_method := method;
     outlier_threshold := thresh;
     outlier_min_reps := 3%Z;
     record_outliers := true;
     enable_outlier_filter := true |}.

(** The default arguments of [compute_ddct]. *)
Definition config (path control ref : string) : Config :=
  config_with path control ref "mad" 3%float.

(** A sheet with the columns Target, Sample, Cq, Well, as the default
    column mapping reads it: the sample label is in Target, the gene in
    Sample.  The text columns of the examples hold text only, so that the
    text form of a number is never asked of the runtime. *)
Definition well_row (well : cell) (label gene : string) (cq : cell) : RawRow :=
  [("Target"%string, CStr label); ("Sample"%string, CStr gene);
   ("Cq"%string, cq); ("Well"%string, well)].

Definition table (l : list RawRow) : DataFrame :=
  {| columns := [CStr "Target"; CStr "Sample"; CStr "Cq"; CStr "Well"]; rows := l |}.

(** One row per (sample label, gene, quantification value), the wells
    numbered from 1. *)
Definition sheet (l : list (string * string * cell)) : DataFrame :=
  table (map (fun p => well_row (CNum (Stats.of_nat (fst p)))
                         (fst (fst (snd p))) (snd (fst (snd p))) (snd (snd p)))
           (combine (seq 1 (List.length l)) l)).

(** The end-to-end scenario of the specification, in four wells. *)
Definition scenario (w1 w2 w3 w4 : cell) : DataFrame :=
  table [well_row w1 "CTR-1" "ACTB" (CNum 18.0);
         well_row w2 "CTR-1" "GeneX" (CNum 22.0);
         well_row w3 "MT-1" "ACTB" (CNum 18.5);
         well_row w4 "MT-1" "GeneX" (CNum 24.0)].

(** The wells of the scenario in the well sheet. *)
Definition scenario_well (pow : float -> float -> float) (w1 w2 w3 w4 : cell)
  : list WellOut :=
  [{| w_Gene := "ACTB"; w_Group := "CTR"; w_Sample := "CTR-1"; w_Well := w1;
      w_Cq := 18; w_ΔCt := 0; w_ΔΔCt := 0; w_Fold_Change := pow 2%float (- 0)%float |};
   {| w_Gene := "ACTB"; w_Group := "MT"; w_Sample := "MT-1"; w_Well := w3;
      w_Cq := 18.5; w_ΔCt := 0; w_ΔΔCt := 0; w_Fold_Change := pow 2%float (- 0)%float |};
   {| w_Gene := "GeneX"; w_Group := "CTR"; w_Sample := "CTR-1"; w_Well := w2;
      w_Cq := 22; w_ΔCt := 4; w_ΔΔCt := 0; w_Fold_Change := pow 2%float (- 0)%float |};
   {| w_Gene := "GeneX"; w_Group := "MT"; w_Sample := "MT-1"; w_Well := w4;
      w_Cq := 24; w_ΔCt := 5.5; w_ΔΔCt := 1.5;
      w_Fold_Change := pow 2%float (- 1.5)%float |}].

(** Two control Samples with one and with two wells of GeneX. *)
Definition two_controls : DataFrame :=
  sheet [("CTR-1", "ACTB", CNum 18.0); ("CTR-1", "GeneX", CNum 22.0);
         ("CTR-2", "ACTB", CNum 18.0); ("CTR-2", "GeneX", CNum 24.0);
         ("CTR-2", "GeneX", CNum 24.0);
         ("MT-1", "ACTB", CNum 18.5); ("MT-1", "GeneX", CNum 24.0)]%string.

Definition two_controls_config : Config := config "data/plate.xlsx" "^CTR" "ACTB".

Definition two_controls_run
  : (Error + list WellOut * list SampleOut * string) * FileSystem :=
  Eval vm_compute in compute_ddct runtime two_controls_config two_controls [].

Definition two_controls_well : list WellOut :=
  match fst two_controls_run with inr (w, _, _) => w | inl _ => [] end.
Definition two_controls_sample : list SampleOut :=
  match fst two_controls_run with inr (_, s, _) => s | inl _ => [] end.
Definition two_controls_out : string :=
  match fst two_controls_run with inr (_, _, o) => o | inl _ => EmptyString end.

(** A partition of two wells that are far apart. *)
Definition far_apart : DataFrame :=
  sheet [("CTR-1", "ACTB", CNum 18.0); ("CTR-1", "GeneX", CNum 15.0);
         ("CTR-1", "GeneX", CNum 39.0);
         ("MT-1", "ACTB", CNum 18.5); ("MT-1", "GeneX", CNum 24.0)]%string.

(** Three identical control wells of GeneX, and the z-score method with
    the threshold 0.5. *)
Definition constant_wells : DataFrame :=
  sheet [("CTR-1", "ACTB", CNum 18.0); ("CTR-1", "GeneX", CNum 24.1);
         ("CTR-1", "GeneX", CNum 24.1); ("CTR-1", "GeneX", CNum 24.1);
         ("MT-1", "ACTB", CNum 18.5); ("MT-1", "GeneX", CNum 25.0)]%string.

Definition zscore_config : Config :=
  config_with "plate.xlsx" "^CTR" "ACTB" "zscore" 0.5%float.

(** A Sample whose two reference wells read inf and -inf. *)
Definition infinite_reference : DataFrame :=
  sheet [("CTR-1", "ACTB", CStr "inf"); ("CTR-1", "ACTB", CStr "-inf");
         ("CTR-1", "GeneX", CNum 22.0)]%string.

(** Control partitions of four wells, all of them off the median by more
    than 0.3 robust deviations, and a treated Sample without reference
    well. *)
Definition spread_controls : DataFrame :=
  sheet [("CTR-1", "ACTB", CNum 18.0); ("CTR-1", "ACTB", CNum 19.0);
         ("CTR-1", "ACTB", CNum 20.0); ("CTR-1", "ACTB", CNum 21.0);
         ("CTR-1", "GeneX", CNum 22.0); ("CTR-1", "GeneX", CNum 23.0);
         ("CTR-1", "GeneX", CNum 24.0); ("CTR-1", "GeneX", CNum 25.0);
         ("MT-1", "GeneX", CNum 24.0)]%string.

Definition strict_config : Config :=
  config_with "plate.xlsx" "^CTR" "ACTB" "mad" 0.3%float.

(** A method that is none of the three. *)
Definition median_config : Config :=
  config_with "plate.xlsx" "^CTR" "ACTB" "Median" 3%float.

(** The default configuration with the patterns of the scenario. *)
Definition plate_config : Config := config "plate.xlsx" "^CTR" "ACTB".

(** The searches the two patterns of the examples compile to. *)
Definition control_re : string -> bool := starts true "CTR".
Definition ref_re : string -> bool := has true "ACTB".

(** A control pattern that matches no label of the scenario. *)
Definition wild_type_config : Config := config "plate.xlsx" "^WT" "ACTB".

(** The two control Samples with the filter switched off. *)
Definition unfiltered_config : Config := filter_disabled two_controls_config.

(** A sheet whose well column is named Pos, with a control partition of
    five wells, one of them far off, and the configuration that reads it. *)
Definition position_row (pos label gene : string) (cq : float) : RawRow :=
  [("Target"%string, CStr label); ("Sample"%string, CStr gene);
   ("Cq"%string, CNum cq); ("Pos"%string, CStr pos)].

Definition position_sheet : DataFrame :=
  {| columns := [CStr "Target"; CStr "Sample"; CStr "Cq"; CStr "Pos"];
     rows := [position_row "A1" "CTR-1" "ACTB" 18.0;
              position_row "A2" "CTR-1" "GeneX" 22.0;
              position_row "A3" "CTR-1" "GeneX" 22.1;
              position_row "A4" "CTR-1" "GeneX" 22.0;
              position_row "A5" "CTR-1" "GeneX" 22.1;
              position_row "A6" "CTR-1" "GeneX" 30.0;
              position_row "B1" "MT-1" "ACTB" 18.5;
              position_row "B2" "MT-1" "GeneX" 24.0] |}.

Definition position_config : Config :=
  {| excel_path := "plate.xlsx";
     control_group_regex := "^CTR";
     ref_gene_regex := "ACTB";
     output_path := Some "out/result.xlsx"%string;
     control_search_col := "Target";
     ref_search_col := "Sample";
     sample_name_col := "Target";
     cq_col := "Cq";
     well_col := "Pos";
     exclude_ref_in_sample_sheet := true;
     assume_case_insensitive_regex := true;
     outlier_method := "mad";
     outlier_threshold := 3%float;
     outlier_min_reps := 3%Z;
     record_outliers := true;
     enable_outlier_filter := true |}.

(** The well of that sheet that is far off. *)
Definition far_well : Row :=
  {| ix := 5; Group := "CTR"; _SampleLabel := "CTR-1"; Gene := "GeneX";
     Well := CStr "A6"; Cq := 30; ref_mask := false; control_mask := true |}.

(** The window with the patterns of the examples and no path, a file
    system where every path is a file, and a reader that finds the two
    control Samples in every file. *)
Definition form : Gui.Form :=
  {| Gui.le_input := "";
     Gui.le_output := "";
     Gui.le_ctrl_regex := "^CTR";
     Gui.le_ref_regex := "ACTB";
     Gui.le_control_search_col := "Target";
     Gui.le_ref_search_col := "Sample";
     Gui.le_sample_name_col := "Target";
     Gui.le_cq_col := "Cq";
     Gui.le_well_col := "Well";
     Gui.le_sheet := "0";
     Gui.cb_exclude_ref := false;
     Gui.cb_case_ins := true;
     Gui.cb_enable_outliers := true;
     Gui.cmb_outlier_method := "mad";
     Gui.sb_outlier_thresh := 3%float;
     Gui.sb_outlier_min_reps := 3%Z;
     Gui.cb_record_outliers := true |}.

Definition any_file (_ : string) : bool := true.

(** U+00A0 and U+3000 in UTF-8. *)
Definition no_break_space : string := String "194" (String "160" "").
Definition ideographic_space : string :=
  String "227" (String "128" (String "128" "")).


(** A control partition of five wells, one of them far off, in a sheet
    with the default columns; its run removes that well and returns. *)
Definition noisy_controls : DataFrame :=
  sheet [("CTR-1", "ACTB", CNum 18.0); ("CTR-1", "GeneX", CNum 22.0);
         ("CTR-1", "GeneX", CNum 22.5); ("CTR-1", "GeneX", CNum 22.0);
         ("CTR-1", "GeneX", CNum 22.5); ("CTR-1", "GeneX", CNum 30.0);
         ("MT-1", "ACTB", CNum 18.5); ("MT-1", "GeneX", CNum 24.0)]%string.

Definition noisy_run
  : (Error + list WellOut * list SampleOut * string) * FileSystem :=
  Eval vm_compute in compute_ddct runtime plate_config noisy_controls [].

Definition noisy_well : list WellOut :=
  match fst noisy_run with inr (w, _, _) => w | inl _ => [] end.
Definition noisy_sample : list SampleOut :=
  match fst noisy_run with inr (_, s, _) => s | inl _ => [] end.
Definition noisy_out : string :=
  match fst noisy_run with inr (_, _, o) => o | inl _ => EmptyString end.

(** Two control partitions of four wells that the strict filter removes
    whole, and nothing else. *)
Definition only_controls : DataFrame :=
  sheet [("CTR-1", "ACTB", CNum 18.0); ("CTR-1", "ACTB", CNum 19.0);
         ("CTR-1", "ACTB", CNum 20.0); ("CTR-1", "ACTB", CNum 21.0);
         ("CTR-1", "GeneX", CNum 22.0); ("CTR-1", "GeneX", CNum 23.0);
         ("CTR-1", "GeneX", CNum 24.0); ("CTR-1", "GeneX", CNum 25.0)]%string.

(** The same control partitions, and a treated Sample whose reference
    partition the strict filter removes whole as well. *)
Definition filtered_references : DataFrame :=
  sheet [("CTR-1", "ACTB", CNum 18.0); ("CTR-1", "ACTB", CNum 19.0);
         ("CTR-1", "ACTB", CNum 20.0); ("CTR-1", "ACTB", CNum 21.0);
         ("CTR-1", "GeneX", CNum 22.0); ("CTR-1", "GeneX", CNum 23.0);
         ("CTR-1", "GeneX", CNum 24.0); ("CTR-1", "GeneX", CNum 25.0);
         ("MT-1", "ACTB", CNum 18.0); ("MT-1", "ACTB", CNum 19.0);
         ("MT-1", "ACTB", CNum 20.0); ("MT-1", "ACTB", CNum 21.0);
         ("MT-1", "GeneX", CNum 24.0)]%string.

(** A sheet that is one single (Sample, Gene) partition, of two wells. *)
Definition lone_partition : DataFrame :=
  sheet [("CTR-1", "ACTB", CNum 18.0); ("CTR-1", "ACTB", CNum 30.0)]%string.

(** The default configuration, but six replicates asked of a partition. *)
Definition patient_config : Config :=
  {| excel_path := "plate.xlsx";
     control_group_regex := "^CTR";
     ref_gene_regex := "ACTB";
     output_path := None;
     control_search_col := "Target";
     ref_search_col := "Sample";
     sample_name_col := "Target";
     cq_col := "Cq";
     well_col := "Well";
     exclude_ref_in_sample_sheet := false;
     assume_case_insensitive_regex := true;
     outlier_method := "mad";
     outlier_threshold := 3%float;
     outlier_min_reps := 6%Z;
     record_outliers := true;
     enable_outlier_filter := true |}.

(** Three reference wells of CTR-1 whose sum does not round as their
    compensated sum does. *)
Definition replicate_controls : DataFrame :=
  sheet [("CTR-1", "ACTB", CNum 18.0); ("CTR-1", "ACTB", CNum 18.2);
         ("CTR-1", "ACTB", CNum 18.2); ("CTR-1", "GeneX", CNum 22.0);
         ("CTR-2", "ACTB", CNum 18.0); ("CTR-2", "GeneX", CNum 24.0);
         ("CTR-2", "GeneX", CNum 24.0);
         ("MT-1", "ACTB", CNum 18.5); ("MT-1", "GeneX", CNum 24.0)]%string.

(** The wells of a run that returns. *)
Definition wells_of (r : (Error + list WellOut * list SampleOut * string) * FileSystem)
  : option (list WellOut) :=
  match fst r with
  | inr (w, _, _) => Some w
  | inl _ => None
  end.

(** A reader that finds, in every file, the Sample whose reference wells
    read inf and -inf. *)
Definition read_infinite_reference (_ : string) (_ : Gui.sheet_name) : DataFrame :=
  infinite_reference.

End Demo.

(* ================================================================= *)
(** ** Facts about keys, sorting and grouping *)


Lemma string_leb_trans (x y z : string) :
  String.leb x y = true -> String.leb y z = true -> String.leb x z = true.
Proof.
  unfold String.leb.
  destruct (String.compare x y) eqn:Hxy; try discriminate;
    destruct (String.compare y z) eqn:Hyz; try discriminate; intros _ _.
  - apply String_as_OT.cmp_eq in Hxy, Hyz. subst.
    pose proof (proj2 (String_as_OT.cmp_eq z z) eq_refl) as E.
    unfold String_as_OT.cmp in E. now rewrite E.
  - apply String_as_OT.cmp_eq in Hxy. subst. now rewrite Hyz.
  - apply String_as_OT.cmp_eq in Hyz. subst. now rewrite Hxy.
  - apply String_as_OT.cmp_lt in Hxy, Hyz.
    pose proof (@String_as_OT.lt_trans _ _ _ Hxy Hyz) as Hxz.
    apply String_as_OT.cmp_lt in Hxz. unfold String_as_OT.cmp in Hxz.
    now rewrite Hxz.
Qed.

#[export] Instance string_KeyLaws : KeyLaws string.
Proof.
  split; simpl.
  - apply String.eqb_eq.
  - apply String.leb_total.
  - apply String.leb_antisym.
  - apply string_leb_trans.
Qed.

Section KeyFacts.
Context {K : Type} `{KeyLaws K}.

Lemma key_eqb_refl (x : K) : key_eqb x x = true.
Proof. now apply key_eqb_eq. Qed.

Lemma key_eqb_neq (x y : K) : key_eqb x y = false <-> x <> y.
Proof.
  split.
  - intros E ->. rewrite key_eqb_refl in E. discriminate.
  - intros N. destruct (key_eqb x y) eqn:E; [|reflexivity].
    apply key_eqb_eq in E. contradiction.
Qed.

Lemma mem_In (k : K) (l : list K) : mem k l = true <-> In k l.
Proof.
  unfold mem. rewrite existsb_exists. split.
  - intros [x [Hx E]]. apply key_eqb_eq in E. now subst.
  - intros Hk. exists k. split; [assumption | apply key_eqb_refl].
Qed.

Lemma mem_false (k : K) (l : list K) : mem k l = false <-> ~ In k l.
Proof.
  rewrite <- mem_In. destruct (mem k l); split; congruence.
Qed.

Lemma In_unique (k : K) (l : list K) : In k (unique l) <-> In k l.
Proof.
  induction l as [|x t IH]; simpl; [tauto|].
  rewrite filter_In, IH, negb_true_iff, key_eqb_neq. split.
  - intros [E | [Hk _]]; auto.
  - intros [E | Hk]; [now left|].
    destruct (key_eqb x k) eqn:E.
    + left. now apply key_eqb_eq.
    + right. split; [assumption | now apply key_eqb_neq].
Qed.

Lemma NoDup_unique (l : list K) : NoDup (unique l).
Proof.
  induction l as [|x t IH]; simpl; constructor.
  - rewrite filter_In, negb_true_iff, key_eqb_neq. intros [_ N]. now apply N.
  - now apply NoDup_filter.
Qed.

Lemma lookup_keys {V} (f : K -> V) (k : K) (ks : list K) :
  lookup k (map (fun k' => (k', f k')) ks) =
  if mem k ks then Some (f k) else None.
Proof.
  induction ks as [|x t IH]; simpl; [reflexivity|].
  destruct (key_eqb x k) eqn:E.
  - apply key_eqb_eq in E. subst. now rewrite key_eqb_refl.
  - replace (key_eqb k x) with false; [exact IH|].
    symmetry. apply key_eqb_neq. apply key_eqb_neq in E. congruence.
Qed.
End KeyFacts.

Section SortFacts.
Context {K : Type} `{Key K} {A : Type}.
Variable key : A -> K.

Lemma insert_by_perm (x : A) (l : list A) :
  Permutation (x :: l) (insert_by key x l).
Proof.
  induction l as [|y t IH]; simpl; [reflexivity|].
  destruct (key_leb (key x) (key y)); [reflexivity|].
  rewrite perm_swap. now constructor.
Qed.

Lemma sort_by_perm (l : list A) : Permutation l (sort_by key l).
Proof.
  induction l as [|x t IH]; simpl; [constructor|].
  rewrite <- insert_by_perm. now constructor.
Qed.

Lemma In_sort_by (a : A) (l : list A) : In a (sort_by key l) <-> In a l.
Proof.
  split; apply Permutation_in;
    [symmetry |]; apply sort_by_perm.
Qed.

End SortFacts.

Section GroupFacts.
Context {K : Type} `{KeyLaws K}.

Lemma In_sorted (k : K) (l : list K) : In k (sorted l) <-> In k l.
Proof. apply In_sort_by. Qed.

Lemma In_group_keys {A} (key : A -> K) (k : K) (l : list A) :
  In k (group_keys key l) <-> exists a, In a l /\ key a = k.
Proof.
  unfold group_keys. rewrite In_sorted, In_unique, in_map_iff.
  split; intros [a [P Q]]; exists a; auto.
Qed.

Lemma NoDup_group_keys {A} (key : A -> K) (l : list A) :
  NoDup (group_keys key l).
Proof.
  unfold group_keys, sorted.
  eapply Permutation_NoDup; [apply sort_by_perm | apply NoDup_unique].
Qed.

Lemma In_group_of {A} (key : A -> K) (k : K) (a : A) (l : list A) :
  In a (group_of key k l) <-> In a l /\ key a = k.
Proof.
  unfold group_of. rewrite filter_In, key_eqb_eq. reflexivity.
Qed.

Lemma lookup_groupby_mean {A} (key : A -> K) (val : A -> float) (k : K)
    (l : list A) :
  lookup k (groupby_mean key val l) =
  if mem k (map key l) then Some (Stats.group_mean (map val (group_of key k l)))
  else None.
Proof.
  unfold groupby_mean.
  rewrite (lookup_keys (fun k => Stats.group_mean (map val (group_of key k l)))).
  destruct (mem k (group_keys key l)) eqn:E1, (mem k (map key l)) eqn:E2;
    try reflexivity; exfalso.
  - apply mem_In in E1. apply mem_false in E2. apply E2.
    apply In_group_keys in E1. destruct E1 as [a [P Q]].
    apply in_map_iff. eauto.
  - apply mem_In in E2. apply mem_false in E1. apply E1.
    apply In_group_keys. apply in_map_iff in E2.
    destruct E2 as [a [P Q]]. eauto.
Qed.
End GroupFacts.

(* ================================================================= *)
(** ** The run of the engine, step by step *)

(** The two failures of the column check, by cases. *)
Ltac on_schema tac :=
  destruct (nonempty (missing _ _));
  [unfold schema_failure; destruct (mixed_labels _); tac|].

Section Run.
Variable rt : Runtime.
Variable cfg : Config.

Lemma compute_ddct_eq (df : DataFrame) (fs : FileSystem) :
  compute_ddct rt cfg df fs =
  if nonempty (missing cfg df)
  then (inl (schema_failure cfg df), fs)
  else
    match re_compile rt (control_group_regex cfg) (assume_case_insensitive_regex cfg) with
    | None => (inl (PatternError (control_group_regex cfg)), fs)
    | Some control_re =>
        match re_compile rt (ref_gene_regex cfg) (assume_case_insensitive_regex cfg) with
        | None => (inl (PatternError (ref_gene_regex cfg)), fs)
        | Some ref_re => run_from rt cfg control_re ref_re df fs
        end
    end.
Proof.
  unfold compute_ddct, run_from, bind, raise_if, compile, raise, ret.
  on_schema ltac:(reflexivity).
  destruct (re_compile rt (control_group_regex cfg) _) as [cre|]; [|reflexivity].
  destruct (re_compile rt (ref_gene_regex cfg) _) as [rre|]; [|reflexivity].
  cbv zeta.
  destruct (negb (existsb control_mask _)); [reflexivity|].
  destruct (filter_fails cfg _); [reflexivity|].
  destruct (existsb (fun r => is_nan (ref_mean_cq r)) _); [reflexivity|].
  destruct (existsb (fun r => is_nan (control_mean_ΔCt r)) _); [reflexivity|].
  destruct (negb (nonempty (sample_source _ _))); [reflexivity|].
  destruct (export _ _ _ _ _ fs) as [[e|[]] fs']; reflexivity.
Qed.

(** The failure of the column check is a [SchemaError] or the [TypeError]
    of [sorted]. *)
Lemma schema_failure_cases (df : DataFrame) :
  (mixed_labels (columns df) = true /\ schema_failure cfg df = SortTypeError) \/
  (mixed_labels (columns df) = false /\
   schema_failure cfg df
   = SchemaError (sorted (unique (missing cfg df))) (sorted (columns df))).
Proof.
  unfold schema_failure. destruct (mixed_labels (columns df)); auto.
Qed.

(** The writer refuses the path, or the export saves the workbook, or it
    saves its first two sheets and fails on the sort of the outliers. *)
Lemma export_cases (out : string) (well : list WellOut) (sample : list SampleOut)
    (o : option (list Row)) (fs : FileSystem) :
  (check_extension (snd (OsPath.splitext out)) = false /\
   export cfg out well sample o fs
   = (inl (ExtensionError (Str.drop_dot (snd (OsPath.splitext out)))), fs)) \/
  (check_extension (snd (OsPath.splitext out)) = true /\
   ((exists wb, export cfg out well sample o fs = (inr tt, (out, wb) :: fs)) \/
    (exists wb,
       export cfg out well sample o fs = (inl (KeyError "Well"), (out, wb) :: fs)))).
Proof.
  unfold export, ExcelWriter, save, bind, raise_if, raise, ret.
  destruct (check_extension (snd (OsPath.splitext out))); simpl; [right | now left].
  split; [reflexivity|].
  destruct o as [o|]; [|left; eauto].
  destruct (record_outliers cfg && nonempty o); [|left; eauto].
  destruct (String.eqb (well_col cfg) "Well"); [left | right]; eauto.
Qed.
End Run.

(* ================================================================= *)
(** ** Failures and the output artifact *)

Section Failures.
Variable rt : Runtime.
Variable cfg : Config.

(** Every outcome of a run once the patterns are compiled: one of the
    failures before the export, with the file system untouched; or, all
    validations passed, the refusal of the writer, with the file system
    untouched, or a saved workbook, with the result tables or with the
    failed sort of the outliers. *)
Lemma run_from_cases (cre rre : string -> bool) (df : DataFrame) (fs : FileSystem) :
  let df1 := classified rt cfg cre rre df in
  let df3 := merge_ref (working cfg df1) in
  let df4 := merge_control df3 in
  let r := run_from rt cfg cre rre df fs in
  (r = (inl NoControlMatchError, fs) /\ existsb control_mask df1 = false) \/
  (r = (inl ReindexError, fs) /\
     existsb control_mask df1 = true /\ filter_fails cfg df1 = true) \/
  (r = (inl (MissingReferenceError (missing_samples df3)), fs) /\
     existsb control_mask df1 = true /\ filter_fails cfg df1 = false /\
     existsb (fun r => is_nan (ref_mean_cq r)) df3 = true) \/
  (r = (inl (MissingControlBaselineError (ref_search_col cfg) (missing_genes df4)), fs) /\
     existsb control_mask df1 = true /\ filter_fails cfg df1 = false /\
     existsb (fun r => is_nan (ref_mean_cq r)) df3 = false /\
     existsb (fun r => is_nan (control_mean_ΔCt r)) df4 = true) \/
  (r = (inl EmptyResultError, fs) /\
     existsb control_mask df1 = true /\ filter_fails cfg df1 = false /\
     existsb (fun r => is_nan (ref_mean_cq r)) df3 = false /\
     existsb (fun r => is_nan (control_mean_ΔCt r)) df4 = false /\
     sample_source cfg df4 = []) \/
  (existsb control_mask df1 = true /\ filter_fails cfg df1 = false /\
     existsb (fun r => is_nan (ref_mean_cq r)) df3 = false /\
     existsb (fun r => is_nan (control_mean_ΔCt r)) df4 = false /\
     sample_source cfg df4 <> [] /\
     ((check_extension (snd (OsPath.splitext (out_path cfg))) = false /\
       r = (inl (ExtensionError
                   (Str.drop_dot (snd (OsPath.splitext (out_path cfg))))), fs)) \/
      (check_extension (snd (OsPath.splitext (out_path cfg))) = true /\
       exists wb,
         r = (inl (KeyError "Well"), (out_path cfg, wb) :: fs) \/
         r = (inr (well_df rt df4, sample_df rt (sample_source cfg df4),
                   out_path cfg),
              (out_path cfg, wb) :: fs)))).
Proof.
  intros df1 df3 df4 r. subst r. unfold run_from. fold df1. fold df3. fold df4.
  destruct (existsb control_mask df1); simpl; [|now left].
  right.
  destruct (filter_fails cfg df1); [now left|].
  right.
  destruct (existsb (fun r => is_nan (ref_mean_cq r)) df3); [now left|].
  right.
  destruct (existsb (fun r => is_nan (control_mean_ΔCt r)) df4); [now left|].
  right.
  destruct (sample_source cfg df4) as [|x t] eqn:E; simpl; [now left|].
  right. repeat split; try discriminate.
  destruct (export_cases cfg (out_path cfg) (well_df rt df4)
              (sample_df rt (x :: t)) (outliers_df cfg df1) fs)
    as [[C W] | [C [[wb W] | [wb W]]]]; rewrite W.
  - left. now split.
  - right. split; [exact C|]. exists wb. now right.
  - right. split; [exact C|]. exists wb. now left.
Qed.

(** The outcome of a run, in short: a failure before the export or the
    refusal of the writer, with the file system untouched; or a workbook
    saved at the output path, with the result or with the failed sort. *)
Lemma run_from_outcome (cre rre : string -> bool) (df : DataFrame) (fs : FileSystem) :
  (exists e,
     run_from rt cfg cre rre df fs = (inl e, fs) /\
     (terminal e = true \/ e = ReindexError \/
      e = ExtensionError (Str.drop_dot (snd (OsPath.splitext (out_path cfg)))))) \/
  (exists wb,
     run_from rt cfg cre rre df fs
     = (inl (KeyError "Well"), (out_path cfg, wb) :: fs) \/
     exists well sample,
       run_from rt cfg cre rre df fs
       = (inr (well, sample, out_path cfg), (out_path cfg, wb) :: fs)).
Proof.
  destruct (run_from_cases cre rre df fs)
    as [[-> _] | [[-> _] | [[-> _] | [[-> _] | [[-> _]
      | (_ & _ & _ & _ & _ & [[_ ->] | [_ [wb [-> | ->]]]])]]]]];
    try (left; eexists; split; [reflexivity | auto]; fail).
  - right. exists wb. now left.
  - right. exists wb. right. eauto.
Qed.

(** A run that fails with one of the engine's five failures leaves the
    file system as it found it. *)
Lemma terminal_leaves_fs (df : DataFrame) (fs : FileSystem) (e : Error) :
  fst (compute_ddct rt cfg df fs) = inl e ->
  terminal e = true ->
  snd (compute_ddct rt cfg df fs) = fs.
Proof.
  rewrite compute_ddct_eq.
  on_schema ltac:(reflexivity).
  destruct (re_compile rt (control_group_regex cfg) _) as [cre|]; [|reflexivity].
  destruct (re_compile rt (ref_gene_regex cfg) _) as [rre|]; [|reflexivity].
  destruct (run_from_outcome cre rre df fs)
    as [[e' [-> _]] | [wb [-> | (w & s & ->)]]]; simpl; try reflexivity.
  - intros [= <-]. discriminate.
  - discriminate.
Qed.

(** A run that returns has saved exactly one workbook, at the path it
    returns. *)
Lemma success_writes (df : DataFrame) (fs : FileSystem) well sample out :
  fst (compute_ddct rt cfg df fs) = inr (well, sample, out) ->
  exists wb, snd (compute_ddct rt cfg df fs) = (out, wb) :: fs.
Proof.
  rewrite compute_ddct_eq.
  on_schema ltac:(discriminate).
  destruct (re_compile rt (control_group_regex cfg) _) as [cre|]; [|discriminate].
  destruct (re_compile rt (ref_gene_regex cfg) _) as [rre|]; [|discriminate].
  destruct (run_from_outcome cre rre df fs)
    as [[e' [-> _]] | [wb [-> | (w & s & ->)]]]; simpl; try discriminate.
  intros [= _ _ <-]. eauto.
Qed.

(** A text label is in the header when [mem] finds it. *)
Lemma mem_text (c : string) (l : list cell) :
  mem (CStr c) l = true <-> In (CStr c) l.
Proof.
  unfold mem. rewrite existsb_exists. split.
  - intros [x [Hx E]]. destruct x as [y|t]; simpl in E; [discriminate|].
    apply String.eqb_eq in E. now subst.
  - intros H. exists (CStr c). split; [exact H|]. simpl. apply String.eqb_refl.
Qed.

Lemma missing_spec (df : DataFrame) (c : string) :
  In c (missing cfg df) <-> In c (required_cols cfg) /\ ~ In (CStr c) (columns df).
Proof.
  unfold missing. rewrite filter_In, negb_true_iff, <- mem_text.
  destruct (mem (CStr c) (columns df)); intuition congruence.
Qed.

Lemma run_from_not_schema cre rre (df : DataFrame) (fs : FileSystem) m p :
  fst (run_from rt cfg cre rre df fs) <> inl (SchemaError m p).
Proof.
  destruct (run_from_cases cre rre df fs)
    as [[-> _] | [[-> _] | [[-> _] | [[-> _] | [[-> _]
      | (_ & _ & _ & _ & _ & [[_ ->] | [_ [wb [-> | ->]]]])]]]]];
    simpl; discriminate.
Qed.
End Failures.

(** X23.  On a header whose labels are all text or all numbers: if one of
    the five configured column names is absent from the table, the run fails
    with a [SchemaError] that lists exactly the missing required columns and
    exactly the labels of the table, and writes nothing.  On any header, if
    all five are present, the run does not fail with a [SchemaError]. *)
Theorem schema_error_names (rt : Runtime) (cfg : Config) (df : DataFrame)
    (fs : FileSystem) :
  (mixed_labels (columns df) = false ->
   (exists c, In c (required_cols cfg) /\ ~ In (CStr c) (columns df)) ->
   exists m p,
     compute_ddct rt cfg df fs = (inl (SchemaError m p), fs) /\
     (forall c, In c m <-> In c (required_cols cfg) /\ ~ In (CStr c) (columns df)) /\
     (forall c, In c p <-> In c (columns df))) /\
  ((forall c, In c (required_cols cfg) -> In (CStr c) (columns df)) ->
   forall m p, fst (compute_ddct rt cfg df fs) <> inl (SchemaError m p)).
Proof.
  split.
  - intros Hmix [c Hc]. apply missing_spec in Hc.
    exists (sorted (unique (missing cfg df))), (sorted (columns df)).
    rewrite compute_ddct_eq. unfold schema_failure. rewrite Hmix.
    destruct (missing cfg df) as [|x t] eqn:E; [destruct Hc|].
    simpl nonempty. cbv iota. split; [reflexivity|]. split; intros c'.
    + rewrite In_sorted, In_unique, <- E. apply missing_spec.
    + apply In_sorted.
  - intros Hall m p. rewrite compute_ddct_eq.
    destruct (missing cfg df) as [|x t] eqn:E.
    + simpl nonempty. cbv iota.
      destruct (re_compile rt (control_group_regex cfg) _) as [cre|]; [|discriminate].
      destruct (re_compile rt (ref_gene_regex cfg) _) as [rre|]; [|discriminate].
      apply run_from_not_schema.
    + exfalso. assert (Hx : In x (missing cfg df)) by (rewrite E; now left).
      apply missing_spec in Hx. destruct Hx as [Hr Hn]. auto.
Qed.

(** A sheet without its well column: the error lists the missing column
    and the columns of the sheet, sorted. *)
Example schema_error_example :
  compute_ddct Demo.runtime Demo.plate_config
    {| columns := [CStr "Target"; CStr "Sample"; CStr "Cq"]; rows := [] |} []
  = (inl (SchemaError ["Well"%string] [CStr "Cq"; CStr "Sample"; CStr "Target"]), []).
Proof. vm_compute. reflexivity. Qed.

(** C6, on a header with a number in it.  The sheet has the header cells
    Target, 2024, Cq, Well, so that the configured column Sample is absent.
    The run does not fail with the [SchemaError] that names Sample and the
    labels present: building that message sorts the header, and [sorted]
    raises a [TypeError] on text and a number.  With the text 2024 in the
    place of the number, the same run fails with the [SchemaError]. *)
Theorem schema_error_mixed_header :
  compute_ddct Demo.runtime Demo.plate_config
    {| columns := [CStr "Target"; CNum 2024; CStr "Cq"; CStr "Well"]; rows := [] |} []
  = (inl SortTypeError, []) /\
  missing Demo.plate_config
    {| columns := [CStr "Target"; CNum 2024; CStr "Cq"; CStr "Well"]; rows := [] |}
  = ["Sample"%string] /\
  compute_ddct Demo.runtime Demo.plate_config
    {| columns := [CStr "Target"; CStr "2024"; CStr "Cq"; CStr "Well"]; rows := [] |} []
  = (inl (SchemaError ["Sample"%string]
            [CStr "2024"; CStr "Cq"; CStr "Target"; CStr "Well"]), []).
Proof. vm_compute. repeat split. Qed.

(** C7.  A run that raises one of the five terminal errors (SchemaError,
    NoControlMatchError, MissingReferenceError, MissingControlBaselineError,
    EmptyResultError) writes no artifact: the file system after the run is
    the file system before it. *)
Theorem no_output_on_terminal_error (rt : Runtime) (cfg : Config) (df : DataFrame)
    (fs : FileSystem) (e : Error) :
  fst (compute_ddct rt cfg df fs) = inl e ->
  terminal e = true ->
  snd (compute_ddct rt cfg df fs) = fs.
Proof. apply terminal_leaves_fs. Qed.

(* ================================================================= *)
(** ** The outlier filter *)

#[export] Instance pair_KeyLaws {A B} `{KeyLaws A} `{KeyLaws B} : KeyLaws (A * B).
Proof.
  split; simpl.
  - intros [a b] [a' b']; simpl. rewrite andb_true_iff, !key_eqb_eq.
    split; [intros [-> ->] | intros [= -> ->]]; auto.
  - intros [a b] [a' b']; simpl.
    destruct (key_eqb a a') eqn:E.
    + apply key_eqb_eq in E. subst. rewrite key_eqb_refl. apply key_leb_total.
    + replace (key_eqb a' a) with false; [apply key_leb_total|].
      symmetry. apply key_eqb_neq. apply key_eqb_neq in E. congruence.
  - intros [a b] [a' b']; simpl.
    destruct (key_eqb a a') eqn:E.
    + apply key_eqb_eq in E. subst. rewrite key_eqb_refl.
      intros P Q. f_equal. now apply key_leb_antisym.
    + replace (key_eqb a' a) with false.
      * intros P Q. apply key_eqb_neq in E. exfalso. apply E.
        now apply key_leb_antisym.
      * symmetry. apply key_eqb_neq. apply key_eqb_neq in E. congruence.
  - intros [a b] [a' b'] [a'' b'']; simpl.
    destruct (key_eqb a a') eqn:E1; destruct (key_eqb a' a'') eqn:E2;
      try (apply key_eqb_eq in E1; subst); try (apply key_eqb_eq in E2; subst).
    + rewrite key_eqb_refl. apply key_leb_trans.
    + rewrite E2. auto.
    + rewrite E1. auto.
    + intros P Q. destruct (key_eqb a a'') eqn:E3.
      * apply key_eqb_eq in E3. subst. apply key_eqb_neq in E1.
        exfalso. apply E1. now apply key_leb_antisym.
      * eapply key_leb_trans; eassumption.
Qed.

Lemma filter_all {A} (p : A -> bool) (l : list A) :
  (forall a, In a l -> p a = true) -> filter p l = l.
Proof.
  induction l as [|x t IH]; simpl; intros Hall; [reflexivity|].
  rewrite (Hall x (or_introl eq_refl)). f_equal. apply IH. auto.
Qed.

Lemma filter_none {A} (p : A -> bool) (l : list A) :
  (forall a, In a l -> p a = false) -> filter p l = [].
Proof.
  induction l as [|x t IH]; simpl; intros Hall; [reflexivity|].
  rewrite (Hall x (or_introl eq_refl)). apply IH. auto.
Qed.

Lemma filter_comm {A} (p q : A -> bool) (l : list A) :
  filter p (filter q l) = filter q (filter p l).
Proof.
  induction l as [|x t IH]; simpl; [reflexivity|].
  destruct (p x) eqn:P, (q x) eqn:Q; simpl; rewrite ?P, ?Q, IH; reflexivity.
Qed.

Lemma filter_keeps_distinct {A B} (label : A -> B) (keep : A -> bool) :
  forall l : list A, NoDup (map label l) -> NoDup (map label (filter keep l)).
Proof.
  intros l. induction l as [|x t IH]; simpl; intros N; [constructor|].
  inversion N as [|? ? Hx Ht]; subst.
  destruct (keep x); simpl; [constructor|]; auto.
  intros Hin. apply Hx. apply in_map_iff in Hin.
  destruct Hin as [a [E Ha]]. apply filter_In in Ha.
  apply in_map_iff. exists a. tauto.
Qed.

Lemma map_fst_zip {A B} (l : list A) (l' : list B) :
  List.length l = List.length l' -> map fst (combine l l') = l.
Proof.
  revert l'. induction l as [|x t IH]; intros [|y t']; simpl; try discriminate;
    [reflexivity|].
  intros [= E]. f_equal. now apply IH.
Qed.

Section OutlierFacts.
Variable rt : Runtime.
Variable cfg : Config.

(** The rows of the classified table carry distinct index labels. *)
Lemma classified_ix_NoDup (cre rre : string -> bool) (df : DataFrame) :
  NoDup (map ix (classified rt cfg cre rre df)).
Proof.
  unfold classified, load. rewrite map_map. simpl.
  apply (filter_keeps_distinct (fun t : nat * RawRow * float => fst (fst t))).
  rewrite map_map. simpl.
  change (fun x : nat * RawRow => fst x) with (@fst nat RawRow).
  rewrite map_fst_zip by (now rewrite length_seq).
  apply seq_NoDup.
Qed.

Lemma NoDup_ix_inj (df : list Row) (r r' : Row) :
  NoDup (map ix df) -> In r df -> In r' df -> ix r = ix r' -> r = r'.
Proof.
  induction df as [|x t IH]; simpl; intros N Hr Hr' E; [contradiction|].
  inversion N as [|? ? Hx Ht]; subst.
  destruct Hr as [-> | Hr], Hr' as [-> | Hr']; auto.
  - exfalso. apply Hx. rewrite E. now apply in_map.
  - exfalso. apply Hx. rewrite <- E. now apply in_map.
Qed.

(** The flags of a group are under the labels of its rows. *)
Lemma _group_flag_labels (g : list Row) (e : nat * bool) :
  In e (_group_flag cfg g) -> exists r, In r g /\ ix r = fst e.
Proof.
  unfold _group_flag.
  destruct (Z.of_nat (List.length g) <? outlier_min_reps cfg)%Z.
  - rewrite in_map_iff. intros [r [<- Hr]]. eauto.
  - destruct e as [i b]. intros Hin. apply in_combine_l in Hin.
    apply in_map_iff in Hin. destruct Hin as [r [E Hr]]. eauto.
Qed.

(** A group below [outlier_min_reps] is not evaluated. *)
Lemma _group_flag_small (g : list Row) (e : nat * bool) :
  (Z.of_nat (List.length g) < outlier_min_reps cfg)%Z ->
  In e (_group_flag cfg g) -> snd e = false.
Proof.
  unfold _group_flag. intros Hlt.
  apply Z.ltb_lt in Hlt. rewrite Hlt.
  rewrite in_map_iff. now intros [r [<- _]].
Qed.

(** The series [reindex] lets through is the concatenation of the flags of
    the groups. *)
Lemma reindex_flags (df : list Row) (flags : list (nat * bool)) :
  reindex (outlier_mask cfg df) = Some flags ->
  flags = flat_map (fun k => _group_flag cfg (group_of grp_key k df))
            (group_keys grp_key df).
Proof.
  unfold outlier_mask.
  destruct (group_keys grp_key df) as [|k [|k' ks]]; simpl; try discriminate;
    now intros [= <-].
Qed.

(** [reindex] raises exactly on the table of one single group. *)
Lemma reindex_raises (df : list Row) :
  reindex (outlier_mask cfg df) = None <-> List.length (group_keys grp_key df) = 1.
Proof.
  unfold outlier_mask.
  destruct (group_keys grp_key df) as [|k [|k' ks]]; simpl; split;
    try discriminate; reflexivity.
Qed.

Lemma _Outlier_false (df : list Row) (r : Row) :
  (forall flags e,
     reindex (outlier_mask cfg df) = Some flags ->
     In e flags -> fst e = ix r -> snd e = false) ->
  _Outlier cfg df r = false.
Proof.
  unfold _Outlier. intros Hall.
  destruct (reindex (outlier_mask cfg df)) as [flags|]; [|reflexivity].
  destruct (find _ flags) as [e|] eqn:F; [|reflexivity].
  apply find_some in F. destruct F as [Hin E].
  apply Nat.eqb_eq in E. eauto.
Qed.

(** No row of a partition below [outlier_min_reps] is flagged. *)
Lemma small_group_not_flagged (df : list Row) (r : Row) :
  NoDup (map ix df) -> In r df ->
  (Z.of_nat (List.length (group_of grp_key (grp_key r) df)) < outlier_min_reps cfg)%Z ->
  _Outlier cfg df r = false.
Proof.
  intros N Hr Hlt. apply _Outlier_false. intros flags e Hf Hin E.
  rewrite (reindex_flags df flags Hf) in Hin. apply in_flat_map in Hin.
  destruct Hin as [k [Hk He]].
  destruct (_group_flag_labels _ _ He) as [r' [Hr' E']].
  apply In_group_of in Hr'. destruct Hr' as [Hr' Hkey].
  assert (r' = r) by (eapply NoDup_ix_inj; eauto; congruence).
  subst r'. subst k. eapply _group_flag_small; eassumption.
Qed.

(** With a method that is none of the three, no row is flagged. *)
Lemma unknown_method_flags_nothing (s : list float) (method : string) (thresh : float) :
  method <> "mad"%string -> method <> "iqr"%string -> method <> "zscore"%string ->
  Stats._flag_outliers s method thresh = Stats.all_false s.
Proof.
  intros H1 H2 H3. unfold Stats._flag_outliers.
  apply String.eqb_neq in H1, H2, H3. now rewrite H1, H2, H3.
Qed.

Lemma unknown_method_not_flagged (df : list Row) (r : Row) :
  Str.lower (outlier_method cfg) <> "mad"%string ->
  Str.lower (outlier_method cfg) <> "iqr"%string ->
  Str.lower (outlier_method cfg) <> "zscore"%string ->
  _Outlier cfg df r = false.
Proof.
  intros H1 H2 H3. apply _Outlier_false. intros flags [i b] Hf Hin _. simpl.
  rewrite (reindex_flags df flags Hf) in Hin. apply in_flat_map in Hin.
  destruct Hin as [k [_ He]]. unfold _group_flag in He.
  destruct (Z.of_nat _ <? outlier_min_reps cfg)%Z.
  - apply in_map_iff in He. now destruct He as [r' [[= _ <-] _]].
  - rewrite unknown_method_flags_nothing in He by assumption.
    apply in_combine_r in He. unfold Stats.all_false in He.
    apply in_map_iff in He. now destruct He as [x [<- _]].
Qed.
End OutlierFacts.

Lemma map_row_group {K} `{Key K} (key : Row -> K) (k : K) (f : Row -> float)
    (l : list Row) :
  map row (group_of (fun r => key (row r)) k
             (map (fun r => {| row := r; ref_mean_cq := f r |}) l))
  = group_of key k l.
Proof.
  unfold group_of. induction l as [|x t IH]; simpl; [reflexivity|].
  destruct (key_eqb (key x) k); simpl; now rewrite IH.
Qed.

(** X21.  In a run that has a working table (the columns are there, the
    patterns compile, a control row exists and the filter stage does not
    fail), every (Sample, Gene) partition of the classified table with fewer
    than [outlier_min_reps] rows passes the filter as it is, whatever the
    method, the threshold and the values: no row of the partition is flagged
    or recorded as removed, and the working table and the table of the ΔCt
    stage hold the partition unchanged. *)
Theorem small_partition_passes (rt : Runtime) (cfg : Config) (df : DataFrame)
    (wt : list Row) (k : string * string) :
  working_table rt cfg df = Some wt ->
  (Z.of_nat (List.length (group_of grp_key k (run_classified rt cfg df)))
   < outlier_min_reps cfg)%Z ->
  (forall r, In r (group_of grp_key k (run_classified rt cfg df)) ->
     _Outlier cfg (run_classified rt cfg df) r = false) /\
  group_of grp_key k (outliers_of cfg (run_classified rt cfg df)) = [] /\
  group_of grp_key k wt = group_of grp_key k (run_classified rt cfg df) /\
  map row (group_of (fun r => grp_key (row r)) k (dct_table rt cfg df))
  = group_of grp_key k (run_classified rt cfg df).
Proof.
  unfold working_table, run_classified, dct_table.
  destruct (nonempty (missing cfg df)); [discriminate|].
  destruct (re_compile rt (control_group_regex cfg) _) as [cre|]; [|discriminate].
  destruct (re_compile rt (ref_gene_regex cfg) _) as [rre|]; [|discriminate].
  cbv zeta. set (df1 := classified rt cfg cre rre df).
  destruct (existsb control_mask df1 && negb (filter_fails cfg df1));
    [|discriminate].
  intros [= <-] Hlt.
  assert (Hno : forall r, In r (group_of grp_key k df1) -> _Outlier cfg df1 r = false).
  { intros r Hr. apply In_group_of in Hr. destruct Hr as [Hr Hk]. subst k.
    apply small_group_not_flagged; auto. apply classified_ix_NoDup. }
  assert (Hw : group_of grp_key k (working cfg df1) = group_of grp_key k df1).
  { unfold working. destruct (enable_outlier_filter cfg); [|reflexivity].
    unfold drop_outliers, group_of. rewrite filter_comm.
    apply filter_all. intros r Hr. now rewrite (Hno r Hr). }
  repeat split; try assumption.
  - unfold outliers_of, group_of. rewrite filter_comm.
    apply filter_none. exact Hno.
  - unfold merge_ref. rewrite map_row_group. exact Hw.
Qed.

Lemma export_no_outliers (cfg : Config) out well sample fs :
  export cfg out well sample (Some []) fs = export cfg out well sample None fs.
Proof. unfold export. simpl. now rewrite andb_false_r. Qed.

Lemma filter_disabled_id (cfg : Config) :
  enable_outlier_filter cfg = false -> filter_disabled cfg = cfg.
Proof. destruct cfg; simpl; intros ->; reflexivity. Qed.

(** X22.  With an outlier method that, lowercased, is none of "mad", "iqr"
    and "zscore", the estimator flags no value of any series and the filter
    no row of any table; and a run whose filter stage does not fail in
    [reindex] is the run with the filter switched off: same result, same
    artifact. *)
Theorem unknown_method_runs_unfiltered (rt : Runtime) (cfg : Config)
    (df : DataFrame) (fs : FileSystem) :
  Str.lower (outlier_method cfg) <> "mad"%string ->
  Str.lower (outlier_method cfg) <> "iqr"%string ->
  Str.lower (outlier_method cfg) <> "zscore"%string ->
  fst (compute_ddct rt cfg df fs) <> inl ReindexError ->
  (forall s thresh,
     Stats._flag_outliers s (Str.lower (outlier_method cfg)) thresh
     = Stats.all_false s) /\
  (forall df1 r, _Outlier cfg df1 r = false) /\
  compute_ddct rt cfg df fs = compute_ddct rt (filter_disabled cfg) df fs.
Proof.
  intros H1 H2 H3 Hrun.
  assert (Hno : forall df1 r, _Outlier cfg df1 r = false)
    by (intros; now apply unknown_method_not_flagged).
  split; [intros; now apply unknown_method_flags_nothing|].
  split; [exact Hno|].
  destruct (enable_outlier_filter cfg) eqn:En;
    [|now rewrite filter_disabled_id].
  revert Hrun. rewrite !compute_ddct_eq.
  change (missing (filter_disabled cfg) df) with (missing cfg df).
  change (schema_failure (filter_disabled cfg) df) with (schema_failure cfg df).
  on_schema ltac:(reflexivity).
  simpl control_group_regex. simpl ref_gene_regex.
  simpl assume_case_insensitive_regex.
  destruct (re_compile rt (control_group_regex cfg) _) as [cre|]; [|reflexivity].
  destruct (re_compile rt (ref_gene_regex cfg) _) as [rre|]; [|reflexivity].
  unfold run_from.
  change (classified rt (filter_disabled cfg) cre rre df)
    with (classified rt cfg cre rre df).
  set (df1 := classified rt cfg cre rre df).
  destruct (negb (existsb control_mask df1)); [reflexivity|].
  change (filter_fails (filter_disabled cfg) df1) with false.
  destruct (filter_fails cfg df1); [intros Hrun; now elim Hrun|]. intros _.
  assert (Hw : working cfg df1 = df1).
  { unfold working. rewrite En. unfold drop_outliers.
    apply filter_all. intros r _. now rewrite Hno. }
  change (working (filter_disabled cfg) df1) with df1. rewrite Hw.
  assert (Ho : outliers_df cfg df1 = Some []).
  { unfold outliers_df. rewrite En. f_equal. unfold outliers_of.
    apply filter_none. intros r _. apply Hno. }
  change (outliers_df (filter_disabled cfg) df1) with (@None (list Row)).
  rewrite Ho, export_no_outliers.
  reflexivity.
Qed.

(* ================================================================= *)
(** ** The reference mean *)

Lemma filter_filter {A} (p q : A -> bool) (l : list A) :
  filter p (filter q l) = filter (fun a => q a && p a) l.
Proof.
  induction l as [|x t IH]; simpl; [reflexivity|].
  destruct (q x); simpl; [destruct (p x)|]; now rewrite IH.
Qed.

Lemma nonempty_In {A} (l : list A) : nonempty l = true <-> exists a, In a l.
Proof.
  destruct l as [|x t]; simpl; split; try discriminate; eauto.
  intros [a []].
Qed.

Section ReferenceFacts.

(** The merged reference mean of a Sample is NaN exactly when the Sample
    has no defined reference mean. *)
Lemma ref_mean_nan (wt : list Row) (s : string) :
  is_nan (merged (ref_per_sample wt) s) = undefined_reference wt s.
Proof.
  unfold merged, ref_per_sample, undefined_reference, reference_rows.
  rewrite lookup_groupby_mean.
  unfold group_of. rewrite filter_filter. simpl key_eqb.
  destruct (mem s (map _SampleLabel (filter ref_mask wt))) eqn:E.
  - apply mem_In in E. apply in_map_iff in E. destruct E as [r [Es Hr]].
    apply filter_In in Hr. destruct Hr as [Hr Href].
    replace (nonempty (filter _ wt)) with true; [reflexivity|].
    symmetry. apply nonempty_In. exists r. apply filter_In.
    split; [assumption|]. rewrite Href. simpl. now apply String.eqb_eq.
  - replace (nonempty (filter _ wt)) with false; [reflexivity|].
    symmetry. destruct (nonempty _) eqn:N; [|reflexivity].
    apply nonempty_In in N. destruct N as [r Hr].
    apply filter_In in Hr. destruct Hr as [Hr Hp].
    apply andb_true_iff in Hp. destruct Hp as [Href Hs].
    apply String.eqb_eq in Hs. apply mem_false in E. exfalso. apply E.
    apply in_map_iff. exists r. split; [assumption|].
    apply filter_In. auto.
Qed.

Lemma merge_ref_nan (wt : list Row) :
  existsb (fun r => is_nan (ref_mean_cq r)) (merge_ref wt) = true <->
  exists s, In s (map _SampleLabel wt) /\ undefined_reference wt s = true.
Proof.
  unfold merge_ref. rewrite existsb_exists. split.
  - intros [r [Hr Hn]]. apply in_map_iff in Hr. destruct Hr as [w [<- Hw]].
    simpl in Hn. rewrite ref_mean_nan in Hn.
    exists (_SampleLabel w). split; [now apply in_map | assumption].
  - intros [s [Hs Hu]]. apply in_map_iff in Hs. destruct Hs as [w [<- Hw]].
    exists {| row := w; ref_mean_cq := merged (ref_per_sample wt) (_SampleLabel w) |}.
    split.
    + apply in_map_iff. eauto.
    + simpl. now rewrite ref_mean_nan.
Qed.

Lemma missing_samples_spec (wt : list Row) (s : string) :
  In s (missing_samples (merge_ref wt)) <->
  In s (map _SampleLabel wt) /\ undefined_reference wt s = true.
Proof.
  unfold missing_samples. rewrite In_sorted, In_unique, in_map_iff. split.
  - intros [r [<- Hr]]. apply filter_In in Hr. destruct Hr as [Hr Hn].
    unfold merge_ref in Hr. apply in_map_iff in Hr.
    destruct Hr as [w [<- Hw]]. simpl in *. rewrite ref_mean_nan in Hn.
    split; [now apply in_map | assumption].
  - intros [Hs Hu]. apply in_map_iff in Hs. destruct Hs as [w [<- Hw]].
    exists {| row := w; ref_mean_cq := merged (ref_per_sample wt) (_SampleLabel w) |}.
    split; [reflexivity|]. apply filter_In. split.
    + unfold merge_ref. apply in_map_iff. eauto.
    + simpl. now rewrite ref_mean_nan.
Qed.
End ReferenceFacts.

(** C3, as the code has it.  The run fails with [MissingReferenceError]
    if and only if some Sample present in the working table has no defined
    reference mean: no reference-gene row, or reference-gene rows whose mean
    quantification value is NaN; and the error names exactly those Samples. *)
Theorem missing_reference_iff (rt : Runtime) (cfg : Config) (df : DataFrame)
    (fs : FileSystem) :
  ((exists names, fst (compute_ddct rt cfg df fs) = inl (MissingReferenceError names))
   <->
   (exists wt, working_table rt cfg df = Some wt /\
      exists s, In s (map _SampleLabel wt) /\ undefined_reference wt s = true)) /\
  (forall names wt,
     fst (compute_ddct rt cfg df fs) = inl (MissingReferenceError names) ->
     working_table rt cfg df = Some wt ->
     forall s, In s names <->
               In s (map _SampleLabel wt) /\ undefined_reference wt s = true).
Proof.
  rewrite compute_ddct_eq. unfold working_table.
  on_schema ltac:(split; [split|]; simpl;
                  [intros [n [=]] | intros [wt [[=] _]] | intros; discriminate]).
  destruct (re_compile rt (control_group_regex cfg) _) as [cre|].
  2:{ split; [split|]; simpl.
      - intros [n [=]].
      - intros [wt [[=] _]].
      - intros; discriminate. }
  destruct (re_compile rt (ref_gene_regex cfg) _) as [rre|].
  2:{ split; [split|]; simpl.
      - intros [n [=]].
      - intros [wt [[=] _]].
      - intros; discriminate. }
  cbv zeta.
  set (df1 := classified rt cfg cre rre df).
  pose proof (run_from_cases rt cfg cre rre df fs) as Hc. cbv zeta in Hc.
  fold df1 in Hc.
  destruct Hc as [[-> Hctl] | [[-> (Hctl & Hf)] | [[-> (Hctl & Hf & Hnan)]
    | [[-> (Hctl & Hf & Hnan & _)] | [[-> (Hctl & Hf & Hnan & _)]
    | (Hctl & Hf & Hnan & _ & _ & [[_ ->] | [_ [wb [-> | ->]]]])]]]]];
    rewrite Hctl, ?Hf; simpl.
  - split; [split|].
    + intros [n [=]].
    + intros [wt [[=] _]].
    + intros; discriminate.
  - split; [split|].
    + intros [n [=]].
    + intros [wt [[=] _]].
    + intros; discriminate.
  - split; [split|].
    + intros _. exists (working cfg df1). split; [reflexivity|].
      now apply merge_ref_nan.
    + intros _. eauto.
    + intros names wt [= <-] [= <-] s. apply missing_samples_spec.
  - split; [split|]; try (intros [n [=]]); try (intros; discriminate).
    intros [wt [[= <-] Hs]]. apply merge_ref_nan in Hs. congruence.
  - split; [split|]; try (intros [n [=]]); try (intros; discriminate).
    intros [wt [[= <-] Hs]]. apply merge_ref_nan in Hs. congruence.
  - split; [split|]; try (intros [n [=]]); try (intros; discriminate).
    intros [wt [[= <-] Hs]]. apply merge_ref_nan in Hs. congruence.
  - split; [split|]; try (intros [n [=]]); try (intros; discriminate).
    intros [wt [[= <-] Hs]]. apply merge_ref_nan in Hs. congruence.
  - split; [split|]; try (intros [n [=]]); try (intros; discriminate).
    intros [wt [[= <-] Hs]]. apply merge_ref_nan in Hs. congruence.
Qed.

(* ================================================================= *)
(** ** The control check and the outlier filter *)

Lemma In_zip_seq {A} (y : A) (l : list A) (a : nat) :
  In y l -> exists i, In (i, y) (combine (seq a (List.length l)) l).
Proof.
  revert a. induction l as [|x t IH]; simpl; intros a Hy; [contradiction|].
  destruct Hy as [-> | Hy].
  - exists a. now left.
  - destruct (IH (S a) Hy) as [i Hi]. exists i. now right.
Qed.

Section ControlFacts.
Variable rt : Runtime.
Variable cfg : Config.

(** A row with a numeric quantification value that the control pattern
    matches is a control row of the classified table. *)
Lemma matching_row_is_control (cre rre : string -> bool) (df : DataFrame)
    (raw : RawRow) :
  In raw (rows df) ->
  is_nan (to_numeric rt (get (cq_col cfg) raw)) = false ->
  cre (astype_str rt (get (control_search_col cfg) raw)) = true ->
  existsb control_mask (classified rt cfg cre rre df) = true.
Proof.
  intros Hraw Hnum Hre. apply existsb_exists.
  destruct (In_zip_seq raw (rows df) 0 Hraw) as [i Hi].
  exists (classify rt cfg cre rre (i, raw, to_numeric rt (get (cq_col cfg) raw))).
  split; [|exact Hre].
  unfold classified, load. apply in_map. apply filter_In. split.
  - apply in_map_iff. exists (i, raw). split; [reflexivity | assumption].
  - simpl. now rewrite Hnum.
Qed.

(** Without a control row in the table there is no baseline at all. *)
Lemma no_control_no_baseline (df3 : list RowD) :
  (forall r, In r df3 -> control_mask (row r) = false) ->
  control_baseline df3 = [].
Proof.
  intros Hno. unfold control_baseline, control_per_sample.
  rewrite (filter_none _ _ Hno). reflexivity.
Qed.

Lemma no_baseline_all_nan (df3 : list RowD) :
  control_baseline df3 = [] ->
  existsb (fun r => is_nan (control_mean_ΔCt r)) (merge_control df3)
  = nonempty df3.
Proof.
  intros E. unfold merge_control. rewrite E.
  destruct df3 as [|x t]; reflexivity.
Qed.

Lemma sample_source_nonempty (df4 : list RowDD) :
  sample_source cfg df4 <> [] -> df4 <> [].
Proof.
  unfold sample_source. intros N ->. apply N.
  now destruct (exclude_ref_in_sample_sheet cfg).
Qed.
End ControlFacts.

(** C10, as the code has it.  When a row with a numeric quantification
    value matches the control pattern, the run does not fail with
    [NoControlMatchError]; and when the outlier filter then completes and
    removes every control row, the run fails with [MissingReferenceError],
    with [MissingControlBaselineError] or with [EmptyResultError]. *)
Theorem control_check_precedes_filter (rt : Runtime) (cfg : Config)
    (df : DataFrame) (fs : FileSystem) (cre : string -> bool) :
  re_compile rt (control_group_regex cfg) (assume_case_insensitive_regex cfg)
    = Some cre ->
  (exists raw, In raw (rows df) /\
     is_nan (to_numeric rt (get (cq_col cfg) raw)) = false /\
     cre (astype_str rt (get (control_search_col cfg) raw)) = true) ->
  fst (compute_ddct rt cfg df fs) <> inl NoControlMatchError /\
  (forall rre,
     re_compile rt (ref_gene_regex cfg) (assume_case_insensitive_regex cfg)
       = Some rre ->
     missing cfg df = [] ->
     enable_outlier_filter cfg = true ->
     filter_fails cfg (classified rt cfg cre rre df) = false ->
     (forall r, In r (classified rt cfg cre rre df) -> control_mask r = true ->
                _Outlier cfg (classified rt cfg cre rre df) r = true) ->
     (exists names,
        fst (compute_ddct rt cfg df fs) = inl (MissingReferenceError names)) \/
     (exists genes,
        fst (compute_ddct rt cfg df fs)
        = inl (MissingControlBaselineError (ref_search_col cfg) genes)) \/
     fst (compute_ddct rt cfg df fs) = inl EmptyResultError).
Proof.
  intros Hcre [raw (Hraw & Hnum & Hre)].
  rewrite compute_ddct_eq, Hcre. split.
  - on_schema ltac:(discriminate).
    destruct (re_compile rt (ref_gene_regex cfg) _) as [rre|]; [|discriminate].
    pose proof (matching_row_is_control rt cfg cre rre df raw Hraw Hnum Hre) as Hctl.
    destruct (run_from_cases rt cfg cre rre df fs)
      as [[-> F] | [[-> _] | [[-> _] | [[-> _] | [[-> _]
        | (_ & _ & _ & _ & _ & [[_ ->] | [_ [wb [-> | ->]]]])]]]]];
      simpl; try discriminate.
    congruence.
  - intros rre Hrre Hmiss En Hfil Hall. rewrite Hmiss, Hrre. simpl nonempty. cbv iota.
    pose proof (matching_row_is_control rt cfg cre rre df raw Hraw Hnum Hre) as Hctl.
    set (df1 := classified rt cfg cre rre df) in *.
    assert (Hbase : control_baseline (merge_ref (working cfg df1)) = []).
    { apply no_control_no_baseline. intros r Hr.
      unfold merge_ref in Hr. apply in_map_iff in Hr. destruct Hr as [w [<- Hw]].
      simpl. unfold working in Hw. rewrite En in Hw.
      apply filter_In in Hw. destruct Hw as [Hw Hout].
      destruct (control_mask w) eqn:C; [|reflexivity].
      rewrite (Hall w Hw C) in Hout. discriminate. }
    pose proof (run_from_cases rt cfg cre rre df fs) as Hc. cbv zeta in Hc.
    fold df1 in Hc.
    destruct Hc as [[-> F] | [[-> [_ F]] | [[-> _] | [[-> _] | [[-> _]
      | (_ & _ & _ & Hn & Hs & _)]]]]]; simpl.
    + congruence.
    + congruence.
    + left. eauto.
    + right. left. eauto.
    + right. right. reflexivity.
    + exfalso. rewrite (no_baseline_all_nan _ Hbase) in Hn.
      apply (sample_source_nonempty cfg) in Hs.
      unfold merge_control in Hs.
      destruct (merge_ref (working cfg df1)); [now apply Hs | discriminate].
Qed.

(* ================================================================= *)
(** ** Sorted keys *)

Section SortedKeys.
Context {K : Type} `{KeyLaws K}.

Lemma insert_by_sorted (x : K) (l : list K) :
  StronglySorted kle l -> StronglySorted kle (insert_by (fun k => k) x l).
Proof.
  induction l as [|y t IH]; simpl; intros S.
  - constructor; constructor.
  - apply StronglySorted_inv in S. destruct S as [St Hy].
    destruct (key_leb x y) eqn:E.
    + constructor; [constructor; assumption|].
      constructor; [exact E|].
      eapply Forall_impl; [|exact Hy].
      intros z Hz. unfold kle in *. eapply key_leb_trans; eassumption.
    + constructor; [now apply IH|].
      apply Forall_forall. intros z Hz.
      apply (Permutation_in z (Permutation_sym (insert_by_perm (fun k => k) x t))) in Hz.
      destruct Hz as [<- | Hz].
      * unfold kle. destruct (key_leb_total x y); congruence.
      * rewrite Forall_forall in Hy. now apply Hy.
Qed.

Lemma sorted_sorted (l : list K) : StronglySorted kle (sorted l).
Proof.
  unfold sorted, sort_by. induction l as [|x t IH]; simpl.
  - constructor.
  - now apply insert_by_sorted.
Qed.

Lemma sorted_NoDup (l : list K) : NoDup l -> NoDup (sorted l).
Proof. apply Permutation_NoDup, sort_by_perm. Qed.

Lemma strict_of_NoDup (l : list K) :
  NoDup l -> StronglySorted kle l -> StronglySorted klt l.
Proof.
  induction l as [|x t IH]; intros N S; [constructor|].
  apply StronglySorted_inv in S. destruct S as [St Hx].
  inversion N as [|? ? Hnx Nt]; subst.
  constructor; [now apply IH|].
  rewrite Forall_forall in *. intros z Hz. split; [now apply Hx|].
  intros ->. contradiction.
Qed.

(** The group keys of a table come strictly increasing. *)
Lemma sorted_unique_strict (l : list K) : StronglySorted klt (sorted (unique l)).
Proof.
  apply strict_of_NoDup.
  - apply sorted_NoDup, NoDup_unique.
  - apply sorted_sorted.
Qed.

Lemma filter_strict (p : K -> bool) (l : list K) :
  StronglySorted klt l -> StronglySorted klt (filter p l).
Proof.
  induction l as [|x t IH]; simpl; intros S; [constructor|].
  apply StronglySorted_inv in S. destruct S as [St Hx].
  destruct (p x); [|now apply IH].
  constructor; [now apply IH|].
  rewrite Forall_forall in *. intros z Hz. apply filter_In in Hz. now apply Hx.
Qed.

Lemma klt_asym (x y : K) : klt x y -> klt y x -> False.
Proof.
  intros [L1 N] [L2 _]. apply N. now apply key_leb_antisym.
Qed.

(** Two strictly increasing lists with the same elements are the same. *)
Lemma strict_unique (l1 l2 : list K) :
  StronglySorted klt l1 -> StronglySorted klt l2 ->
  (forall x, In x l1 <-> In x l2) -> l1 = l2.
Proof.
  revert l2. induction l1 as [|x1 t1 IH]; intros [|x2 t2] S1 S2 Hin.
  - reflexivity.
  - exfalso. apply (Hin x2). now left.
  - exfalso. apply (Hin x1). now left.
  - apply StronglySorted_inv in S1, S2.
    destruct S1 as [S1 F1], S2 as [S2 F2]. rewrite Forall_forall in F1, F2.
    assert (E : x1 = x2).
    { destruct (proj1 (Hin x1) (or_introl eq_refl)) as [E | H1]; [now symmetry|].
      destruct (proj2 (Hin x2) (or_introl eq_refl)) as [E | H2]; [assumption|].
      exfalso. eapply klt_asym; [apply F1, H2 | apply F2, H1]. }
    subst x2. f_equal. apply IH; try assumption.
    intros x. split; intros Hx.
    + destruct (proj1 (Hin x) (or_intror Hx)) as [E | H']; [|assumption].
      subst x. exfalso. destruct (F1 _ Hx) as [_ N]. now apply N.
    + destruct (proj2 (Hin x) (or_intror Hx)) as [E | H']; [|assumption].
      subst x. exfalso. destruct (F2 _ Hx) as [_ N]. now apply N.
Qed.
End SortedKeys.

Section PairKeys.
Context {A B : Type} `{KeyLaws A} `{KeyLaws B}.

Lemma pair_with_strict (b : B) (l : list A) :
  StronglySorted klt l -> StronglySorted klt (map (fun a => (a, b)) l).
Proof.
  induction l as [|x t IH]; simpl; intros S; [constructor|].
  apply StronglySorted_inv in S. destruct S as [St Hx].
  constructor; [now apply IH|].
  rewrite Forall_forall in *. intros z Hz. apply in_map_iff in Hz.
  destruct Hz as [a [<- Ha]]. destruct (Hx a Ha) as [L N].
  split.
  - simpl. replace (key_eqb x a) with false; [exact L|].
    symmetry. now apply key_eqb_neq.
  - intros [= E]. contradiction.
Qed.

(** The keys of one second component, among the sorted keys of a table of
    pairs: the first components that go with it, sorted. *)
Lemma second_component_keys (b : B) (l : list (A * B)) :
  filter (fun k => key_eqb (snd k) b) (sorted (unique l)) =
  map (fun a => (a, b))
    (sorted (unique (map fst (filter (fun k => key_eqb (snd k) b) l)))).
Proof.
  apply strict_unique.
  - apply filter_strict, sorted_unique_strict.
  - apply pair_with_strict, sorted_unique_strict.
  - intros [a b']. rewrite filter_In, In_sorted, In_unique, in_map_iff. simpl.
    rewrite key_eqb_eq. split.
    + intros [Hin ->]. exists a. split; [reflexivity|].
      rewrite In_sorted, In_unique, in_map_iff. exists (a, b). split; [reflexivity|].
      apply filter_In. split; [assumption | apply key_eqb_refl].
    + intros [a0 [[= -> ->] Hin]].
      rewrite In_sorted, In_unique, in_map_iff in Hin.
      destruct Hin as [[a1 b1] [E Hin]]. simpl in E. subst a1.
      apply filter_In in Hin. destruct Hin as [Hin Hb]. simpl in Hb.
      apply key_eqb_eq in Hb. subst b1. auto.
Qed.
End PairKeys.

(* ================================================================= *)
(** ** The control baseline is a mean of per-sample means *)

Lemma filter_map_swap {A B} (f : A -> B) (p : B -> bool) (l : list A) :
  filter p (map f l) = map f (filter (fun a => p (f a)) l).
Proof.
  induction l as [|x t IH]; simpl; [reflexivity|].
  destruct (p (f x)); simpl; now rewrite IH.
Qed.

Section Baseline.
Variable df : list RowD.

Let ctrl : list RowD := filter (fun r => control_mask (row r)) df.

Lemma control_rows_of_gene (g : string) :
  filter (fun r => String.eqb (Gene (row r)) g) ctrl = filter (is_control_of g) df.
Proof. unfold ctrl. now rewrite filter_filter. Qed.

(** Stage (a) of the code at one key, in the words of the specification. *)
Lemma per_sample_mean (g s : string) :
  Stats.group_mean (map ΔCt (group_of (fun r => grp_key (row r)) (s, g) ctrl))
  = control_mean_of df g s.
Proof.
  unfold control_mean_of, group_of, ctrl. rewrite filter_filter.
  do 2 f_equal. apply filter_ext. intros r. unfold is_control_of, grp_key. simpl.
  destruct (control_mask (row r)); simpl; [|reflexivity].
  apply andb_comm.
Qed.

(** The control Samples of a gene, read off the keys of stage (a). *)
Lemma per_sample_keys (g : string) :
  filter (fun k => String.eqb (snd k) g)
    (group_keys (fun r => grp_key (row r)) ctrl)
  = map (fun s => (s, g)) (control_samples df g).
Proof.
  unfold group_keys.
  etransitivity;
    [exact (second_component_keys g (map (fun r => grp_key (row r)) ctrl))|].
  f_equal. unfold control_samples. do 2 f_equal.
  rewrite filter_map_swap, map_map. simpl.
  now rewrite control_rows_of_gene.
Qed.

(** The baseline the code merges in, gene by gene. *)
Lemma control_baseline_lookup (g : string) :
  lookup g (control_baseline df) =
  if nonempty (filter (is_control_of g) df) then Some (mean_of_means df g)
  else None.
Proof.
  unfold control_baseline. rewrite lookup_groupby_mean.
  unfold control_per_sample. fold ctrl. unfold groupby_mean at 2.
  unfold group_of at 1. rewrite filter_map_swap. simpl.
  rewrite per_sample_keys, !map_map. simpl.
  unfold mean_of_means.
  rewrite (map_ext _ (control_mean_of df g) (fun s => per_sample_mean g s)).
  destruct (nonempty (filter (is_control_of g) df)) eqn:N.
  - replace (mem g _) with true; [reflexivity|].
    symmetry. apply mem_In. apply nonempty_In in N. destruct N as [r Hr].
    apply filter_In in Hr. destruct Hr as [Hr Hc].
    apply andb_true_iff in Hc. destruct Hc as [Hc Hg]. apply String.eqb_eq in Hg.
    apply in_map_iff.
    exists (grp_key (row r),
            Stats.group_mean
              (map ΔCt (group_of (fun r => grp_key (row r)) (grp_key (row r)) ctrl))).
    split; [exact Hg|].
    unfold groupby_mean. apply in_map_iff. exists (grp_key (row r)).
    split; [reflexivity|]. apply In_group_keys. exists r. split; [|reflexivity].
    unfold ctrl. apply filter_In. auto.
  - replace (mem g _) with false; [reflexivity|].
    symmetry. apply mem_false. intros Hin. apply in_map_iff in Hin.
    destruct Hin as [[k m] [Hg Hk]]. simpl in Hg.
    unfold groupby_mean in Hk. apply in_map_iff in Hk.
    destruct Hk as [k' [[= -> _] Hk]]. apply In_group_keys in Hk.
    destruct Hk as [r [Hr Ek]]. unfold ctrl in Hr. apply filter_In in Hr.
    destruct Hr as [Hr Hc].
    assert (Hne : nonempty (filter (is_control_of g) df) = true).
    { apply nonempty_In. exists r. apply filter_In. split; [assumption|].
      unfold is_control_of. rewrite Hc. simpl. apply String.eqb_eq.
      subst k. exact Hg. }
    congruence.
Qed.

End Baseline.



(* ================================================================= *)
(** ** Paths *)

Module StrFacts.
Import Str.
Open Scope string_scope.

Lemma app_assoc (a b c : string) : (a ++ b) ++ c = a ++ (b ++ c).
Proof. induction a as [|x a IH]; simpl; [reflexivity | now rewrite IH]. Qed.

Lemma app_empty_r (a : string) : a ++ "" = a.
Proof. induction a as [|x a IH]; simpl; [reflexivity | now rewrite IH]. Qed.

Lemma contains_app (c : ascii) (a b : string) :
  contains c (a ++ b) = contains c a || contains c b.
Proof.
  induction a as [|x a IH]; simpl; [reflexivity|].
  now rewrite IH, orb_assoc.
Qed.

Lemma all_char_app (c : ascii) (a b : string) :
  all_char c (a ++ b) = all_char c a && all_char c b.
Proof.
  induction a as [|x a IH]; simpl; [reflexivity|].
  now rewrite IH, andb_assoc.
Qed.

Lemma rcut_none (c : ascii) (s : string) :
  rcut c s = None <-> contains c s = false.
Proof.
  induction s as [|x s IH]; simpl; [tauto|].
  destruct (rcut c s) as [[h t]|].
  - split; [discriminate|]. intros E. apply orb_false_iff in E.
    destruct E as [_ E]. apply IH in E. discriminate.
  - destruct (Ascii.eqb x c); simpl; split; try discriminate; try reflexivity.
    intros _. now apply IH.
Qed.

(** A cut is at a [c] that no [c] follows. *)
Lemma rcut_some (c : ascii) (s h t : string) :
  rcut c s = Some (h, t) -> s = h ++ String c t /\ contains c t = false.
Proof.
  revert h t. induction s as [|x s IH]; simpl; intros h t; [discriminate|].
  destruct (rcut c s) as [[h' t']|] eqn:E.
  - intros [= <- <-]. destruct (IH h' t' eq_refl) as [-> Hc]. auto.
  - destruct (Ascii.eqb x c) eqn:X; [|discriminate].
    intros [= <- <-]. apply Ascii.eqb_eq in X. subst x.
    split; [reflexivity|]. now apply rcut_none.
Qed.

Lemma rcut_app (c : ascii) (h t : string) :
  contains c t = false -> rcut c (h ++ String c t) = Some (h, t).
Proof.
  intros Hc. induction h as [|x h IH]; simpl.
  - apply rcut_none in Hc. rewrite Hc. now rewrite Ascii.eqb_refl.
  - now rewrite IH.
Qed.

Lemma rstrip_snoc (c : ascii) (s : string) :
  rstrip c (s ++ String c "") = rstrip c s.
Proof.
  induction s as [|x s IH]; simpl.
  - now rewrite Ascii.eqb_refl.
  - now rewrite IH.
Qed.

Lemma rstrip_id (c : ascii) (s : string) :
  ends_with c s = false -> rstrip c s = s.
Proof.
  induction s as [|x s IH]; simpl; [reflexivity|].
  destruct s as [|y s].
  - simpl. now intros ->.
  - intros E. rewrite (IH E). reflexivity.
Qed.

Lemma rstrip_not_ending (c : ascii) (s : string) :
  ends_with c (rstrip c s) = false.
Proof.
  induction s as [|x s IH]; simpl; [reflexivity|].
  destruct (rstrip c s) as [|y r] eqn:E.
  - destruct (Ascii.eqb x c) eqn:X; simpl; [reflexivity | exact X].
  - exact IH.
Qed.

Lemma rstrip_empty (c : ascii) (s : string) :
  rstrip c s = "" -> all_char c s = true.
Proof.
  induction s as [|x s IH]; simpl; [reflexivity|].
  destruct (rstrip c s) as [|y r] eqn:E; [|discriminate].
  destruct (Ascii.eqb x c); [|discriminate].
  intros _. now apply IH.
Qed.

(** A non-empty run of [c] ends with a [c]. *)
Lemma all_char_snoc (c : ascii) (s : string) :
  all_char c s = true -> s <> "" ->
  exists s', s = s' ++ String c "" /\ all_char c s' = true.
Proof.
  induction s as [|x s IH]; simpl; intros A N; [contradiction|].
  apply andb_true_iff in A. destruct A as [X A]. apply Ascii.eqb_eq in X. subst x.
  destruct s as [|y s].
  - exists "". auto.
  - destruct (IH A) as [s' [E A']]; [discriminate|].
    exists (String c s'). simpl. rewrite E, Ascii.eqb_refl. auto.
Qed.

Lemma ends_with_all_char (c : ascii) (s : string) :
  all_char c s = true -> s <> "" -> ends_with c s = true.
Proof.
  induction s as [|x s IH]; simpl; intros A N; [contradiction|].
  apply andb_true_iff in A. destruct A as [X A].
  destruct s as [|y s]; [exact X|]. apply IH; [exact A | discriminate].
Qed.

Lemma starts_with_no (c : ascii) (s : string) :
  contains c s = false -> starts_with c s = false.
Proof.
  destruct s as [|x s]; simpl; [reflexivity|].
  intros E. apply orb_false_iff in E. tauto.
Qed.
End StrFacts.

Module OsPathFacts.
Import Str StrFacts OsPath.
Open Scope string_scope.

Lemma split_head_normal (p : string) :
  fst (split p) = "" \/ dir_normal (fst (split p)).
Proof.
  unfold split. destruct (rcut sep p) as [[h t]|]; simpl; [|now left].
  right. destruct (all_char sep (h ++ String sep "")) eqn:A; simpl.
  - split; [destruct h; discriminate | now left].
  - split.
    + intros E. apply rstrip_empty in E. congruence.
    + right. apply rstrip_not_ending.
Qed.

Lemma split_tail_no_sep (p : string) : contains sep (snd (split p)) = false.
Proof.
  unfold split. destruct (rcut sep p) as [[h t]|] eqn:E; simpl.
  - now destruct (rcut_some _ _ _ _ E).
  - now apply rcut_none.
Qed.

(** [splitext] cuts its argument in two. *)
Lemma splitext_app (s : string) :
  s = fst (splitext s) ++ snd (splitext s).
Proof.
  unfold splitext.
  destruct (rcut sep s) as [[h t]|] eqn:E.
  - destruct (rcut_some _ _ _ _ E) as [-> _].
    destruct (rcut extsep t) as [[b a]|] eqn:E'; simpl.
    + destruct (all_char extsep b); simpl; [now rewrite app_empty_r|].
      destruct (rcut_some _ _ _ _ E') as [-> _].
      rewrite !app_assoc. reflexivity.
    + now rewrite app_empty_r.
  - destruct (rcut extsep s) as [[b a]|] eqn:E'; simpl.
    + destruct (all_char extsep b); simpl; [now rewrite app_empty_r|].
      now destruct (rcut_some _ _ _ _ E') as [-> _].
    + now rewrite app_empty_r.
Qed.

Lemma split_join (d n : string) :
  dir_normal d -> contains sep n = false -> split (join d n) = (d, n).
Proof.
  intros [Hne Hd] Hn. unfold join. rewrite (starts_with_no _ _ Hn).
  assert (He : is_empty d = false) by (destruct d; [contradiction | reflexivity]).
  rewrite He, orb_false_l.
  destruct Hd as [A | E].
  - rewrite (ends_with_all_char _ _ A Hne).
    destruct (all_char_snoc _ _ A Hne) as [s' [Es A']].
    rewrite Es, app_assoc. simpl append at 2.
    unfold split. rewrite (rcut_app _ s' _ Hn).
    rewrite <- Es, A. reflexivity.
  - rewrite E. unfold split. rewrite (rcut_app _ d _ Hn).
    replace (all_char sep (d ++ String sep "")) with false.
    + simpl negb. cbv iota. rewrite rstrip_snoc, (rstrip_id _ _ E). reflexivity.
    + symmetry. rewrite all_char_app. apply andb_false_iff. left.
      destruct (all_char sep d) eqn:A; [|reflexivity].
      rewrite (ends_with_all_char _ _ A Hne) in E. discriminate.
Qed.

Lemma splitext_ddct (root : string) :
  contains sep root = false ->
  splitext (root ++ "_ddct.xlsx") = (root ++ "_ddct", ".xlsx").
Proof.
  intros Hr. unfold splitext.
  assert (Hs : rcut sep (root ++ "_ddct.xlsx") = None).
  { apply rcut_none. rewrite contains_app, Hr. reflexivity. }
  rewrite Hs.
  change (root ++ "_ddct.xlsx") with (root ++ ("_ddct" ++ String extsep "xlsx")).
  rewrite <- app_assoc, rcut_app by reflexivity.
  rewrite all_char_app, andb_false_r. reflexivity.
Qed.

(** Where the default output goes: the directory of the input (["."] when
    it has none), the name of the input cut at its extension, then
    ["_ddct.xlsx"]. *)
Lemma default_output_path_split (p : string) :
  let base := fst (split p) in
  let stem := snd (split p) in
  let root := fst (splitext stem) in
  let ext := snd (splitext stem) in
  stem = root ++ ext /\
  split (default_output_path p)
  = (if is_empty base then "." else base, root ++ "_ddct.xlsx") /\
  splitext (root ++ "_ddct.xlsx") = (root ++ "_ddct", ".xlsx").
Proof.
  intros base stem root ext.
  assert (Hstem : stem = root ++ ext) by apply splitext_app.
  assert (Hroot : contains sep root = false).
  { pose proof (split_tail_no_sep p) as Hs. fold stem in Hs.
    rewrite Hstem, contains_app in Hs. apply orb_false_iff in Hs. tauto. }
  split; [exact Hstem|]. split; [|now apply splitext_ddct].
  unfold default_output_path.
  destruct (split p) as [b s] eqn:Ep. simpl in base, stem. subst base stem.
  destruct (splitext s) as [r e] eqn:Es. simpl in root, ext. subst root ext.
  apply split_join.
  - pose proof (split_head_normal p) as Hb. rewrite Ep in Hb. simpl in Hb.
    destruct Hb as [-> | Hb]; simpl.
    + split; [discriminate | right; reflexivity].
    + destruct b; [destruct Hb; contradiction | exact Hb].
  - rewrite contains_app, Hroot. reflexivity.
Qed.

(** The extension of a path is the extension of its last component. *)
Lemma splitext_tail (p : string) :
  snd (splitext p) = snd (splitext (snd (split p))).
Proof.
  unfold split.
  destruct (rcut sep p) as [[h t]|] eqn:E; [|reflexivity].
  destruct (rcut_some _ _ _ _ E) as [_ Ht]. simpl snd.
  unfold splitext. rewrite E, (proj2 (rcut_none sep t) Ht).
  destruct (rcut extsep t) as [[b a]|]; [|reflexivity].
  destruct (all_char extsep b); reflexivity.
Qed.

(** The default output path has the extension [.xlsx]. *)
Lemma default_output_path_ext (p : string) :
  snd (splitext (default_output_path p)) = ".xlsx".
Proof.
  destruct (default_output_path_split p) as (_ & H2 & H3).
  rewrite splitext_tail, H2. simpl snd. now rewrite H3.
Qed.
End OsPathFacts.

(** The writer takes the default output path. *)
Lemma ExcelWriter_default (p : string) (fs : FileSystem) :
  ExcelWriter (default_output_path p) fs = (inr tt, fs).
Proof.
  unfold ExcelWriter. now rewrite OsPathFacts.default_output_path_ext.
Qed.

(** C8, as the code has it.  When no output path is given, a run that
    returns has saved its workbook at the default path: in the directory of
    the input (["."] when the input path has none), under the name of the
    input without its extension followed by ["_ddct.xlsx"]; the part of the
    name before the extension gains the suffix, and the extension is
    [".xlsx"] whatever the extension of the input. *)
Theorem default_output_location (rt : Runtime) (cfg : Config) (df : DataFrame)
    (fs : FileSystem) (well : list WellOut) (sample : list SampleOut)
    (out : string) :
  output_path cfg = None ->
  fst (compute_ddct rt cfg df fs) = inr (well, sample, out) ->
  let base := fst (OsPath.split (excel_path cfg)) in
  let stem := snd (OsPath.split (excel_path cfg)) in
  let root := fst (OsPath.splitext stem) in
  let ext := snd (OsPath.splitext stem) in
  (exists wb, snd (compute_ddct rt cfg df fs) = (out, wb) :: fs) /\
  out = default_output_path (excel_path cfg) /\
  stem = (root ++ ext)%string /\
  OsPath.split out
  = (if Str.is_empty base then "."%string else base, (root ++ "_ddct.xlsx")%string) /\
  OsPath.splitext (root ++ "_ddct.xlsx")%string
  = ((root ++ "_ddct")%string, ".xlsx"%string).
Proof.
  intros Hnone Hrun base stem root ext.
  assert (Hout : out = default_output_path (excel_path cfg)).
  { revert Hrun. rewrite compute_ddct_eq.
    on_schema ltac:(discriminate).
    destruct (re_compile rt (control_group_regex cfg) _) as [cre|]; [|discriminate].
    destruct (re_compile rt (ref_gene_regex cfg) _) as [rre|]; [|discriminate].
    destruct (run_from_outcome rt cfg cre rre df fs)
      as [[e' [-> _]] | [wb [-> | (w & s & ->)]]]; simpl; try discriminate.
    intros [= _ _ <-]. unfold out_path. now rewrite Hnone. }
  split; [eapply success_writes; eassumption|].
  split; [exact Hout|].
  destruct (OsPathFacts.default_output_path_split (excel_path cfg)) as (H1 & H2 & H3).
  rewrite Hout. auto.
Qed.

(* ================================================================= *)
(** ** The end-to-end scenario *)

(** C1.  On the four rows (CTR-1, ACTB, 18.0), (CTR-1, GeneX, 22.0),
    (MT-1, ACTB, 18.5), (MT-1, GeneX, 24.0), with the control pattern ^CTR,
    the reference pattern ACTB and the default configuration, whatever the
    wells and the input path: the baseline of GeneX is 4, and the run
    returns and saves the well sheet in which ΔCt(CTR-1, GeneX) = 4,
    ΔΔCt(MT-1, GeneX) = 1.5 and Fold Change(MT-1, GeneX) = 2 ** (-1.5). *)
Theorem end_to_end_scenario (rt : Runtime) (path : string)
    (cre rre : string -> bool) (w1 w2 w3 w4 : cell) (fs : FileSystem) :
  re_compile rt "^CTR" true = Some cre ->
  cre "CTR-1"%string = true -> cre "MT-1"%string = false ->
  re_compile rt "ACTB" true = Some rre ->
  rre "ACTB"%string = true -> rre "GeneX"%string = false ->
  control_baseline
    (dct_table rt (Demo.config path "^CTR" "ACTB") (Demo.scenario w1 w2 w3 w4))
  = [("ACTB"%string, 0%float); ("GeneX"%string, 4%float)] /\
  exists sample wb,
    compute_ddct rt (Demo.config path "^CTR" "ACTB") (Demo.scenario w1 w2 w3 w4) fs
    = (inr (Demo.scenario_well (py_pow rt) w1 w2 w3 w4, sample,
            default_output_path path),
       (default_output_path path, wb) :: fs).
Proof.
  intros Hcre Hc1 Hc2 Hrre Hr1 Hr2.
  set (cfg := Demo.config path "^CTR" "ACTB").
  set (df := Demo.scenario w1 w2 w3 w4).
  assert (Hcl : classified rt cfg cre rre df =
    [ {| ix := 0; Group := "CTR"; _SampleLabel := "CTR-1"; Gene := "ACTB";
         Well := w1; Cq := 18; ref_mask := true; control_mask := true |};
      {| ix := 1; Group := "CTR"; _SampleLabel := "CTR-1"; Gene := "GeneX";
         Well := w2; Cq := 22; ref_mask := false; control_mask := true |};
      {| ix := 2; Group := "MT"; _SampleLabel := "MT-1"; Gene := "ACTB";
         Well := w3; Cq := 18.5; ref_mask := true; control_mask := false |};
      {| ix := 3; Group := "MT"; _SampleLabel := "MT-1"; Gene := "GeneX";
         Well := w4; Cq := 24; ref_mask := false; control_mask := false |} ]).
  { vm_compute. rewrite Hc1, Hc2, Hr1, Hr2. reflexivity. }
  split.
  - unfold dct_table.
    change (control_group_regex cfg) with "^CTR"%string.
    change (ref_gene_regex cfg) with "ACTB"%string.
    change (assume_case_insensitive_regex cfg) with true.
    rewrite Hcre, Hrre, Hcl. vm_compute. reflexivity.
  - rewrite compute_ddct_eq.
    change (nonempty (missing cfg df)) with false. cbv iota.
    change (control_group_regex cfg) with "^CTR"%string.
    change (ref_gene_regex cfg) with "ACTB"%string.
    change (assume_case_insensitive_regex cfg) with true.
    rewrite Hcre, Hrre. unfold run_from. rewrite Hcl.
    change (out_path cfg) with (default_output_path path).
    unfold export, bind. rewrite ExcelWriter_default.
    generalize (default_output_path path). intros out.
    eexists. eexists. vm_compute. reflexivity.
Qed.

Lemma end_to_end_scenario_witness :
  control_baseline
    (dct_table Demo.runtime (Demo.config "data/qpcr.xlsx" "^CTR" "ACTB")
       (Demo.scenario (CStr "A1") (CStr "A2") (CStr "B1") (CStr "B2")))
  = [("ACTB"%string, 0%float); ("GeneX"%string, 4%float)].
Proof.
  apply (proj1 (end_to_end_scenario Demo.runtime "data/qpcr.xlsx"
                  Demo.control_re Demo.ref_re
                  (CStr "A1") (CStr "A2") (CStr "B1") (CStr "B2") []
                  eq_refl eq_refl eq_refl eq_refl eq_refl eq_refl)).
Defined.

(* ================================================================= *)
(** ** The engine on the example sheets *)


(** The numbers of the run on three reference wells 18.0, 18.2 and 18.2 of
    CTR-1.  Their grouped mean is 18.133333333333333, where the plain sum
    over three gives 18.133333333333336; ΔCt of the first well is its Cq
    minus that mean.  With one well of GeneX in CTR-1 and two in CTR-2, the
    baseline of GeneX is the mean 4.933333333333334 of the two per-sample
    means, not the pooled 5.288888888888889. *)
Example replicate_controls_baseline :
  Stats.group_mean [18; 18.2; 18.2]%float = 18.133333333333333%float /\
  Stats.mean [18; 18.2; 18.2]%float = 18.133333333333336%float /\
  option_map (map w_ΔCt)
    (Demo.wells_of (compute_ddct Demo.runtime Demo.two_controls_config
                      Demo.replicate_controls []))
  = Some [-0.13333333333333286; 0.06666666666666643; 0.06666666666666643;
          0; 0; 3.866666666666667; 6; 6; 5.5]%float /\
  map (control_mean_of
         (dct_table Demo.runtime Demo.two_controls_config Demo.replicate_controls)
         "GeneX")
    (control_samples
       (dct_table Demo.runtime Demo.two_controls_config Demo.replicate_controls)
       "GeneX")
  = [3.866666666666667; 6]%float /\
  mean_of_means
    (dct_table Demo.runtime Demo.two_controls_config Demo.replicate_controls)
    "GeneX" = 4.933333333333334%float /\
  pooled_mean
    (dct_table Demo.runtime Demo.two_controls_config Demo.replicate_controls)
    "GeneX" = 5.288888888888889%float.
Proof. vm_compute. repeat split. Qed.

(** With one well in CTR-1 (ΔCt 4) and two in CTR-2 (ΔCt 6 and 6), the
    baseline of GeneX is 5, not the pooled 16/3. *)
Example two_controls_baseline :
  lookup "GeneX"%string
    (control_baseline (dct_table Demo.runtime Demo.two_controls_config Demo.two_controls))
  = Some 5%float /\
  mean_of_means (dct_table Demo.runtime Demo.two_controls_config Demo.two_controls) "GeneX"
  = 5%float /\
  (pooled_mean (dct_table Demo.runtime Demo.two_controls_config Demo.two_controls) "GeneX"
   =? 5)%float = false.
Proof. vm_compute. repeat split. Qed.

Lemma small_partition_passes_witness :
  working_table Demo.runtime Demo.patient_config Demo.noisy_controls
  = Some (working Demo.patient_config
            (run_classified Demo.runtime Demo.patient_config Demo.noisy_controls)) /\
  map Cq (group_of grp_key ("CTR-1", "GeneX")%string
            (run_classified Demo.runtime Demo.patient_config Demo.noisy_controls))
  = [22; 22.5; 22; 22.5; 30]%float /\
  map Cq (outliers_of Demo.plate_config
            (run_classified Demo.runtime Demo.plate_config Demo.noisy_controls))
  = [30]%float /\
  group_of grp_key ("CTR-1", "GeneX")%string
    (working Demo.patient_config
       (run_classified Demo.runtime Demo.patient_config Demo.noisy_controls))
  = group_of grp_key ("CTR-1", "GeneX")%string
      (run_classified Demo.runtime Demo.patient_config Demo.noisy_controls) /\
  group_of grp_key ("CTR-1", "GeneX")%string
    (outliers_of Demo.patient_config
       (run_classified Demo.runtime Demo.patient_config Demo.noisy_controls)) = [].
Proof.
  split; [vm_compute; reflexivity|]. split; [vm_compute; reflexivity|].
  split; [vm_compute; reflexivity|].
  destruct (small_partition_passes Demo.runtime Demo.patient_config
              Demo.noisy_controls
              (working Demo.patient_config
                 (run_classified Demo.runtime Demo.patient_config
                    Demo.noisy_controls))
              ("CTR-1", "GeneX")%string) as (_ & Ho & Hw & _);
    [vm_compute; reflexivity | vm_compute; reflexivity | auto].
Defined.

Lemma no_output_on_terminal_error_witness :
  fst (compute_ddct Demo.runtime Demo.wild_type_config
         (Demo.scenario (CStr "A1") (CStr "A2") (CStr "B1") (CStr "B2")) [])
  = inl NoControlMatchError /\
  snd (compute_ddct Demo.runtime Demo.wild_type_config
         (Demo.scenario (CStr "A1") (CStr "A2") (CStr "B1") (CStr "B2")) [])
  = [].
Proof.
  split; [vm_compute; reflexivity|].
  apply (no_output_on_terminal_error Demo.runtime Demo.wild_type_config
           (Demo.scenario (CStr "A1") (CStr "A2") (CStr "B1") (CStr "B2")) []
           NoControlMatchError); vm_compute; reflexivity.
Defined.

Lemma unknown_method_runs_unfiltered_witness :
  Str.lower (outlier_method Demo.median_config) = "median"%string /\
  map ix (outliers_of Demo.plate_config
            (classified Demo.runtime Demo.plate_config Demo.control_re Demo.ref_re
               Demo.noisy_controls)) = [5] /\
  outliers_of Demo.median_config
    (classified Demo.runtime Demo.median_config Demo.control_re Demo.ref_re
       Demo.noisy_controls) = [] /\
  compute_ddct Demo.runtime Demo.median_config Demo.noisy_controls []
  = compute_ddct Demo.runtime (filter_disabled Demo.median_config)
      Demo.noisy_controls [].
Proof.
  split; [vm_compute; reflexivity|]. split; [vm_compute; reflexivity|].
  split; [vm_compute; reflexivity|].
  apply (unknown_method_runs_unfiltered Demo.runtime Demo.median_config
           Demo.noisy_controls []); vm_compute; discriminate.
Defined.

Lemma default_output_location_witness :
  output_path Demo.two_controls_config = None /\
  Demo.two_controls_out = "data/plate_ddct.xlsx"%string /\
  OsPath.split Demo.two_controls_out = ("data"%string, "plate_ddct.xlsx"%string).
Proof.
  split; [reflexivity|]. split; [vm_compute; reflexivity|].
  pose proof (default_output_location Demo.runtime Demo.two_controls_config
                Demo.two_controls [] Demo.two_controls_well
                Demo.two_controls_sample Demo.two_controls_out eq_refl) as H.
  destruct H as (_ & _ & _ & H & _); [vm_compute; reflexivity|].
  exact H.
Defined.

Lemma control_check_precedes_filter_witness :
  fst (compute_ddct Demo.runtime Demo.strict_config Demo.spread_controls [])
  <> inl NoControlMatchError.
Proof.
  refine (proj1 (control_check_precedes_filter Demo.runtime Demo.strict_config
                   Demo.spread_controls [] Demo.control_re eq_refl _)).
  exists (Demo.well_row (CNum 1) "CTR-1" "ACTB" (CNum 18)).
  split; [left; vm_compute; reflexivity|].
  split; vm_compute; reflexivity.
Defined.

(** C10 as the specification states it fails on sheets whose control
    partitions are removed whole.  On the first, a row with a numeric value
    matches the control pattern and the filter removes every control row;
    it also removes the reference wells of the treated Sample, and the run
    fails with MissingReferenceError.  On the second, the filter leaves no
    row, and the run fails with EmptyResultError.  With the filter off both
    runs return. *)
Lemma control_filtered_counterexample :
  existsb control_mask
    (classified Demo.runtime Demo.strict_config Demo.control_re Demo.ref_re
       Demo.filtered_references) = true /\
  forallb (fun r => implb (control_mask r)
                      (_Outlier Demo.strict_config
                         (classified Demo.runtime Demo.strict_config
                            Demo.control_re Demo.ref_re Demo.filtered_references) r))
    (classified Demo.runtime Demo.strict_config Demo.control_re Demo.ref_re
       Demo.filtered_references) = true /\
  fst (compute_ddct Demo.runtime Demo.strict_config Demo.filtered_references [])
  = inl (MissingReferenceError ["MT-1"%string]) /\
  option_map (@List.length WellOut)
    (Demo.wells_of (compute_ddct Demo.runtime (filter_disabled Demo.strict_config)
                      Demo.filtered_references [])) = Some 13 /\
  forallb (fun r => implb (control_mask r)
                      (_Outlier Demo.strict_config
                         (classified Demo.runtime Demo.strict_config
                            Demo.control_re Demo.ref_re Demo.only_controls) r))
    (classified Demo.runtime Demo.strict_config Demo.control_re Demo.ref_re
       Demo.only_controls) = true /\
  fst (compute_ddct Demo.runtime Demo.strict_config Demo.only_controls [])
  = inl EmptyResultError /\
  option_map (@List.length WellOut)
    (Demo.wells_of (compute_ddct Demo.runtime (filter_disabled Demo.strict_config)
                      Demo.only_controls [])) = Some 8.
Proof. vm_compute. repeat split. Qed.

(** C3 as the specification states it fails on a Sample whose reference wells read inf and
    -inf: the run fails with MissingReferenceError, and every Sample of the
    working table has reference-gene rows. *)
Lemma missing_reference_counterexample :
  ~ ((exists names,
        fst (compute_ddct Demo.runtime Demo.plate_config Demo.infinite_reference [])
        = inl (MissingReferenceError names))
     <->
     (exists wt,
        working_table Demo.runtime Demo.plate_config Demo.infinite_reference = Some wt /\
        exists s, In s (map _SampleLabel wt) /\
                  nonempty (reference_rows wt s) = false)).
Proof.
  intros [H _].
  destruct H as [wt [Hwt [s [Hs Hn]]]].
  - exists ["CTR-1"%string]. vm_compute. reflexivity.
  - vm_compute in Hwt. injection Hwt as <-.
    simpl in Hs. destruct Hs as [<- | [<- | [<- | []]]];
      vm_compute in Hn; discriminate.
Qed.

(** C8 as the specification states it fails on an input that is not an .xlsx file: the
    extension is not kept. *)
Lemma default_output_extension_counterexample :
  default_output_path "data/plate.xls" = "data/plate_ddct.xlsx"%string /\
  snd (OsPath.splitext (default_output_path "data/plate.xls"))
  <> snd (OsPath.splitext "data/plate.xls").
Proof. split; [vm_compute; reflexivity | vm_compute; discriminate]. Qed.

(** C4, where the code departs from it.  The sheet is one single
    (Sample, Gene) partition of two wells, fewer than the three replicates
    asked.  The filter does not let the partition pass: the flags of one
    single group come back from [apply] as a frame, [reindex] raises on it,
    and the run ends there with nothing written.  With the filter off the
    two wells reach the result. *)
Theorem small_partition_single_group :
  group_keys grp_key
    (classified Demo.runtime Demo.plate_config Demo.control_re Demo.ref_re
       Demo.lone_partition) = [("CTR-1", "ACTB")%string] /\
  (Z.of_nat (List.length
     (group_of grp_key ("CTR-1", "ACTB")%string
        (classified Demo.runtime Demo.plate_config Demo.control_re Demo.ref_re
           Demo.lone_partition))) < outlier_min_reps Demo.plate_config)%Z /\
  compute_ddct Demo.runtime Demo.plate_config Demo.lone_partition []
  = (inl ReindexError, []) /\
  option_map (map w_Cq)
    (Demo.wells_of (compute_ddct Demo.runtime (filter_disabled Demo.plate_config)
                      Demo.lone_partition [])) = Some [18; 30]%float.
Proof. vm_compute. repeat split. Qed.

(** C9, where the code departs from it.  With the method "Median", which
    is none of the three, the run on the sheet of one single partition does
    not proceed as if there were no outliers: it ends in the [ValueError] of
    [reindex], as it does there with any method.  With the filter off it
    returns. *)
Theorem unknown_method_single_group :
  Str.lower (outlier_method Demo.median_config) = "median"%string /\
  compute_ddct Demo.runtime Demo.median_config Demo.lone_partition []
  = (inl ReindexError, []) /\
  option_map (map w_Cq)
    (Demo.wells_of (compute_ddct Demo.runtime (filter_disabled Demo.median_config)
                      Demo.lone_partition [])) = Some [18; 30]%float.
Proof. vm_compute. repeat split. Qed.

(** C5, where the code departs from it.  On three identical wells (24.1)
    the z-score method with the threshold 0.5 flags all three: their mean
    rounds off 24.1, so the standard deviation is not zero and every
    z-score is 1.  The median and quartile methods flag none of them.  In
    the run the three control wells of GeneX are removed and the gene is
    left without control rows. *)
Theorem zscore_flags_constant_partition :
  Stats._flag_outliers [24.1; 24.1; 24.1]%float "zscore" 0.5%float
  = [true; true; true] /\
  (Stats.std0 [24.1; 24.1; 24.1]%float =? 0)%float = false /\
  Stats._flag_outliers [24.1; 24.1; 24.1]%float "mad" 0.5%float
  = [false; false; false] /\
  Stats._flag_outliers [24.1; 24.1; 24.1]%float "iqr" 0.5%float
  = [false; false; false] /\
  map ix (outliers_of Demo.zscore_config
            (classified Demo.runtime Demo.zscore_config Demo.control_re Demo.ref_re
               Demo.constant_wells))
  = [1; 2; 3] /\
  fst (compute_ddct Demo.runtime Demo.zscore_config Demo.constant_wells [])
  = inl (MissingControlBaselineError "Sample" ["GeneX"%string]).
Proof. vm_compute. repeat split. Qed.

(* ================================================================= *)
(** ** Labels and rows *)

Lemma _split_group_sample_snd (label : string) :
  snd (_split_group_sample label) = label.
Proof.
  unfold _split_group_sample.
  destruct (Str.contains "-" label); [|reflexivity].
  now destruct (Str.rcut "-" label) as [[h t]|].
Qed.

(** X1.  The Sample of a label is the label itself; the Group is the label up to
    its last hyphen, and the whole label when it has no hyphen. *)
Theorem split_group_sample_spec (label : string) :
  snd (_split_group_sample label) = label /\
  (Str.contains "-" label = false -> fst (_split_group_sample label) = label) /\
  (Str.contains "-" label = true ->
   exists suffix,
     label = (fst (_split_group_sample label) ++ String "-" suffix)%string /\
     Str.contains "-" suffix = false).
Proof.
  unfold _split_group_sample.
  destruct (Str.contains "-" label) eqn:C.
  - destruct (Str.rcut "-" label) as [[h t]|] eqn:E.
    + destruct (StrFacts.rcut_some _ _ _ _ E) as [Hl Ht].
      simpl. repeat split; try discriminate. intros _. eauto.
    + apply StrFacts.rcut_none in E. congruence.
  - simpl. repeat split; discriminate.
Qed.

Lemma zip_seq_nth {A} (l : list A) (a i : nat) (y : A) :
  In (i, y) (combine (seq a (List.length l)) l) ->
  a <= i /\ nth_error l (i - a) = Some y.
Proof.
  revert a. induction l as [|x t IH]; simpl; intros a Hin; [contradiction|].
  destruct Hin as [[= <- <-] | Hin].
  - rewrite Nat.sub_diag. auto.
  - destruct (IH (S a) Hin) as [Hle Hn]. split; [auto with arith|].
    replace (i - a) with (S (i - S a)); [exact Hn|].
    clear - Hle. revert i Hle. induction a as [|a IHa]; intros [|i] Hle; simpl;
      try (exfalso; inversion Hle; fail).
    + now rewrite Nat.sub_0_r.
    + apply IHa. auto with arith.
Qed.

Lemma zip_seq_filter_length {A} (q : A -> bool) (l : list A) (a : nat) :
  List.length (filter (fun p => q (snd p)) (combine (seq a (List.length l)) l))
  = List.length (filter q l).
Proof.
  revert a. induction l as [|x t IH]; simpl; intros a; [reflexivity|].
  destruct (q x); simpl; now rewrite IH.
Qed.

Section RowFacts.
Variable rt : Runtime.
Variable cfg : Config.
Variables cre rre : string -> bool.

(** Where a row of the classified table comes from. *)
Lemma classified_row_origin (df : DataFrame) (r : Row) :
  In r (classified rt cfg cre rre df) ->
  is_nan (Cq r) = false /\
  exists raw,
    nth_error (rows df) (ix r) = Some raw /\
    Cq r = to_numeric rt (get (cq_col cfg) raw) /\
    _SampleLabel r = astype_str rt (get (sample_name_col cfg) raw) /\
    Gene r = astype_str rt (get (ref_search_col cfg) raw) /\
    ref_mask r = rre (Gene r) /\
    control_mask r = cre (astype_str rt (get (control_search_col cfg) raw)).
Proof.
  unfold classified, load. intros Hr. apply in_map_iff in Hr.
  destruct Hr as [[[i raw] cq] [<- Ht]]. apply filter_In in Ht.
  destruct Ht as [Ht Hn]. simpl in Hn. apply negb_true_iff in Hn.
  apply in_map_iff in Ht. destruct Ht as [[i' raw'] [[= <- <- <-] Hin]].
  simpl in *. split; [exact Hn|]. exists raw'.
  destruct (zip_seq_nth _ _ _ _ Hin) as [_ Hnth]. rewrite Nat.sub_0_r in Hnth.
  repeat split; try assumption.
  apply _split_group_sample_snd.
Qed.

Lemma classified_length (df : DataFrame) :
  List.length (classified rt cfg cre rre df)
  = List.length (numeric_rows rt cfg df).
Proof.
  unfold classified, load, numeric_rows. rewrite length_map, filter_map_swap, length_map.
  simpl.
  exact (zip_seq_filter_length
           (fun raw => negb (is_nan (to_numeric rt (get (cq_col cfg) raw))))
           (rows df) 0).
Qed.

(** No control row in the classified table: no row of the sheet with a
    quantification value has a text the control pattern finds. *)
Lemma no_control_row_iff (df : DataFrame) :
  existsb control_mask (classified rt cfg cre rre df) = false <->
  (forall raw, In raw (rows df) ->
     is_nan (to_numeric rt (get (cq_col cfg) raw)) = false ->
     cre (astype_str rt (get (control_search_col cfg) raw)) = false).
Proof.
  split.
  - intros Hno raw Hraw Hnum.
    destruct (cre _) eqn:Hre; [|reflexivity].
    rewrite (matching_row_is_control rt cfg cre rre df raw Hraw Hnum Hre) in Hno.
    discriminate.
  - intros Hall. destruct (existsb _ _) eqn:E; [|reflexivity].
    apply existsb_exists in E. destruct E as [r [Hr Hc]].
    destruct (classified_row_origin df r Hr)
      as (Hn & raw & Hnth & Hcq & _ & _ & _ & Hctl).
    apply nth_error_In in Hnth. rewrite Hcq in Hn.
    rewrite (Hall raw Hnth Hn) in Hctl. congruence.
Qed.
End RowFacts.

(** X2.  The classified table holds one row per row of the sheet that has a
    quantification value, under the index of that row, with a value that is
    not NaN, the texts of that row, and the marks the two patterns give to
    those texts. *)
Theorem classified_rows_of_sheet (rt : Runtime) (cfg : Config)
    (cre rre : string -> bool) (df : DataFrame) :
  (forall r, In r (classified rt cfg cre rre df) ->
     is_nan (Cq r) = false /\
     exists raw,
       nth_error (rows df) (ix r) = Some raw /\
       Cq r = to_numeric rt (get (cq_col cfg) raw) /\
       _SampleLabel r = astype_str rt (get (sample_name_col cfg) raw) /\
       Gene r = astype_str rt (get (ref_search_col cfg) raw) /\
       ref_mask r = rre (Gene r) /\
       control_mask r = cre (astype_str rt (get (control_search_col cfg) raw))) /\
  NoDup (map ix (classified rt cfg cre rre df)) /\
  List.length (classified rt cfg cre rre df)
  = List.length (numeric_rows rt cfg df).
Proof.
  split; [apply classified_row_origin|].
  split; [apply classified_ix_NoDup | apply classified_length].
Qed.

(** X3.  The run fails with NoControlMatchError exactly when the five columns
    are there, both patterns compile, and the control pattern finds nothing
    in any row that has a quantification value. *)
Theorem no_control_match_iff (rt : Runtime) (cfg : Config) (df : DataFrame)
    (fs : FileSystem) :
  fst (compute_ddct rt cfg df fs) = inl NoControlMatchError <->
  (missing cfg df = [] /\
   exists cre rre,
     re_compile rt (control_group_regex cfg) (assume_case_insensitive_regex cfg)
       = Some cre /\
     re_compile rt (ref_gene_regex cfg) (assume_case_insensitive_regex cfg)
       = Some rre /\
     forall raw, In raw (rows df) ->
       is_nan (to_numeric rt (get (cq_col cfg) raw)) = false ->
       cre (astype_str rt (get (control_search_col cfg) raw)) = false).
Proof.
  rewrite compute_ddct_eq.
  destruct (missing cfg df) as [|m ms] eqn:Em; simpl nonempty; cbv iota.
  2:{ split; [|intros [[=] _]].
      simpl. unfold schema_failure. destruct (mixed_labels _); discriminate. }
  destruct (re_compile rt (control_group_regex cfg) _) as [cre|] eqn:Ec.
  2:{ split; [discriminate | intros [_ (c & r & [=] & _)]]. }
  destruct (re_compile rt (ref_gene_regex cfg) _) as [rre|] eqn:Er.
  2:{ split; [discriminate | intros [_ (c & r & _ & [=] & _)]]. }
  split.
  - intros Hrun. split; [reflexivity|]. exists cre, rre. repeat split.
    apply (no_control_row_iff rt cfg cre rre df).
    destruct (run_from_cases rt cfg cre rre df fs)
      as [[_ F] | [[E _] | [[E _] | [[E _] | [[E _]
        | (_ & _ & _ & _ & _ & [[_ E] | [_ [wb [E | E]]]])]]]]];
      try exact F; rewrite E in Hrun; discriminate.
  - intros [_ (c & r & [= <-] & [= <-] & Hall)].
    apply (no_control_row_iff rt cfg cre rre df) in Hall.
    destruct (run_from_cases rt cfg cre rre df fs)
      as [[-> _] | [[_ (T & _)] | [[_ (T & _)] | [[_ (T & _)] | [[_ (T & _)]
        | (T & _)]]]]]; [reflexivity | congruence ..].
Qed.

(* ================================================================= *)
(** ** The filter works partition by partition *)

Lemma find_flat_map_only {A B} (p : B -> bool) (f : A -> list B) (k0 : A)
    (ks : list A) :
  NoDup ks -> In k0 ks ->
  (forall k e, In k ks -> k <> k0 -> In e (f k) -> p e = false) ->
  find p (flat_map f ks) = find p (f k0).
Proof.
  induction ks as [|k t IH]; simpl; intros N Hin Hother; [contradiction|].
  inversion N as [|? ? Hk Nt]; subst.
  assert (Hnone : forall l, (forall e, In e l -> p e = false) -> find p l = None).
  { clear. induction l as [|x l IHl]; simpl; intros H; [reflexivity|].
    rewrite (H x (or_introl eq_refl)). apply IHl. auto. }
  destruct Hin as [-> | Hin].
  - assert (Hrest : find p (flat_map f t) = None).
    { apply Hnone. intros e He. apply in_flat_map in He. destruct He as [k [Hkt He]].
      apply (Hother k e); auto. intros ->. contradiction. }
    clear IH. induction (f k0) as [|x l IHl]; simpl; [exact Hrest|].
    destruct (p x); [reflexivity | exact IHl].
  - assert (Hk0 : k <> k0) by (intros ->; contradiction).
    assert (Hhead : find p (f k) = None).
    { apply Hnone. intros e He. apply (Hother k e); auto. }
    rewrite <- (IH Nt Hin) by (intros k' e Hk' Hne He; apply (Hother k' e); auto).
    clear - Hhead. induction (f k) as [|x l IHl]; simpl in *; [reflexivity|].
    destruct (p x); [discriminate | now apply IHl].
Qed.

Lemma unique_constant {K} `{KeyLaws K} (k : K) (l : list K) :
  (forall a, In a l -> a = k) -> l <> [] -> unique l = [k].
Proof.
  induction l as [|x t IH]; intros Hall Hne; [contradiction|].
  simpl. rewrite (Hall x (or_introl eq_refl)). f_equal.
  apply filter_none. intros a Ha. apply (proj1 (In_unique a t)) in Ha.
  rewrite (Hall a (or_intror Ha)). now rewrite key_eqb_refl.
Qed.

Section Locality.
Variable cfg : Config.

(** In the series of the flags of several partitions, the flag of a row is
    the flag its own partition gives it. *)
Lemma _Outlier_in_group (df : list Row) (r : Row) (flags : list (nat * bool)) :
  NoDup (map ix df) -> In r df ->
  reindex (outlier_mask cfg df) = Some flags ->
  find (fun e => Nat.eqb (fst e) (ix r)) flags
  = find (fun e => Nat.eqb (fst e) (ix r))
      (_group_flag cfg (group_of grp_key (grp_key r) df)).
Proof.
  intros N Hr Hf. rewrite (reindex_flags cfg df flags Hf).
  apply (find_flat_map_only (fun e => Nat.eqb (fst e) (ix r))
           (fun k => _group_flag cfg (group_of grp_key k df)) (grp_key r)).
  - apply NoDup_group_keys.
  - apply In_group_keys. eauto.
  - intros k e _ Hne He. apply Nat.eqb_neq. intros E.
    destruct (_group_flag_labels cfg _ _ He) as [r' [Hr' E']].
    apply In_group_of in Hr'. destruct Hr' as [Hr' Hk].
    assert (r' = r) by (eapply NoDup_ix_inj; eauto; congruence).
    subst r'. now apply Hne.
Qed.

Lemma _flag_outliers_length (s : list float) (method : string) (thresh : float) :
  List.length (Stats._flag_outliers s method thresh) = List.length s.
Proof.
  unfold Stats._flag_outliers, Stats.all_false.
  repeat match goal with
         | |- context [if ?c then _ else _] => destruct c
         end; apply length_map.
Qed.

Lemma ix_NoDup_group (k : string * string) (df : list Row) :
  NoDup (map ix df) -> NoDup (map ix (group_of grp_key k df)).
Proof.
  unfold group_of. generalize (fun a : Row => key_eqb (grp_key a) k). intros q.
  induction df as [|x t IH]; simpl; intros N; [constructor|].
  inversion N as [|? ? Hx Nt]; subst.
  destruct (q x); simpl; [|auto].
  constructor; [|auto].
  intros Hin. apply Hx. apply in_map_iff in Hin. destruct Hin as [y [E Hy]].
  apply filter_In in Hy. apply in_map_iff. exists y. tauto.
Qed.

(** The flag of the row at a position of a partition is the flag at that
    position. *)
Lemma find_combine_nth (g : list Row) (bs : list bool) (i : nat) (r : Row) :
  NoDup (map ix g) -> List.length bs = List.length g -> nth_error g i = Some r ->
  find (fun e => Nat.eqb (fst e) (ix r)) (combine (map ix g) bs)
  = Some (ix r, nth i bs false).
Proof.
  revert bs i. induction g as [|x t IH]; intros bs i N L Hi.
  - destruct i; discriminate.
  - destruct bs as [|b bs]; [discriminate|]. inversion N as [|? ? Hx Nt]; subst.
    destruct i as [|i]; simpl in *.
    + injection Hi as ->. now rewrite Nat.eqb_refl.
    + assert (E : Nat.eqb (ix x) (ix r) = false).
      { apply Nat.eqb_neq. intros E. apply Hx. rewrite E.
        apply in_map. eapply nth_error_In; eauto. }
      rewrite E. apply IH; auto.
Qed.

Lemma find_unflagged (g : list Row) (r : Row) :
  In r g ->
  find (fun e => Nat.eqb (fst e) (ix r)) (map (fun x => (ix x, false)) g)
  = Some (ix r, false).
Proof.
  induction g as [|x t IH]; [contradiction|]. simpl.
  destruct (Nat.eqb (ix x) (ix r)) eqn:E.
  - apply Nat.eqb_eq in E. now rewrite E.
  - intros [-> | Hr]; [now rewrite Nat.eqb_refl in E | auto].
Qed.
End Locality.

(** X4.  On a table of several (Sample, Gene) partitions, the well at a
    position of its partition is flagged exactly when the rule, run on the
    values of that partition alone, flags that position, and never when the
    partition has fewer than [outlier_min_reps] wells: the wells of the
    other partitions have no part in it. *)
Theorem outlier_flag_is_local (rt : Runtime) (cfg : Config)
    (cre rre : string -> bool) (df : DataFrame) (r : Row) (i : nat) :
  List.length (group_keys grp_key (classified rt cfg cre rre df)) <> 1 ->
  nth_error (group_of grp_key (grp_key r) (classified rt cfg cre rre df)) i
  = Some r ->
  _Outlier cfg (classified rt cfg cre rre df) r
  = if (Z.of_nat (List.length
          (group_of grp_key (grp_key r) (classified rt cfg cre rre df)))
        <? outlier_min_reps cfg)%Z
    then false
    else nth i
           (Stats._flag_outliers
              (map Cq (group_of grp_key (grp_key r) (classified rt cfg cre rre df)))
              (Str.lower (outlier_method cfg)) (outlier_threshold cfg))
           false.
Proof.
  intros Hks Hi. set (df1 := classified rt cfg cre rre df) in *.
  assert (N : NoDup (map ix df1)) by apply classified_ix_NoDup.
  assert (Hg : In r (group_of grp_key (grp_key r) df1))
    by (eapply nth_error_In; eauto).
  assert (Hr : In r df1) by (apply In_group_of in Hg; tauto).
  unfold _Outlier.
  destruct (reindex (outlier_mask cfg df1)) as [flags|] eqn:Hf.
  2:{ apply reindex_raises in Hf. contradiction. }
  rewrite (_Outlier_in_group cfg df1 r flags N Hr Hf).
  unfold _group_flag.
  destruct (Z.of_nat _ <? outlier_min_reps cfg)%Z.
  - now rewrite find_unflagged.
  - rewrite (find_combine_nth _ _ i r); auto.
    + now apply ix_NoDup_group.
    + rewrite _flag_outliers_length. apply length_map.
Qed.

Lemma filter_split_perm {A} (p : A -> bool) (l : list A) :
  Permutation (filter p l ++ filter (fun a => negb (p a)) l) l.
Proof.
  induction l as [|x t IH]; simpl; [constructor|].
  destruct (p x); simpl.
  - now constructor.
  - rewrite <- Permutation_middle. now constructor.
Qed.

(** X5.  The filter loses no well and doubles none: the removed wells and the
    wells of the working table are, together, the wells of the classified
    table, and no well of the working table is a removed one; with the
    filter off, nothing is removed. *)
Theorem filter_partitions_table (cfg : Config) (df1 : list Row) :
  Permutation
    (match outliers_df cfg df1 with Some o => o | None => [] end ++ working cfg df1)
    df1 /\
  (forall r, In r (working cfg df1) ->
     ~ In r (match outliers_df cfg df1 with Some o => o | None => [] end)) /\
  (enable_outlier_filter cfg = false ->
   working cfg df1 = df1 /\ outliers_df cfg df1 = None).
Proof.
  unfold outliers_df, working.
  destruct (enable_outlier_filter cfg).
  - split; [apply filter_split_perm|]. split; [|discriminate].
    intros r Hr Ho. unfold drop_outliers in Hr. unfold outliers_of in Ho.
    apply filter_In in Hr, Ho. destruct Hr as [_ Hr], Ho as [_ Ho].
    rewrite Ho in Hr. discriminate.
  - simpl. repeat split; auto.
Qed.

(* ================================================================= *)
(** ** What a run that passed the validations saves *)

Section Saved.
Variable rt : Runtime.
Variable cfg : Config.

Lemma export_spec (df1 : list Row) (out : string) (well : list WellOut)
    (sample : list SampleOut) (fs : FileSystem) :
  export cfg out well sample (outliers_df cfg df1) fs =
  if negb (check_extension (snd (OsPath.splitext out)))
  then (inl (ExtensionError (Str.drop_dot (snd (OsPath.splitext out)))), fs)
  else
  if enable_outlier_filter cfg && record_outliers cfg
     && nonempty (outliers_of cfg df1) && negb (String.eqb (well_col cfg) "Well")
  then (inl (KeyError "Well"),
        (out, [("well"%string, WellSheet well); ("sample"%string, SampleSheet sample)])
        :: fs)
  else (inr tt, (out, sheets_of cfg well sample (outliers_of cfg df1)) :: fs).
Proof.
  unfold export, ExcelWriter, outliers_df, sheets_of, save, bind, raise_if, raise, ret.
  destruct (negb (check_extension _)); [reflexivity|].
  destruct (enable_outlier_filter cfg); simpl; [|reflexivity].
  destruct (record_outliers cfg); simpl; [|reflexivity].
  destruct (nonempty (outliers_of cfg df1)); simpl; [|reflexivity].
  destruct (String.eqb (well_col cfg) "Well"); reflexivity.
Qed.

(** A run that passed the validations is its export. *)
Lemma validated_run (df : DataFrame) (fs : FileSystem) :
  validated (fst (compute_ddct rt cfg df fs)) = true ->
  existsb (fun r => is_nan (ref_mean_cq r)) (dct_table rt cfg df) = false /\
  existsb (fun r => is_nan (control_mean_ΔCt r)) (ddct_table rt cfg df) = false /\
  sample_source cfg (ddct_table rt cfg df) <> [] /\
  compute_ddct rt cfg df fs =
  match export cfg (out_path cfg) (well_df rt (ddct_table rt cfg df))
          (sample_df rt (sample_source cfg (ddct_table rt cfg df)))
          (outliers_df cfg (run_classified rt cfg df)) fs with
  | (inl e, fs') => (inl e, fs')
  | (inr _, fs') =>
      (inr (well_df rt (ddct_table rt cfg df),
            sample_df rt (sample_source cfg (ddct_table rt cfg df)),
            out_path cfg), fs')
  end.
Proof.
  rewrite compute_ddct_eq. unfold ddct_table, dct_table, run_classified.
  on_schema ltac:(discriminate).
  destruct (re_compile rt (control_group_regex cfg) _) as [cre|]; [|discriminate].
  destruct (re_compile rt (ref_gene_regex cfg) _) as [rre|]; [|discriminate].
  unfold run_from.
  destruct (negb (existsb control_mask _)); [discriminate|].
  destruct (filter_fails cfg _); [discriminate|].
  destruct (existsb (fun r => is_nan (ref_mean_cq r)) _); [discriminate|].
  destruct (existsb (fun r => is_nan (control_mean_ΔCt r)) _); [discriminate|].
  destruct (sample_source cfg _) eqn:E; [discriminate|].
  intros _. repeat split; try discriminate.
Qed.

(** The tables a run returns. *)
Lemma returned_tables (df : DataFrame) (fs : FileSystem) well sample out :
  fst (compute_ddct rt cfg df fs) = inr (well, sample, out) ->
  well = well_df rt (ddct_table rt cfg df) /\
  sample = sample_df rt (sample_source cfg (ddct_table rt cfg df)) /\
  out = out_path cfg.
Proof.
  intros Hrun.
  assert (Hv : validated (fst (compute_ddct rt cfg df fs)) = true)
    by now rewrite Hrun.
  destruct (validated_run df fs Hv) as (_ & _ & _ & E).
  rewrite E in Hrun. rewrite export_spec in Hrun.
  destruct (negb (check_extension _)); [discriminate|].
  destruct (_ && negb _); simpl in Hrun; [discriminate|].
  now injection Hrun as <- <- <-.
Qed.

Lemma saved_sheets (df : DataFrame) (fs : FileSystem) well sample out :
  fst (compute_ddct rt cfg df fs) = inr (well, sample, out) ->
  snd (compute_ddct rt cfg df fs)
  = (out, sheets_of cfg well sample (outliers_of cfg (run_classified rt cfg df)))
    :: fs.
Proof.
  intros Hrun.
  destruct (returned_tables df fs well sample out Hrun) as (-> & -> & ->).
  assert (Hv : validated (fst (compute_ddct rt cfg df fs)) = true)
    by now rewrite Hrun.
  destruct (validated_run df fs Hv) as (_ & _ & _ & E).
  rewrite E in *. rewrite export_spec in *.
  destruct (negb (check_extension _)); [discriminate|].
  destruct (_ && negb _); simpl in *; [discriminate | reflexivity].
Qed.
End Saved.


(** X7.  When the well column is not named "Well" and the filter removed a well
    that is to be recorded, a run that passed every validation and whose
    output path has an extension the workbook writer accepts fails on the
    sort of the outlier sheet, with a KeyError, after a workbook with the
    well and sample sheets has been saved (in a file system that lets the
    writer open the path). *)
Theorem export_fails_after_saving (rt : Runtime) (cfg : Config) (df : DataFrame)
    (fs : FileSystem) :
  validated (fst (compute_ddct rt cfg df fs)) = true ->
  check_extension (snd (OsPath.splitext (out_path cfg))) = true ->
  String.eqb (well_col cfg) "Well" = false ->
  enable_outlier_filter cfg = true ->
  record_outliers cfg = true ->
  outliers_of cfg (run_classified rt cfg df) <> [] ->
  compute_ddct rt cfg df fs
  = (inl (KeyError "Well"),
     (out_path cfg,
      [("well"%string, WellSheet (well_df rt (ddct_table rt cfg df)));
       ("sample"%string,
        SampleSheet (sample_df rt (sample_source cfg (ddct_table rt cfg df))))])
     :: fs).
Proof.
  intros Hv Hx Hw He Hr Ho.
  destruct (validated_run rt cfg df fs Hv) as (_ & _ & _ & E).
  rewrite E, export_spec, Hx, Hw, He, Hr. cbn [negb].
  destruct (outliers_of cfg (run_classified rt cfg df)); [contradiction|].
  reflexivity.
Qed.

(** X8.  With the filter switched off, every row of the sheet that has a
    quantification value is a row of the well sheet, and the workbook has
    the well and sample sheets only, whatever the recording switch. *)
Theorem filter_off_keeps_every_well (rt : Runtime) (cfg : Config) (df : DataFrame)
    (fs : FileSystem) (well : list WellOut) (sample : list SampleOut)
    (out : string) :
  enable_outlier_filter cfg = false ->
  fst (compute_ddct rt cfg df fs) = inr (well, sample, out) ->
  List.length well = List.length (numeric_rows rt cfg df) /\
  snd (compute_ddct rt cfg df fs)
  = (out, [("well"%string, WellSheet well); ("sample"%string, SampleSheet sample)])
    :: fs.
Proof.
  intros He Hrun. split.
  - destruct (returned_tables rt cfg df fs well sample out Hrun) as (-> & _ & _).
    unfold well_df. rewrite <- (Permutation_length (sort_by_perm _ _)).
    unfold ddct_table, merge_control, dct_table.
    revert Hrun. rewrite compute_ddct_eq.
    on_schema ltac:(discriminate).
    destruct (re_compile rt (control_group_regex cfg) _) as [cre|]; [|discriminate].
    destruct (re_compile rt (ref_gene_regex cfg) _) as [rre|]; [|discriminate].
    intros _. unfold merge_ref, working. rewrite He, !length_map.
    apply classified_length.
  - rewrite (saved_sheets rt cfg df fs well sample out Hrun).
    unfold sheets_of. rewrite He. reflexivity.
Qed.

(* ================================================================= *)
(** ** The well sheet *)

Section StableSort.
Context {K : Type} `{KeyLaws K} {A : Type}.
Variable key : A -> K.

Lemma insert_by_key_sorted (x : A) (l : list A) :
  StronglySorted (fun a b => kle (key a) (key b)) l ->
  StronglySorted (fun a b => kle (key a) (key b)) (insert_by key x l).
Proof.
  induction l as [|y t IH]; simpl; intros S.
  - constructor; constructor.
  - apply StronglySorted_inv in S. destruct S as [St Hy].
    destruct (key_leb (key x) (key y)) eqn:E.
    + constructor; [constructor; assumption|].
      constructor; [exact E|].
      eapply Forall_impl; [|exact Hy].
      intros z Hz. unfold kle in *. eapply key_leb_trans; eassumption.
    + constructor; [now apply IH|].
      apply Forall_forall. intros z Hz.
      apply (Permutation_in z (Permutation_sym (insert_by_perm key x t))) in Hz.
      destruct Hz as [<- | Hz].
      * unfold kle. destruct (key_leb_total (key x) (key y)); congruence.
      * rewrite Forall_forall in Hy. now apply Hy.
Qed.

Lemma sort_by_sorted (l : list A) :
  StronglySorted (fun a b => kle (key a) (key b)) (sort_by key l).
Proof.
  unfold sort_by. induction l as [|x t IH]; simpl.
  - constructor.
  - now apply insert_by_key_sorted.
Qed.

Lemma insert_by_group (k : K) (x : A) (l : list A) :
  group_of key k (insert_by key x l)
  = if key_eqb (key x) k then x :: group_of key k l else group_of key k l.
Proof.
  unfold group_of. induction l as [|y t IH]; simpl.
  - destruct (key_eqb (key x) k); reflexivity.
  - destruct (key_leb (key x) (key y)) eqn:L; simpl.
    + destruct (key_eqb (key x) k); reflexivity.
    + rewrite IH. destruct (key_eqb (key y) k) eqn:Ey; [|reflexivity].
      destruct (key_eqb (key x) k) eqn:Ex; [|reflexivity].
      apply key_eqb_eq in Ex, Ey. exfalso.
      assert (T : key_leb (key x) (key y) = true).
      { rewrite Ex, Ey. destruct (key_leb_total k k); assumption. }
      congruence.
Qed.

(** The sort is stable: the elements of one key stay in their order. *)
Lemma sort_by_stable (k : K) (l : list A) :
  group_of key k (sort_by key l) = group_of key k l.
Proof.
  unfold sort_by. induction l as [|x t IH]; simpl; [reflexivity|].
  rewrite insert_by_group, IH. unfold group_of. simpl.
  destruct (key_eqb (key x) k); reflexivity.
Qed.
End StableSort.

Section WorkingTable.
Variable rt : Runtime.
Variable cfg : Config.

(** The tables of a run that passed the validations. *)
Lemma validated_tables (df : DataFrame) (fs : FileSystem) :
  validated (fst (compute_ddct rt cfg df fs)) = true ->
  working_table rt cfg df = Some (working cfg (run_classified rt cfg df)) /\
  dct_table rt cfg df = merge_ref (working cfg (run_classified rt cfg df)).
Proof.
  rewrite compute_ddct_eq. unfold working_table, dct_table, run_classified.
  on_schema ltac:(discriminate).
  destruct (re_compile rt (control_group_regex cfg) _) as [cre|]; [|discriminate].
  destruct (re_compile rt (ref_gene_regex cfg) _) as [rre|]; [|discriminate].
  unfold run_from.
  destruct (existsb control_mask _); [|discriminate].
  destruct (filter_fails cfg _); [discriminate|].
  intros _. split; reflexivity.
Qed.

(** The reference mean merged to a Sample is the mean of the reference
    rows of that Sample. *)
Lemma ref_mean_of_sample (wt : list Row) (s : string) :
  merged (ref_per_sample wt) s = Stats.group_mean (map Cq (reference_rows wt s)).
Proof.
  unfold merged, ref_per_sample, reference_rows.
  rewrite lookup_groupby_mean. unfold group_of. rewrite filter_filter.
  simpl key_eqb.
  destruct (mem s (map _SampleLabel (filter ref_mask wt))) eqn:E; [reflexivity|].
  rewrite filter_none; [reflexivity|].
  intros r Hr. destruct (ref_mask r) eqn:Href; [|reflexivity]. simpl.
  apply String.eqb_neq. intros Hs. apply mem_false in E. apply E.
  apply in_map_iff. exists r. split; [assumption|]. apply filter_In. auto.
Qed.
End WorkingTable.

(** X9.  The well sheet of a run that returns has one row per well of the
    working table, ordered by (Gene, Group, Sample), the wells of one key in
    the order of the table. *)
Theorem well_sheet_sorted_stable (rt : Runtime) (cfg : Config) (df : DataFrame)
    (fs : FileSystem) (well : list WellOut) (sample : list SampleOut)
    (out : string) :
  fst (compute_ddct rt cfg df fs) = inr (well, sample, out) ->
  Permutation (map (well_of rt) (ddct_table rt cfg df)) well /\
  (exists wt, working_table rt cfg df = Some wt /\
              List.length well = List.length wt) /\
  StronglySorted (fun a b => kle (well_key a) (well_key b)) well /\
  (forall k, group_of well_key k well
             = group_of well_key k (map (well_of rt) (ddct_table rt cfg df))).
Proof.
  intros Hrun.
  destruct (returned_tables rt cfg df fs well sample out Hrun) as (-> & _ & _).
  assert (Hv : validated (fst (compute_ddct rt cfg df fs)) = true)
    by now rewrite Hrun.
  destruct (validated_tables rt cfg df fs Hv) as [Hwt Hdct].
  unfold well_df. repeat split.
  - apply sort_by_perm.
  - eexists. split; [exact Hwt|].
    rewrite <- (Permutation_length (sort_by_perm _ _)).
    unfold ddct_table, merge_control. rewrite Hdct. unfold merge_ref.
    now rewrite !length_map.
  - apply (sort_by_sorted well_key).
  - intros k. apply (sort_by_stable well_key).
Qed.

(** X10.  In the well sheet of a run that returns, ΔCt of a well is its Cq minus
    the grouped mean (the compensated sum of the values that are not NaN,
    over their number) of the Cq of the reference-gene rows of its Sample in
    the working table, ΔΔCt is ΔCt minus the baseline of its gene, and the
    fold change is 2 ** (-ΔΔCt). *)
Theorem well_sheet_values (rt : Runtime) (cfg : Config) (df : DataFrame)
    (fs : FileSystem) (well : list WellOut) (sample : list SampleOut)
    (out : string) :
  fst (compute_ddct rt cfg df fs) = inr (well, sample, out) ->
  exists wt,
    working_table rt cfg df = Some wt /\
    forall w, In w well ->
      w_ΔCt w
      = (w_Cq w - Stats.group_mean (map Cq (reference_rows wt (w_Sample w))))%float /\
      is_nan (Stats.group_mean (map Cq (reference_rows wt (w_Sample w)))) = false /\
      w_ΔΔCt w
      = (w_ΔCt w - merged (control_baseline (merge_ref wt)) (w_Gene w))%float /\
      w_Fold_Change w = py_pow rt 2%float (- w_ΔΔCt w)%float.
Proof.
  intros Hrun.
  destruct (returned_tables rt cfg df fs well sample out Hrun) as (-> & _ & _).
  assert (Hv : validated (fst (compute_ddct rt cfg df fs)) = true)
    by now rewrite Hrun.
  destruct (validated_tables rt cfg df fs Hv) as [Hwt Hdct].
  destruct (validated_run rt cfg df fs Hv) as (Hnan & _).
  eexists. split; [exact Hwt|].
  set (wt := working cfg (run_classified rt cfg df)) in *.
  intros w Hw. unfold well_df in Hw. apply In_sort_by in Hw.
  apply in_map_iff in Hw. destruct Hw as [r4 [<- Hr4]].
  unfold ddct_table, merge_control in Hr4. apply in_map_iff in Hr4.
  destruct Hr4 as [r3 [<- Hr3]]. rewrite Hdct in Hr3 |- *.
  assert (Hn3 : is_nan (ref_mean_cq r3) = false).
  { rewrite Hdct in Hnan. destruct (is_nan (ref_mean_cq r3)) eqn:N; [|reflexivity].
    rewrite <- Hnan. symmetry. apply existsb_exists. eauto. }
  unfold merge_ref in Hr3. apply in_map_iff in Hr3.
  destruct Hr3 as [r [<- Hr]]. simpl in *.
  rewrite ref_mean_of_sample in Hn3.
  unfold ΔCt, ΔΔCt, Fold_Change, ΔCt. simpl.
  rewrite ref_mean_of_sample. repeat split. exact Hn3.
Qed.

(* ================================================================= *)
(** ** The sample sheet *)

Section SampleSheet.
Variable rt : Runtime.

(** The key of a sample row, from the key of its group. *)
Lemma sample_of_key (src : list RowDD) (k : string * string * string) :
  sample_out_key (sample_of rt src k) = (snd k, fst (fst k), snd (fst k)).
Proof. reflexivity. Qed.

Lemma sample_keys_NoDup (src : list RowDD) :
  NoDup (map sample_out_key (sample_df rt src)).
Proof.
  unfold sample_df.
  eapply Permutation_NoDup;
    [apply Permutation_map, sort_by_perm|].
  rewrite map_map.
  assert (N : NoDup (group_keys sample_key src)) by apply NoDup_group_keys.
  revert N. generalize (group_keys sample_key src). intros ks.
  induction ks as [|k t IH]; simpl; intros N; [constructor|].
  inversion N as [|? ? Hk Nt]; subst. constructor; [|now apply IH].
  intros Hin. apply in_map_iff in Hin. destruct Hin as [k' [E Hk']].
  rewrite !sample_of_key in E. apply Hk.
  destruct k as [[a b] c], k' as [[a' b'] c']. simpl in E.
  injection E as -> -> ->. exact Hk'.
Qed.

(** The wells of the well sheet under the key of a group. *)
Lemma wells_of_group (df4 : list RowDD) (k : string * string * string) :
  group_of well_key (snd k, fst (fst k), snd (fst k)) (map (well_of rt) df4)
  = map (well_of rt) (group_of sample_key k df4).
Proof.
  unfold group_of. rewrite filter_map_swap. f_equal. apply filter_ext.
  intros r. destruct k as [[a b] c]. unfold well_key, sample_key. simpl.
  destruct (String.eqb (Gene (row (rowd r))) c);
    destruct (String.eqb (Group (row (rowd r))) a);
    destruct (String.eqb (_SampleLabel (row (rowd r))) b); reflexivity.
Qed.
End SampleSheet.

Section Exclusion.
Variable cfg : Config.

(** The rows averaged under a key are all the rows of the table under
    that key. *)
Lemma source_group (df4 : list RowDD) (k : string * string * string) :
  ref_by_gene df4 ->
  In k (group_keys sample_key (sample_source cfg df4)) ->
  group_of sample_key k (sample_source cfg df4) = group_of sample_key k df4.
Proof.
  unfold sample_source. destruct (exclude_ref_in_sample_sheet cfg); [|reflexivity].
  intros Hinv Hk. apply In_group_keys in Hk. destruct Hk as [r0 [Hr0 Hk0]].
  apply filter_In in Hr0. destruct Hr0 as [Hr0 Hn0].
  unfold group_of. rewrite filter_comm. apply filter_all.
  intros r Hr. apply filter_In in Hr. destruct Hr as [Hr Hkr].
  apply key_eqb_eq in Hkr.
  rewrite (Hinv r r0 Hr Hr0); [exact Hn0|].
  rewrite <- Hk0 in Hkr. unfold sample_key in Hkr. congruence.
Qed.
End Exclusion.

Lemma ddct_table_ref_by_gene (rt : Runtime) (cfg : Config) (df : DataFrame) :
  ref_by_gene (ddct_table rt cfg df) /\
  (forall rre,
     re_compile rt (ref_gene_regex cfg) (assume_case_insensitive_regex cfg)
       = Some rre ->
     forall r, In r (ddct_table rt cfg df) ->
       ref_mask (row (rowd r)) = rre (Gene (row (rowd r)))).
Proof.
  assert (Hall : forall rre,
     re_compile rt (ref_gene_regex cfg) (assume_case_insensitive_regex cfg)
       = Some rre ->
     forall r, In r (ddct_table rt cfg df) ->
       ref_mask (row (rowd r)) = rre (Gene (row (rowd r)))).
  { intros rre Hrre r Hr. unfold ddct_table, merge_control, dct_table in Hr.
    rewrite Hrre in Hr.
    destruct (re_compile rt (control_group_regex cfg) _) as [cre|];
      [|destruct Hr].
    apply in_map_iff in Hr. destruct Hr as [r3 [<- Hr3]].
    unfold merge_ref in Hr3. apply in_map_iff in Hr3.
    destruct Hr3 as [r1 [<- Hr1]]. simpl.
    assert (Hc : In r1 (classified rt cfg cre rre df)).
    { unfold working in Hr1. destruct (enable_outlier_filter cfg); [|exact Hr1].
      unfold drop_outliers in Hr1. apply filter_In in Hr1. tauto. }
    destruct (classified_row_origin rt cfg cre rre df r1 Hc)
      as (_ & raw & _ & _ & _ & _ & Href & _).
    exact Href. }
  split; [|exact Hall].
  intros r r' Hr Hr' Hg.
  destruct (re_compile rt (ref_gene_regex cfg) (assume_case_insensitive_regex cfg))
    as [rre|] eqn:Hrre.
  - rewrite (Hall rre eq_refl r Hr), (Hall rre eq_refl r' Hr'). now rewrite Hg.
  - unfold ddct_table, dct_table in Hr. rewrite Hrre in Hr.
    destruct (re_compile rt (control_group_regex cfg) _); destruct Hr.
Qed.

(** X11.  The sample sheet of a run that returns has one row per (Gene, Group,
    Sample), ordered by that key; each row holds the grouped means (the
    compensated sum of the values that are not NaN, over their number) of
    the rows of the well sheet that have its key; with the reference genes
    excluded it
    has no gene the reference pattern finds, and otherwise it has every key
    of the well sheet. *)
Theorem sample_sheet_means (rt : Runtime) (cfg : Config) (df : DataFrame)
    (fs : FileSystem) (well : list WellOut) (sample : list SampleOut)
    (out : string) :
  fst (compute_ddct rt cfg df fs) = inr (well, sample, out) ->
  NoDup (map sample_out_key sample) /\
  StronglySorted (fun a b => kle (sample_out_key a) (sample_out_key b)) sample /\
  (forall s, In s sample ->
     let ws := group_of well_key (sample_out_key s) well in
     ws <> [] /\
     s_Cq s = Stats.group_mean (map w_Cq ws) /\
     s_ΔCt s = Stats.group_mean (map w_ΔCt ws) /\
     s_ΔΔCt s = Stats.group_mean (map w_ΔΔCt ws) /\
     s_Fold_Change s = Stats.group_mean (map w_Fold_Change ws)) /\
  (exclude_ref_in_sample_sheet cfg = true ->
   forall rre,
     re_compile rt (ref_gene_regex cfg) (assume_case_insensitive_regex cfg)
       = Some rre ->
     forall s, In s sample -> rre (s_Gene s) = false) /\
  (exclude_ref_in_sample_sheet cfg = false ->
   forall w, In w well -> In (well_key w) (map sample_out_key sample)).
Proof.
  intros Hrun.
  destruct (returned_tables rt cfg df fs well sample out Hrun) as (-> & -> & _).
  set (df4 := ddct_table rt cfg df).
  destruct (ddct_table_ref_by_gene rt cfg df) as [Hinv Href]. fold df4 in Hinv, Href.
  split; [apply sample_keys_NoDup|].
  split; [apply (sort_by_sorted sample_out_key)|].
  split; [|split].
  - intros s Hs. unfold sample_df in Hs. apply In_sort_by in Hs.
    apply in_map_iff in Hs. destruct Hs as [k [<- Hk]].
    rewrite sample_of_key. unfold well_df.
    change (fun w : WellOut => (w_Gene w, w_Group w, w_Sample w)) with well_key.
    rewrite (sort_by_stable well_key), wells_of_group.
    rewrite <- (source_group cfg df4 k Hinv Hk).
    cbv zeta. split.
    + apply In_group_keys in Hk. destruct Hk as [r [Hr Hkr]].
      intros E. apply map_eq_nil in E.
      assert (Hin : In r (group_of sample_key k (sample_source cfg df4)))
        by (apply In_group_of; auto).
      rewrite E in Hin. destruct Hin.
    + rewrite !map_map. repeat split.
  - intros Hex rre Hrre s Hs. unfold sample_df in Hs. apply In_sort_by in Hs.
    apply in_map_iff in Hs. destruct Hs as [k [<- Hk]].
    apply In_group_keys in Hk. destruct Hk as [r [Hr <-]].
    unfold sample_source in Hr. rewrite Hex in Hr. apply filter_In in Hr.
    destruct Hr as [Hr Hn]. simpl. rewrite <- (Href rre Hrre r Hr).
    now apply negb_true_iff in Hn.
  - intros Hex w Hw. unfold well_df in Hw. apply In_sort_by in Hw.
    apply in_map_iff in Hw. destruct Hw as [r [<- Hr]].
    apply in_map_iff. exists (sample_of rt (sample_source cfg df4) (sample_key r)).
    split; [reflexivity|]. unfold sample_df. apply In_sort_by.
    apply in_map. apply In_group_keys. exists r. split; [|reflexivity].
    unfold sample_source. now rewrite Hex.
Qed.

(* ================================================================= *)
(** ** The two last failures *)

Section BaselineFailure.

Lemma baseline_nan (t : list RowD) (g : string) :
  is_nan (merged (control_baseline t) g) = undefined_baseline t g.
Proof.
  unfold merged, undefined_baseline. rewrite control_baseline_lookup.
  destruct (nonempty (filter (is_control_of g) t)); reflexivity.
Qed.

Lemma merge_control_nan (t : list RowD) :
  existsb (fun r => is_nan (control_mean_ΔCt r)) (merge_control t) = true <->
  exists g, In g (map (fun r => Gene (row r)) t) /\ undefined_baseline t g = true.
Proof.
  unfold merge_control. rewrite existsb_exists. split.
  - intros [r [Hr Hn]]. apply in_map_iff in Hr. destruct Hr as [w [<- Hw]].
    simpl in Hn. rewrite baseline_nan in Hn.
    exists (Gene (row w)). split; [|assumption].
    apply in_map_iff. eauto.
  - intros [g [Hg Hu]]. apply in_map_iff in Hg. destruct Hg as [w [<- Hw]].
    exists {| rowd := w;
              control_mean_ΔCt := merged (control_baseline t) (Gene (row w)) |}.
    split.
    + apply in_map_iff. eauto.
    + simpl. now rewrite baseline_nan.
Qed.

Lemma missing_genes_spec (t : list RowD) (g : string) :
  In g (missing_genes (merge_control t)) <->
  In g (map (fun r => Gene (row r)) t) /\ undefined_baseline t g = true.
Proof.
  unfold missing_genes. rewrite In_sorted, In_unique, in_map_iff. split.
  - intros [r [<- Hr]]. apply filter_In in Hr. destruct Hr as [Hr Hn].
    unfold merge_control in Hr. apply in_map_iff in Hr.
    destruct Hr as [w [<- Hw]]. simpl in *. rewrite baseline_nan in Hn.
    split; [|assumption]. apply in_map_iff. eauto.
  - intros [Hg Hu]. apply in_map_iff in Hg. destruct Hg as [w [<- Hw]].
    exists {| rowd := w;
              control_mean_ΔCt := merged (control_baseline t) (Gene (row w)) |}.
    split; [reflexivity|]. apply filter_In. split.
    + unfold merge_control. apply in_map_iff. eauto.
    + simpl. now rewrite baseline_nan.
Qed.

Lemma merge_ref_genes (wt : list Row) :
  map (fun r => Gene (row r)) (merge_ref wt) = map Gene wt.
Proof. unfold merge_ref. rewrite map_map. reflexivity. Qed.
End BaselineFailure.

(** X12.  The run fails with MissingControlBaselineError exactly when it has a
    working table in which every Sample has a defined reference mean and
    some gene has no defined baseline: no control well, or a mean of
    per-sample means that is NaN.  The error names the gene column and
    exactly those genes. *)
Theorem missing_baseline_iff (rt : Runtime) (cfg : Config) (df : DataFrame)
    (fs : FileSystem) :
  ((exists col genes,
      fst (compute_ddct rt cfg df fs) = inl (MissingControlBaselineError col genes))
   <->
   (exists wt, working_table rt cfg df = Some wt /\
      (forall s, In s (map _SampleLabel wt) -> undefined_reference wt s = false) /\
      exists g, In g (map Gene wt) /\ undefined_baseline (merge_ref wt) g = true)) /\
  (forall col genes wt,
     fst (compute_ddct rt cfg df fs) = inl (MissingControlBaselineError col genes) ->
     working_table rt cfg df = Some wt ->
     col = ref_search_col cfg /\
     forall g, In g genes <->
               In g (map Gene wt) /\ undefined_baseline (merge_ref wt) g = true).
Proof.
  rewrite compute_ddct_eq. unfold working_table.
  destruct (nonempty (missing cfg df)).
  { split; [split|]; simpl.
    - intros (c & g & E). revert E. unfold schema_failure.
      destruct (mixed_labels _); discriminate.
    - intros [wt [[=] _]].
    - intros; discriminate. }
  destruct (re_compile rt (control_group_regex cfg) _) as [cre|].
  2:{ split; [split|]; simpl.
      - intros (c & g & [=]).
      - intros [wt [[=] _]].
      - intros; discriminate. }
  destruct (re_compile rt (ref_gene_regex cfg) _) as [rre|].
  2:{ split; [split|]; simpl.
      - intros (c & g & [=]).
      - intros [wt [[=] _]].
      - intros; discriminate. }
  cbv zeta.
  set (df1 := classified rt cfg cre rre df).
  assert (Hdef : forall wt,
    existsb (fun r => is_nan (ref_mean_cq r)) (merge_ref wt) = false <->
    (forall s, In s (map _SampleLabel wt) -> undefined_reference wt s = false)).
  { intros wt. split.
    - intros Hn s Hs. destruct (undefined_reference wt s) eqn:U; [|reflexivity].
      rewrite <- Hn. symmetry. apply merge_ref_nan. eauto.
    - intros Hall. destruct (existsb _ _) eqn:E; [|reflexivity].
      apply merge_ref_nan in E. destruct E as [s [Hs Hu]].
      rewrite (Hall s Hs) in Hu. discriminate. }
  pose proof (run_from_cases rt cfg cre rre df fs) as Hc. cbv zeta in Hc.
  fold df1 in Hc.
  destruct Hc as [[-> Hctl] | [[-> (Hctl & Hf)] | [[-> (Hctl & Hf & Hnan)]
    | [[-> (Hctl & Hf & Hnan & Hcb)] | [[-> (Hctl & Hf & Hnan & Hcb & _)]
    | (Hctl & Hf & Hnan & Hcb & _ & [[_ ->] | [_ [wb [-> | ->]]]])]]]]];
    rewrite Hctl; try rewrite Hf; simpl.
  - split; [split|].
    + intros (c & g & [=]).
    + intros [wt [[=] _]].
    + intros; discriminate.
  - split; [split|].
    + intros (c & g & [=]).
    + intros [wt [[=] _]].
    + intros; discriminate.
  - split; [split|]; try (intros (c & g & [=])); try (intros; discriminate).
    intros [wt [[= <-] [Hall _]]]. apply Hdef in Hall. congruence.
  - split; [split|].
    + intros _. exists (working cfg df1). split; [reflexivity|].
      split; [now apply Hdef|]. rewrite <- merge_ref_genes.
      now apply merge_control_nan.
    + intros _. eauto.
    + intros col genes wt [= <- <-] [= <-]. split; [reflexivity|].
      intros g. rewrite <- merge_ref_genes. apply missing_genes_spec.
  - split; [split|]; try (intros (c & g & [=])); try (intros; discriminate).
    intros [wt [[= <-] [_ Hg]]]. rewrite <- merge_ref_genes in Hg.
    apply merge_control_nan in Hg. congruence.
  - split; [split|]; try (intros (c & g & [=])); try (intros; discriminate).
    intros [wt [[= <-] [_ Hg]]]. rewrite <- merge_ref_genes in Hg.
    apply merge_control_nan in Hg. congruence.
  - split; [split|]; try (intros (c & g & [=])); try (intros; discriminate).
    intros [wt [[= <-] [_ Hg]]]. rewrite <- merge_ref_genes in Hg.
    apply merge_control_nan in Hg. congruence.
  - split; [split|]; try (intros (c & g & [=])); try (intros; discriminate).
    intros [wt [[= <-] [_ Hg]]]. rewrite <- merge_ref_genes in Hg.
    apply merge_control_nan in Hg. congruence.
Qed.

(** X13.  A working table without any row ends the run with EmptyResultError,
    also when no reference gene is excluded from the sample sheet; and a run
    that ends with EmptyResultError had a working table of reference-gene
    rows to exclude, or an empty one. *)
Theorem empty_result_error (rt : Runtime) (cfg : Config) (df : DataFrame)
    (fs : FileSystem) :
  (working_table rt cfg df = Some [] ->
   fst (compute_ddct rt cfg df fs) = inl EmptyResultError) /\
  (fst (compute_ddct rt cfg df fs) = inl EmptyResultError ->
   exists wt, working_table rt cfg df = Some wt /\
     (exclude_ref_in_sample_sheet cfg = false -> wt = []) /\
     (forall r, In r wt -> ref_mask r = true)).
Proof.
  rewrite compute_ddct_eq. unfold working_table.
  on_schema ltac:(split; discriminate).
  destruct (re_compile rt (control_group_regex cfg) _) as [cre|];
    [|split; discriminate].
  destruct (re_compile rt (ref_gene_regex cfg) _) as [rre|];
    [|split; discriminate].
  cbv zeta. set (df1 := classified rt cfg cre rre df).
  pose proof (run_from_cases rt cfg cre rre df fs) as Hc. cbv zeta in Hc.
  fold df1 in Hc.
  destruct Hc as [[-> Hctl] | [[-> (Hctl & Hf)] | [[-> (Hctl & Hf & Hnan)]
    | [[-> (Hctl & Hf & _ & Hcb)] | [[-> (Hctl & Hf & _ & _ & Hsrc)]
    | (Hctl & Hf & _ & _ & Hsrc & Hr)]]]]]; rewrite Hctl; try rewrite Hf; simpl.
  - split; discriminate.
  - split; discriminate.
  - split; [|discriminate]. intros [= E]. rewrite E in Hnan. discriminate.
  - split; [|discriminate]. intros [= E]. rewrite E in Hcb. discriminate.
  - split; [reflexivity|]. intros _. eexists. split; [reflexivity|].
    unfold sample_source in Hsrc. split.
    + intros Hex. rewrite Hex in Hsrc. unfold merge_control, merge_ref in Hsrc.
      apply map_eq_nil in Hsrc. now apply map_eq_nil in Hsrc.
    + intros r Hr. destruct (exclude_ref_in_sample_sheet cfg).
      * destruct (ref_mask r) eqn:Href; [reflexivity|]. exfalso.
        assert (Hin : In {| rowd := {| row := r;
                                        ref_mean_cq := merged (ref_per_sample (working cfg df1))
                                                         (_SampleLabel r) |};
                            control_mean_ΔCt :=
                              merged (control_baseline (merge_ref (working cfg df1)))
                                (Gene r) |}
                        (filter (fun r => negb (ref_mask (row (rowd r))))
                           (merge_control (merge_ref (working cfg df1))))).
        { apply filter_In. split; [|simpl; now rewrite Href].
          unfold merge_control, merge_ref. rewrite map_map.
          apply in_map_iff. exists r. auto. }
        rewrite Hsrc in Hin. destruct Hin.
      * unfold merge_control, merge_ref in Hsrc.
        apply map_eq_nil in Hsrc. apply map_eq_nil in Hsrc.
        rewrite Hsrc in Hr. destruct Hr.
  - split; [|destruct Hr as [[_ ->] | [_ [wb [-> | ->]]]]; discriminate].
    intros [= E]. exfalso. apply Hsrc. rewrite E.
    unfold sample_source. now destruct (exclude_ref_in_sample_sheet cfg).
Qed.

(* ================================================================= *)
(** ** The window *)

Module GuiFacts.
Import Gui.
Open Scope string_scope.

Lemma solid_not_space (c : ascii) : solid c = true -> is_space c = false.
Proof.
  unfold solid. intros H. apply andb_true_iff in H. destruct H as [_ H].
  now apply negb_true_iff in H.
Qed.

Lemma solid_small (c : ascii) : solid c = true -> nat_of_ascii c < 128.
Proof.
  unfold solid, is_ascii. intros H. apply andb_true_iff in H.
  destruct H as [H _]. now apply Nat.ltb_lt in H.
Qed.

Lemma eqb_large (n k : nat) : n < 128 -> 128 <= k -> Nat.eqb n k = false.
Proof. intros H1 H2. apply Nat.eqb_neq. lia. Qed.

Lemma solid_space2_l (a b : ascii) : solid a = true -> space2 a b = false.
Proof.
  intros H. apply solid_small in H. unfold space2. cbv zeta.
  rewrite (eqb_large _ 194 H) by lia. reflexivity.
Qed.


Lemma solid_space3_l (a b c : ascii) : solid a = true -> space3 a b c = false.
Proof.
  intros H. apply solid_small in H. unfold space3. cbv zeta.
  rewrite (eqb_large _ 225 H), (eqb_large _ 226 H), (eqb_large _ 227 H) by lia.
  reflexivity.
Qed.



Lemma digit_solid (c : ascii) : is_digit c = true -> solid c = true.
Proof.
  unfold is_digit, solid, is_ascii, is_space. cbv zeta. intros H.
  apply andb_true_iff in H. destruct H as [H1 H2].
  apply Nat.leb_le in H1. apply Nat.leb_le in H2.
  apply andb_true_iff. split; [apply Nat.ltb_lt; lia|].
  apply negb_true_iff.
  apply orb_false_iff. split; apply andb_false_iff; right; apply Nat.leb_gt; lia.
Qed.

(** [lstrip] skips the white space characters one by one. *)
Lemma lstrip_eq (s : string) :
  lstrip s = match skip_space s with Some r => lstrip r | None => s end.
Proof.
  destruct s as [|a [|b [|c t]]]; cbn [lstrip skip_space]; try reflexivity.
  - destruct (is_space a); reflexivity.
  - destruct (is_space a); [reflexivity|]. destruct (space2 a b); reflexivity.
  - destruct (is_space a); [reflexivity|]. destruct (space2 a b); [reflexivity|].
    destruct (space3 a b c); reflexivity.
Qed.

Lemma skip_space_shorter (s r : string) :
  skip_space s = Some r -> String.length r < String.length s.
Proof.
  destruct s as [|a [|b [|c t]]]; cbn [skip_space]; try discriminate.
  - destruct (is_space a); [|discriminate]. intros [= <-]. simpl. lia.
  - destruct (is_space a); [intros [= <-]; simpl; lia|].
    destruct (space2 a b); [|discriminate]. intros [= <-]. simpl. lia.
  - destruct (is_space a); [intros [= <-]; simpl; lia|].
    destruct (space2 a b); [intros [= <-]; simpl; lia|].
    destruct (space3 a b c); [|discriminate]. intros [= <-]. simpl. lia.
Qed.

(** The white space character a text starts with is in its first bytes:
    what follows them has no part in it. *)
Lemma skip_space_app (s r w : string) :
  skip_space s = Some r -> skip_space (s ++ w) = Some (r ++ w).
Proof.
  destruct s as [|a [|b [|c t]]]; cbn [skip_space append]; try discriminate.
  - destruct (is_space a); [|discriminate]. now intros [= <-].
  - destruct (is_space a); [now intros [= <-]|].
    destruct (space2 a b); [|discriminate]. now intros [= <-].
  - destruct (is_space a); [now intros [= <-]|].
    destruct (space2 a b); [now intros [= <-]|].
    destruct (space3 a b c); [|discriminate]. now intros [= <-].
Qed.

Lemma by_length (P : string -> Prop) :
  (forall s, (forall r, String.length r < String.length s -> P r) -> P s) ->
  forall s, P s.
Proof.
  intros H s. remember (String.length s) as n eqn:E.
  revert s E. induction n as [n IH] using lt_wf_ind. intros s ->.
  apply H. intros r Hr. exact (IH _ Hr r eq_refl).
Qed.

Lemma lstrip_length (s : string) : String.length (lstrip s) <= String.length s.
Proof.
  induction s as [s IH] using by_length. rewrite lstrip_eq.
  destruct (skip_space s) as [r|] eqn:E; [|lia].
  apply skip_space_shorter in E. specialize (IH r E). lia.
Qed.

Lemma lstrip_clean (s : string) : clean_head (lstrip s).
Proof.
  induction s as [s IH] using by_length. rewrite lstrip_eq.
  destruct (skip_space s) as [r|] eqn:E; [|exact E].
  apply IH. now apply skip_space_shorter.
Qed.

Lemma lstrip_id (s : string) : clean_head s -> lstrip s = s.
Proof. unfold clean_head. intros H. now rewrite lstrip_eq, H. Qed.

Lemma solid_clean (c : ascii) (t : string) :
  solid c = true -> clean_head (String c t).
Proof.
  intros H. unfold clean_head. cbn [skip_space].
  rewrite (solid_not_space c H).
  destruct t as [|b [|d t]]; [reflexivity | |].
  - now rewrite solid_space2_l.
  - now rewrite solid_space2_l, solid_space3_l.
Qed.

Lemma lstrip_spaces (lead s : string) :
  all_space lead = true -> lstrip (lead ++ s) = lstrip s.
Proof.
  induction lead as [|c t IH]; intros H; [reflexivity|].
  simpl in H. apply andb_true_iff in H. destruct H as [Hc H].
  simpl append. cbn [lstrip]. rewrite Hc. auto.
Qed.

Lemma lstrip_all_space (s : string) : all_space s = true -> lstrip s = "".
Proof.
  induction s as [|c t IH]; intros H; [reflexivity|].
  simpl in H. apply andb_true_iff in H. destruct H as [Hc H].
  cbn [lstrip]. rewrite Hc. auto.
Qed.

Lemma rstrip_eq (a : ascii) (t : string) :
  rstrip (String a t)
  = if blank (String a t) then "" else String a (rstrip t).
Proof. reflexivity. Qed.

Lemma blank_clean (s : string) : s <> "" -> clean_head s -> blank s = false.
Proof.
  intros Hne H. unfold blank. rewrite (lstrip_id s H).
  destruct s; [contradiction | reflexivity].
Qed.

(** White space after a run of digits is stripped, and no digit. *)
Lemma rstrip_digits_spaces (s trail : string) :
  all_digits s = true -> all_space trail = true -> rstrip (s ++ trail) = s.
Proof.
  intros Hs Ht. induction s as [|c t IH].
  - simpl append. destruct trail as [|c t]; [reflexivity|].
    rewrite rstrip_eq. unfold blank. now rewrite (lstrip_all_space _ Ht).
  - simpl in Hs. apply andb_true_iff in Hs. destruct Hs as [Hc Hs].
    simpl append. rewrite rstrip_eq.
    rewrite blank_clean;
      [| discriminate | apply solid_clean; now apply digit_solid].
    now rewrite (IH Hs).
Qed.

(** ASCII white space around a run of digits is stripped, and nothing
    else. *)
Lemma strip_padded_digits (lead s trail : string) :
  all_space lead = true -> all_space trail = true -> all_digits s = true ->
  strip (lead ++ s ++ trail) = s.
Proof.
  intros Hl Ht Hs. unfold strip. rewrite (lstrip_spaces lead _ Hl).
  destruct s as [|c t].
  - simpl append. rewrite (lstrip_all_space trail Ht). reflexivity.
  - rewrite lstrip_id.
    + now apply rstrip_digits_spaces.
    + simpl in Hs. apply andb_true_iff in Hs. destruct Hs as [Hc _].
      simpl append. apply solid_clean. now apply digit_solid.
Qed.

Lemma rstrip_length (s : string) : String.length (rstrip s) <= String.length s.
Proof.
  induction s as [|a t IH]; [simpl; lia|]. rewrite rstrip_eq.
  destruct (blank (String a t)); simpl; lia.
Qed.

(** A text that [strip] leaves as it is does not start with white space. *)
Lemma strip_clean (s : string) : strip s = s -> clean_head s.
Proof.
  intros E. unfold clean_head.
  destruct (skip_space s) as [r|] eqn:K; [exfalso|reflexivity].
  pose proof (rstrip_length (lstrip s)) as L1.
  fold (strip s) in L1. rewrite E in L1.
  rewrite lstrip_eq, K in L1.
  pose proof (lstrip_length r). apply skip_space_shorter in K. lia.
Qed.












(** What [rstrip] removes is white space. *)
Lemma rstrip_split (s : string) :
  exists r, s = rstrip s ++ r /\ blank r = true.
Proof.
  induction s as [|a t [r [IH Hr]]]; [now exists ""|].
  rewrite rstrip_eq. destruct (blank (String a t)) eqn:B.
  - now exists (String a t).
  - exists r. split; [|exact Hr]. simpl. now rewrite <- IH.
Qed.

Lemma blank_app (u r : string) :
  blank u = true -> blank r = true -> blank (u ++ r) = true.
Proof.
  unfold blank. intros Hu Hr. induction u as [u IH] using by_length.
  rewrite lstrip_eq in Hu. rewrite lstrip_eq.
  destruct (skip_space u) as [u1|] eqn:E.
  - rewrite (skip_space_app u u1 r E). apply IH; [|exact Hu].
    now apply skip_space_shorter.
  - destruct u; [|discriminate]. simpl append. now rewrite <- lstrip_eq.
Qed.

Lemma rstrip_rstrip (s : string) : rstrip (rstrip s) = rstrip s.
Proof.
  induction s as [|a t IH]; [reflexivity|].
  rewrite rstrip_eq. destruct (blank (String a t)) eqn:B; [reflexivity|].
  rewrite rstrip_eq, IH.
  destruct (blank (String a (rstrip t))) eqn:B'; [|reflexivity].
  destruct (rstrip_split t) as (r & Ht & Hr).
  rewrite Ht in B.
  change (String a (rstrip t ++ r)) with (String a (rstrip t) ++ r) in B.
  rewrite (blank_app _ _ B' Hr) in B. discriminate.
Qed.

(** A text starts with white space only if what it is cut from does. *)
Lemma clean_head_prefix (y r : string) : clean_head (y ++ r) -> clean_head y.
Proof.
  unfold clean_head. intros H.
  destruct (skip_space y) as [y1|] eqn:E; [|reflexivity].
  rewrite (skip_space_app y y1 r E) in H. discriminate.
Qed.

Lemma rstrip_clean (s : string) : clean_head s -> clean_head (rstrip s).
Proof.
  intros H. destruct (rstrip_split s) as (r & Hs & _).
  rewrite Hs in H. now apply clean_head_prefix in H.
Qed.

(** Stripping twice is stripping once. *)
Lemma strip_strip (s : string) : strip (strip s) = strip s.
Proof.
  unfold strip. rewrite (lstrip_id (rstrip (lstrip s))).
  - apply rstrip_rstrip.
  - apply rstrip_clean, lstrip_clean.
Qed.

Lemma or_default_clean (text default : string) :
  default <> "" -> strip default = default ->
  or_default text default <> "" /\
  strip (or_default text default) = or_default text default.
Proof.
  intros Hd Hs. unfold or_default.
  destruct (strip text) as [|c t] eqn:E; simpl; [now split|].
  split; [discriminate|]. rewrite <- E. apply strip_strip.
Qed.

Lemma numeral_digits (d : Decimal.uint) :
  all_digits (NilEmpty.string_of_uint d) = true.
Proof. induction d; simpl; auto. Qed.

Lemma digits_value_acc (d : Decimal.uint) (p : positive) :
  digits_value (N.pos p) (NilEmpty.string_of_uint d) = N.pos (Pos.of_uint_acc d p).
Proof.
  revert p.
  induction d; intros p;
    cbn [NilEmpty.string_of_uint digits_value Pos.of_uint_acc];
    [reflexivity | rewrite <- IHd; f_equal; vm_compute N_of_ascii; lia ..].
Qed.

Lemma digits_value_uint (d : Decimal.uint) :
  digits_value 0 (NilEmpty.string_of_uint d) = N.of_uint d.
Proof.
  unfold N.of_uint.
  induction d; cbn [NilEmpty.string_of_uint digits_value Pos.of_uint];
    [reflexivity | exact IHd | apply digits_value_acc ..].
Qed.

(** Reading the numeral of a number gives the number. *)
Lemma digits_value_numeral (n : N) : digits_value 0 (numeral n) = n.
Proof.
  unfold numeral. rewrite digits_value_uint. apply DecimalN.Unsigned.of_to.
Qed.

Lemma all_digits_app (a b : string) :
  all_digits (a ++ b) = all_digits a && all_digits b.
Proof.
  induction a as [|c a IH]; simpl; [reflexivity|]. now rewrite IH, andb_assoc.
Qed.

Lemma zeros_digits (k : nat) : all_digits (zeros k) = true.
Proof. induction k; simpl; auto. Qed.

Lemma digits_value_zeros (k : nat) (s : string) :
  digits_value 0 (zeros k ++ s) = digits_value 0 s.
Proof. induction k; simpl; auto. Qed.

Lemma parse_digits (lead s trail : string) :
  all_space lead = true -> all_space trail = true -> all_digits s = true ->
  (String.length s <= 4300)%nat ->
  _parse_sheet_name (lead ++ s ++ trail) = SheetIndex (digits_value 0 s).
Proof.
  intros Hl Ht Hs Hlen. unfold _parse_sheet_name. cbv zeta.
  rewrite (strip_padded_digits lead s trail Hl Ht Hs).
  destruct (String.eqb s "") eqn:E1.
  - apply String.eqb_eq in E1. subst s. reflexivity.
  - destruct (String.eqb s "0") eqn:E2.
    + apply String.eqb_eq in E2. subst s. reflexivity.
    + simpl. unfold isdigit, py_int. rewrite Hs.
      destruct s; [discriminate|]. simpl negb. simpl andb.
      apply Nat.leb_le in Hlen. now rewrite Hlen.
Qed.

Lemma lower_app (a b : string) : Str.lower (a ++ b) = Str.lower a ++ Str.lower b.
Proof. induction a as [|c a IH]; simpl; [reflexivity|]. now rewrite IH. Qed.

Lemma endswith_app (suffix a : string) : endswith suffix (a ++ suffix) = true.
Proof.
  induction a as [|c a IH]; simpl.
  - destruct suffix; simpl; [reflexivity|].
    now rewrite Ascii.eqb_refl, String.eqb_refl.
  - rewrite IH. apply orb_true_r.
Qed.

Lemma ensure_xlsx_ends (path : string) :
  endswith ".xlsx" (Str.lower (ensure_xlsx path)) = true.
Proof.
  unfold ensure_xlsx. destruct (endswith ".xlsx" (Str.lower path)) eqn:E; simpl.
  - exact E.
  - rewrite lower_app. apply endswith_app.
Qed.


End GuiFacts.

(** X14.  The sheet field selects a sheet by index when it holds a number:
    the decimal numeral of [n], with any leading zeros and any white space
    around it, is read as the index [n] (up to the 4300 digits that [int]
    converts).  A field read as a sheet name is the stripped text of the
    field, is not blank, and is not a run of at most 4300 digits: a sheet
    named by a number cannot be selected by its name. *)
Theorem sheet_index_round_trip :
  (forall (n : N) (k : nat) (lead trail : string),
     Gui.all_space lead = true -> Gui.all_space trail = true ->
     String.length (Gui.zeros k ++ Gui.numeral n) <= 4300 ->
     Gui._parse_sheet_name (lead ++ (Gui.zeros k ++ Gui.numeral n) ++ trail)
     = Gui.SheetIndex n) /\
  (forall text s : string,
     Gui.ascii_text text = true ->
     Gui._parse_sheet_name text = Gui.SheetName s ->
     s = Gui.strip text /\ s <> EmptyString /\
     (Gui.all_digits s = true -> 4300 < String.length s)).
Proof.
  split.
  - intros n k lead trail Hl Ht Hlen.
    rewrite (GuiFacts.parse_digits lead _ trail Hl Ht); [| |exact Hlen].
    + now rewrite GuiFacts.digits_value_zeros, GuiFacts.digits_value_numeral.
    + rewrite GuiFacts.all_digits_app, GuiFacts.zeros_digits.
      apply GuiFacts.numeral_digits.
  - intros text s _. unfold Gui._parse_sheet_name. cbv zeta.
    destruct (String.eqb (Gui.strip text) "") eqn:E1; [discriminate|].
    destruct (String.eqb (Gui.strip text) "0") eqn:E2; [discriminate|]. simpl.
    apply String.eqb_neq in E1.
    unfold Gui.isdigit, Gui.py_int.
    destruct (Gui.strip text) as [|c t] eqn:E; [contradiction|].
    cbn [Str.is_empty negb andb].
    destruct (Gui.all_digits (String c t)) eqn:D.
    + destruct (Nat.leb (String.length (String c t)) 4300) eqn:L; [discriminate|].
      intros [= <-]. repeat split; [discriminate|]. intros _.
      apply Nat.leb_gt in L. exact L.
    + intros [= <-]. repeat split; [discriminate|]. rewrite D. discriminate.
Qed.

(** X15.  The path the save dialog returns goes in the output field with
    the extension .xlsx, in any case of letters: it is kept when it has the
    extension and gets ".xlsx" appended otherwise, so that picking the
    result again changes nothing; a cancelled dialog leaves the field as it
    was. *)
Theorem pick_output_extension (picked current : string) :
  (picked <> EmptyString ->
   Gui.endswith ".xlsx" (Str.lower (Gui._pick_output picked current)) = true /\
   (Gui._pick_output picked current = picked \/
    Gui._pick_output picked current = (picked ++ ".xlsx")%string) /\
   (Gui.endswith ".xlsx" (Str.lower picked) = true ->
    Gui._pick_output picked current = picked) /\
   Gui._pick_output (Gui._pick_output picked current) current
   = Gui._pick_output picked current) /\
  Gui._pick_output EmptyString current = current.
Proof.
  split; [|reflexivity]. intros Hne.
  assert (E : Gui._pick_output picked current = Gui.ensure_xlsx picked)
    by (destruct picked; [contradiction | reflexivity]).
  rewrite E. split; [apply GuiFacts.ensure_xlsx_ends|].
  assert (Hid : Gui.endswith ".xlsx" (Str.lower picked) = true ->
                Gui.ensure_xlsx picked = picked)
    by (unfold Gui.ensure_xlsx; now intros ->).
  split; [|split; [exact Hid|]].
  - unfold Gui.ensure_xlsx. destruct (Gui.endswith _ _); simpl; auto.
  - assert (N : Gui.ensure_xlsx picked <> EmptyString).
    { unfold Gui.ensure_xlsx.
      destruct (negb _); destruct picked; simpl; try discriminate; contradiction. }
    destruct (Gui.ensure_xlsx picked) as [|c t] eqn:X; [contradiction|].
    cbn [Gui._pick_output Str.is_empty negb]. rewrite <- X.
    unfold Gui.ensure_xlsx at 1. now rewrite GuiFacts.ensure_xlsx_ends.
Qed.

(* ================================================================= *)
(** ** When a workbook is written *)

Lemma not_validated_leaves_fs (rt : Runtime) (cfg : Config) (df : DataFrame)
    (fs : FileSystem) :
  validated (fst (compute_ddct rt cfg df fs)) = false ->
  snd (compute_ddct rt cfg df fs) = fs.
Proof.
  rewrite compute_ddct_eq.
  on_schema ltac:(reflexivity).
  destruct (re_compile rt (control_group_regex cfg) _) as [cre|]; [|reflexivity].
  destruct (re_compile rt (ref_gene_regex cfg) _) as [rre|]; [|reflexivity].
  destruct (run_from_outcome rt cfg cre rre df fs)
    as [[e [-> _]] | [wb [-> | (w & s & ->)]]]; simpl;
    try reflexivity; discriminate.
Qed.

(** How a run that passed every validation ends: the writer refuses the
    output path, or the export fails after it saved a workbook, or the run
    returns with the workbook saved. *)
Lemma validated_outcome (rt : Runtime) (cfg : Config) (df : DataFrame)
    (fs : FileSystem) :
  validated (fst (compute_ddct rt cfg df fs)) = true ->
  (check_extension (snd (OsPath.splitext (out_path cfg))) = false /\
   compute_ddct rt cfg df fs
   = (inl (ExtensionError (Str.drop_dot (snd (OsPath.splitext (out_path cfg))))),
      fs)) \/
  (check_extension (snd (OsPath.splitext (out_path cfg))) = true /\
   String.eqb (well_col cfg) "Well" = false /\
   exists wb,
     compute_ddct rt cfg df fs
     = (inl (KeyError "Well"), (out_path cfg, wb) :: fs)) \/
  (check_extension (snd (OsPath.splitext (out_path cfg))) = true /\
   exists wb well sample,
     compute_ddct rt cfg df fs
     = (inr (well, sample, out_path cfg), (out_path cfg, wb) :: fs)).
Proof.
  intros V. destruct (validated_run rt cfg df fs V) as (_ & _ & _ & E).
  rewrite E, export_spec.
  destruct (check_extension _); cbn [negb]; [|now left].
  right.
  destruct (_ && negb (String.eqb (well_col cfg) "Well")) eqn:C.
  - left. apply andb_true_iff in C. destruct C as [_ C].
    apply negb_true_iff in C. eauto.
  - right. eauto 6.
Qed.

(** A failed run leaves the file system as it was, unless it failed in the
    export. *)
Lemma failed_run_fs (rt : Runtime) (cfg : Config) (df : DataFrame)
    (fs : FileSystem) (e : Error) (fs' : FileSystem) :
  compute_ddct rt cfg df fs = (inl e, fs') ->
  fs' = fs \/
  (e = KeyError "Well" /\ exists wb, fs' = (out_path cfg, wb) :: fs).
Proof.
  intros Erun.
  destruct (validated (fst (compute_ddct rt cfg df fs))) eqn:V.
  - destruct (validated_outcome rt cfg df fs V)
      as [[_ E] | [(_ & _ & wb & E) | (_ & wb & w & s & E)]];
      rewrite Erun in E.
    + injection E as _ E. now left.
    + injection E as E1 E2. right. split; [exact E1|]. eauto.
    + discriminate.
  - left. pose proof (not_validated_leaves_fs rt cfg df fs V) as L.
    now rewrite Erun in L.
Qed.

(** X16.  The five column names the window hands to the engine: none is
    blank, and none has white space around it, the white space outside
    ASCII included (a field that is blank once stripped is read as its
    fallback name). *)
Theorem gathered_arguments (f : Gui.Form) :
  Forall (fun c => c <> EmptyString /\ Gui.strip c = c /\ Gui.clean_head c)
    (required_cols (Gui.gather f)).
Proof.
  assert (H : forall text default,
            default <> EmptyString -> Gui.strip default = default ->
            Gui.or_default text default <> EmptyString /\
            Gui.strip (Gui.or_default text default) = Gui.or_default text default /\
            Gui.clean_head (Gui.or_default text default)).
  { intros text default Hd Hs.
    destruct (GuiFacts.or_default_clean text default Hd Hs) as [H1 H2].
    repeat split; auto. now apply GuiFacts.strip_clean. }
  unfold required_cols, Gui.gather. simpl.
  repeat constructor; try (apply H; [discriminate | reflexivity]).
Qed.

(** X17.  How a click on Run ends.  Without an input path that is a file,
    nothing is run: the window and the file system stay as they were.  When
    the engine fails, the window stays as it was, and so does the file
    system unless the failure is the KeyError of the export, which leaves
    one workbook behind.  When the engine returns, the output field holds
    the returned path, one workbook was saved at that path, and it is the
    path of the output field when that was not blank. *)
Theorem run_click (rt : Runtime) (isfile : string -> bool)
    (read_excel : string -> Gui.sheet_name -> DataFrame) (f : Gui.Form)
    (fs : FileSystem) :
  match Gui._run_compute rt isfile read_excel f fs with
  | (f', Gui.PathWarning, fs') =>
      (Gui.strip (Gui.le_input f) = EmptyString \/
       isfile (Gui.strip (Gui.le_input f)) = false) /\
      f' = f /\ fs' = fs
  | (f', Gui.RunFailed e, fs') =>
      isfile (Gui.strip (Gui.le_input f)) = true /\ f' = f /\
      (fs' = fs \/
       e = KeyError "Well" /\
       exists wb, fs' = (out_path (Gui.gather f), wb) :: fs)
  | (f', Gui.Done out, fs') =>
      isfile (Gui.strip (Gui.le_input f)) = true /\
      f' = Gui.set_output f out /\
      (exists wb, fs' = (out, wb) :: fs) /\
      (Gui.strip (Gui.le_output f) <> EmptyString ->
       out = Gui.strip (Gui.le_output f))
  end.
Proof.
  unfold Gui._run_compute. cbv zeta.
  destruct (Gui.strip (Gui.le_input f)) as [|c t] eqn:Ein; simpl; [auto|].
  rewrite <- Ein.
  destruct (isfile (Gui.strip (Gui.le_input f))) eqn:Efile; simpl; [|auto].
  set (df := read_excel _ _).
  destruct (compute_ddct rt (Gui.gather f) df fs)
    as [[e | [[well sample] out]] fs'] eqn:Erun.
  - repeat split. exact (failed_run_fs rt (Gui.gather f) df fs e fs' Erun).
  - repeat split.
    + pose proof (success_writes rt (Gui.gather f) df fs well sample out) as W.
      rewrite Erun in W. exact (W eq_refl).
    + intros Hne.
      pose proof (returned_tables rt (Gui.gather f) df fs well sample out) as R.
      rewrite Erun in R. destruct (R eq_refl) as (_ & _ & ->).
      unfold out_path, Gui.gather. simpl.
      destruct (Gui.strip (Gui.le_output f)); [contradiction | reflexivity].
Qed.


(** X19.  The run writes at most one workbook, and only after every
    validation has passed and the writer has accepted the extension of the
    output path.  Either the run fails and the file system is as it was; or
    the writer accepted the extension and exactly one workbook was written,
    at the given output path or the default one, and then the run returns,
    unless the well column has another name than "Well" and the export fails
    with the KeyError.  (The file system lets the writer open every
    path.) *)
Theorem writes_only_when_validated (rt : Runtime) (cfg : Config) (df : DataFrame)
    (fs : FileSystem) :
  (snd (compute_ddct rt cfg df fs) = fs /\
   exists e, fst (compute_ddct rt cfg df fs) = inl e /\
             forall col, e <> KeyError col) \/
  (check_extension (snd (OsPath.splitext (out_path cfg))) = true /\
   validated (fst (compute_ddct rt cfg df fs)) = true /\
   exists wb,
     snd (compute_ddct rt cfg df fs) = (out_path cfg, wb) :: fs /\
     ((exists well sample,
         fst (compute_ddct rt cfg df fs) = inr (well, sample, out_path cfg)) \/
      (fst (compute_ddct rt cfg df fs) = inl (KeyError "Well") /\
       String.eqb (well_col cfg) "Well" = false))).
Proof.
  destruct (validated (fst (compute_ddct rt cfg df fs))) eqn:V.
  - destruct (validated_outcome rt cfg df fs V)
      as [[_ E] | [(X & W & wb & E) | (X & wb & w & s & E)]]; rewrite E; simpl.
    + left. split; [reflexivity|]. eexists. split; [reflexivity|]. discriminate.
    + right. split; [exact X|]. split; [reflexivity|].
      exists wb. split; [reflexivity|]. right. auto.
    + right. split; [exact X|]. split; [reflexivity|].
      exists wb. split; [reflexivity|]. left. eauto.
  - left. split; [now apply not_validated_leaves_fs|].
    destruct (fst (compute_ddct rt cfg df fs)) as [e|r]; [|discriminate].
    exists e. split; [reflexivity|]. intros col ->. discriminate.
Qed.

(** X20.  With the well column field left blank or as "Well", a click on
    Run that ends in a failure leaves the file system as it was: no
    workbook is left behind by a failed run. *)
Theorem failed_click_writes_nothing (rt : Runtime) (isfile : string -> bool)
    (read_excel : string -> Gui.sheet_name -> DataFrame) (f : Gui.Form)
    (fs : FileSystem) (e : Error) :
  Gui.strip (Gui.le_well_col f) = EmptyString \/
  Gui.strip (Gui.le_well_col f) = "Well"%string ->
  snd (fst (Gui._run_compute rt isfile read_excel f fs)) = Gui.RunFailed e ->
  snd (Gui._run_compute rt isfile read_excel f fs) = fs.
Proof.
  intros Hw. unfold Gui._run_compute. cbv zeta.
  destruct (Str.is_empty _ || negb _); [discriminate|].
  set (df := read_excel _ _).
  assert (W : String.eqb (well_col (Gui.gather f)) "Well" = true).
  { unfold Gui.gather, Gui.or_default. simpl.
    destruct Hw as [-> | ->]; reflexivity. }
  destruct (validated (fst (compute_ddct rt (Gui.gather f) df fs))) eqn:V.
  - destruct (validated_outcome rt (Gui.gather f) df fs V)
      as [[_ E] | [(_ & W' & _) | (_ & wb & w & s & E)]].
    + rewrite E. reflexivity.
    + rewrite W in W'. discriminate.
    + rewrite E. discriminate.
  - pose proof (not_validated_leaves_fs rt (Gui.gather f) df fs V) as L.
    destruct (compute_ddct rt (Gui.gather f) df fs) as [[e' | [[w s] o]] fs'];
      simpl in *; [intros _; exact L | discriminate].
Qed.

(* ================================================================= *)
(** ** The properties on runs of the examples *)

(** White space outside ASCII is stripped as Python strips it. *)
Example strip_wide_space :
  Gui.strip (Demo.no_break_space ++ " Cq" ++ Demo.ideographic_space ++ " ")
  = "Cq"%string /\
  Gui.or_default Demo.ideographic_space "Well" = "Well"%string /\
  Gui._parse_sheet_name (Demo.no_break_space ++ "2" ++ Demo.ideographic_space)
  = Gui.SheetIndex 2 /\
  Gui.strip ("a" ++ Demo.no_break_space ++ "b") = ("a" ++ Demo.no_break_space ++ "b")%string.
Proof. vm_compute. repeat split. Qed.

(** A run whose filter removes every well. *)
Example empty_working_table :
  working_table Demo.runtime Demo.strict_config Demo.only_controls = Some [] /\
  fst (compute_ddct Demo.runtime Demo.strict_config Demo.only_controls [])
  = inl EmptyResultError.
Proof. vm_compute. split; reflexivity. Qed.

Lemma outlier_flag_is_local_witness :
  nth_error
    (group_of grp_key (grp_key Demo.far_well)
       (classified Demo.runtime Demo.position_config Demo.control_re Demo.ref_re
          Demo.position_sheet)) 4 = Some Demo.far_well /\
  _Outlier Demo.position_config
    (classified Demo.runtime Demo.position_config Demo.control_re Demo.ref_re
       Demo.position_sheet) Demo.far_well = true /\
  _Outlier Demo.position_config
    (classified Demo.runtime Demo.position_config Demo.control_re Demo.ref_re
       Demo.position_sheet) Demo.far_well
  = if (Z.of_nat (List.length
          (group_of grp_key (grp_key Demo.far_well)
             (classified Demo.runtime Demo.position_config Demo.control_re
                Demo.ref_re Demo.position_sheet)))
        <? outlier_min_reps Demo.position_config)%Z
    then false
    else nth 4
           (Stats._flag_outliers
              (map Cq (group_of grp_key (grp_key Demo.far_well)
                         (classified Demo.runtime Demo.position_config
                            Demo.control_re Demo.ref_re Demo.position_sheet)))
              (Str.lower (outlier_method Demo.position_config))
              (outlier_threshold Demo.position_config))
           false.
Proof.
  split; [vm_compute; reflexivity|]. split; [vm_compute; reflexivity|].
  apply (outlier_flag_is_local Demo.runtime Demo.position_config Demo.control_re
           Demo.ref_re Demo.position_sheet Demo.far_well 4);
    [vm_compute; discriminate | vm_compute; reflexivity].
Defined.

Lemma filter_off_keeps_every_well_witness :
  enable_outlier_filter Demo.unfiltered_config = false /\
  fst (compute_ddct Demo.runtime Demo.unfiltered_config Demo.two_controls [])
  = inr (Demo.two_controls_well, Demo.two_controls_sample, Demo.two_controls_out) /\
  List.length Demo.two_controls_well
  = List.length (numeric_rows Demo.runtime Demo.unfiltered_config Demo.two_controls) /\
  snd (compute_ddct Demo.runtime Demo.unfiltered_config Demo.two_controls [])
  = [(Demo.two_controls_out,
      [("well"%string, WellSheet Demo.two_controls_well);
       ("sample"%string, SampleSheet Demo.two_controls_sample)])].
Proof.
  split; [reflexivity|]. split; [vm_compute; reflexivity|].
  apply (filter_off_keeps_every_well Demo.runtime Demo.unfiltered_config
           Demo.two_controls [] Demo.two_controls_well Demo.two_controls_sample
           Demo.two_controls_out);
    [reflexivity | vm_compute; reflexivity].
Defined.


Lemma export_fails_after_saving_witness :
  validated (fst (compute_ddct Demo.runtime Demo.position_config
                    Demo.position_sheet [])) = true /\
  outliers_of Demo.position_config
    (run_classified Demo.runtime Demo.position_config Demo.position_sheet)
  = [Demo.far_well] /\
  compute_ddct Demo.runtime Demo.position_config Demo.position_sheet []
  = (inl (KeyError "Well"),
     [(out_path Demo.position_config,
       [("well"%string,
         WellSheet (well_df Demo.runtime
                      (ddct_table Demo.runtime Demo.position_config
                         Demo.position_sheet)));
        ("sample"%string,
         SampleSheet
           (sample_df Demo.runtime
              (sample_source Demo.position_config
                 (ddct_table Demo.runtime Demo.position_config
                    Demo.position_sheet))))])]).
Proof.
  split; [vm_compute; reflexivity|]. split; [vm_compute; reflexivity|].
  apply (export_fails_after_saving Demo.runtime Demo.position_config
           Demo.position_sheet []);
    [vm_compute; reflexivity | vm_compute; reflexivity | reflexivity
    | reflexivity | reflexivity | vm_compute; discriminate].
Defined.

Lemma well_sheet_sorted_stable_witness :
  fst (compute_ddct Demo.runtime Demo.plate_config Demo.noisy_controls [])
  = inr (Demo.noisy_well, Demo.noisy_sample, Demo.noisy_out) /\
  StronglySorted (fun a b => kle (well_key a) (well_key b)) Demo.noisy_well /\
  List.length Demo.noisy_well = 7.
Proof.
  split; [vm_compute; reflexivity|].
  split; [|vm_compute; reflexivity].
  apply (well_sheet_sorted_stable Demo.runtime Demo.plate_config
           Demo.noisy_controls [] Demo.noisy_well Demo.noisy_sample Demo.noisy_out).
  vm_compute. reflexivity.
Defined.

Lemma well_sheet_values_witness :
  fst (compute_ddct Demo.runtime Demo.two_controls_config Demo.two_controls [])
  = inr (Demo.two_controls_well, Demo.two_controls_sample, Demo.two_controls_out) /\
  exists wt,
    working_table Demo.runtime Demo.two_controls_config Demo.two_controls = Some wt /\
    forall w, In w Demo.two_controls_well ->
      w_ΔCt w
      = (w_Cq w - Stats.group_mean (map Cq (reference_rows wt (w_Sample w))))%float /\
      is_nan (Stats.group_mean (map Cq (reference_rows wt (w_Sample w)))) = false /\
      w_ΔΔCt w
      = (w_ΔCt w - merged (control_baseline (merge_ref wt)) (w_Gene w))%float /\
      w_Fold_Change w = py_pow Demo.runtime 2%float (- w_ΔΔCt w)%float.
Proof.
  split; [vm_compute; reflexivity|].
  apply (well_sheet_values Demo.runtime Demo.two_controls_config Demo.two_controls
           [] Demo.two_controls_well Demo.two_controls_sample Demo.two_controls_out).
  vm_compute. reflexivity.
Defined.

Lemma sample_sheet_means_witness :
  fst (compute_ddct Demo.runtime Demo.two_controls_config Demo.two_controls [])
  = inr (Demo.two_controls_well, Demo.two_controls_sample, Demo.two_controls_out) /\
  NoDup (map sample_out_key Demo.two_controls_sample) /\
  List.length Demo.two_controls_sample = 6.
Proof.
  split; [vm_compute; reflexivity|].
  split; [|vm_compute; reflexivity].
  apply (sample_sheet_means Demo.runtime Demo.two_controls_config Demo.two_controls
           [] Demo.two_controls_well Demo.two_controls_sample Demo.two_controls_out).
  vm_compute. reflexivity.
Defined.


Lemma failed_click_writes_nothing_witness :
  snd (fst (Gui._run_compute Demo.runtime Demo.any_file Demo.read_infinite_reference
              (Gui.set_input Demo.form "/data/plate.xlsx") []))
  = Gui.RunFailed (MissingReferenceError ["CTR-1"%string]) /\
  snd (Gui._run_compute Demo.runtime Demo.any_file Demo.read_infinite_reference
         (Gui.set_input Demo.form "/data/plate.xlsx") [])
  = [].
Proof.
  split; [vm_compute; reflexivity|].
  apply (failed_click_writes_nothing Demo.runtime Demo.any_file
           Demo.read_infinite_reference
           (Gui.set_input Demo.form "/data/plate.xlsx") []
           (MissingReferenceError ["CTR-1"%string]));
    [right; reflexivity | vm_compute; reflexivity].
Defined.
